(* ===== verification/_CoqProject ===== *)
-Q . S2P
Prelude.v
Bytes.v
Struct.v
Bus.v
Engine.v
Endpoints.v
Typing.v
Calls.v
Peripheral.v
Recovery.v
Concurrency.v
Firmware.v
Locking.v
