(* ===== verification/Prelude.v ===== *)
(** * Verification of the Pololu A-Star Raspberry Pi bridge ([src/a_star.py])

    The program is one Python class, [AStar], that talks to an AVR
    microcontroller over I2C (SMBus bus 1, device address 20).  It has two
    layers, and this development models both:

    - the Transaction Engine: [AStar.read_unpack] (lines 15-46) and
      [AStar.write_pack] (lines 50-58) turn a register address and a
      Python [struct] format string into bus traffic, and convert bus faults
      into the error state [self.errors] (cumulative count) and [self.error]
      (flag of the last operation);
    - the Register Endpoint Layer: [leds], [play_notes], [motors] (writes),
      [read_buttons], [read_battery_millivolts], [read_analog],
      [read_encoders] (reads, each with a sentinel for failures), and the
      diagnostics [test_read8], [test_read32], [test_write8] (lines 62-145).

    The Engine calls two collaborators outside the repository, Python's
    [struct] module and the [smbus] transport; the development models them
    from their documented behaviour, since the program's correctness
    rests on them.

    ** Files (in dependency order, see _CoqProject)

    - [Prelude] (this file): the Python value domain [pyval], Python
      exceptions [py_exn], and [PyM S], a state-and-exception monad that
      threads the object state and carries Python's raise, [try/except] and
      [try/except/else]; it is an stdpp monad, so the code reads
      [x ← m; k] and [m;; k].  Hint databases [teleop] and [teleop_rw], the
      tactic [py_run] that evaluates monadic code.
    - [Bytes]: little- and big-endian encoding of integers as byte lists
      and two's complement sign extension, with round-trip and range lemmas.
    - [Struct] (Module [Struct]): CPython's [_struct] for the format
      characters the program uses ([c B ? h H s]) with repeat counts,
      whitespace, the byte-order prefixes and native alignment:
      [parse_format], [calcsize], [pack] (with its range checks) and
      [unpack]; the codec lemmas ([unpack_pack], [pack_calcsize],
      [pack_item_ok], [unpack_item_ok], [pack_range]).
    - [Bus]: the [smbus] transport as the type class [SMBus]
      (write_byte, read_byte, write_i2c_block_data, each succeeding or
      failing) and its laws [SMBusLaws] (an ok-invariant kept by every
      operation, under which reads return bytes).  The Engine's theorems
      are proved against this interface; two instances discharge it: a
      scripted test bus ([Scripted]) and the peripheral's register file
      ([Peripheral.RegFile]).
    - [Engine] (Section over any [SMBus]): the object state [AStar] (bus
      handle, [errors], [error], and [trace], a ghost list of the bus and
      sleep events in order), [astar_new] for [AStar()] (whose
      [smbus.SMBus(1)] may raise) and [astar_init] for the object it
      builds, the Python
      statements the methods use, [read_unpack], [write_pack], and the
      direct transaction descriptions [read_txn], [write_txn] of spec
      section 4.1.
    - [Endpoints]: the ten public methods, the register table of spec
      section 4.2 ([reg_desc], [read_endpoints], the generic
      [read_register]), the public API [call]/[run_call], sequences of calls
      [run_calls], and the states [reachable] from [__init__].
    - [Typing]: a typing judgement on Python values ([pyty], the decision
      procedure [has_typeb]), the types [struct.unpack] produces for a
      format ([fmt_types]) and the type each read endpoint promises
      ([endpoint_ty]: its layout tuple or its sentinel list).
    - [Calls]: the endpoints' own [self.error=0] compared with the code
      without it ([read_body], [write_body]), [call_budget], the bus
      operations a call performs, and [smbus_event_ok], what the SMBus
      protocol admits of one operation.
    - [Peripheral]: the firmware's register file as a bus instance
      ([RegFile]), and the primitives and the read endpoints on it.
    - [Recovery]: [FaultBudget], the interface of a transport whose
      faults are finitely many (a measure that no operation increases
      and every failed operation decreases), and [Lossy], a line that
      loses a given number of transfers, which implements it.
    - [Concurrency]: every method as a [thread] of atomic Python
      statements on the shared object ([call_t]), and two threads under
      a schedule ([interleave], [run_pair]).
    - [Firmware]: the peripheral's firmware refreshing its registers as
      a thread of atomic updates ([fw_t], [fw_store]) beside a program
      thread; [run_pair_fw] turns every such interleaving into a run of
      the program thread in an environment ([run_env]), and [fw_upd]
      bounds what the environment may do (registers only, each at its
      old or new value).
    - [Locking]: a pool of any number of threads ([list thread]) under a
      schedule of thread indices ([step_at], [run_pool]), run to their
      ends in an order ([serial_n]); the per-call lock for the pool
      ([run_locked_n]); the sequential reference, the calls of [run_call]
      one after the other in an order ([serial_calls]); and the methods
      under the lock spec section 5 prescribes, around the transaction
      only ([call_txn]: [read_unpack] or [write_pack] one atomic step, the
      method's own statements outside it).

    ** Theorems (the claims C1-C34 of the manifest)

    - refinement (C1, C8): [read_unpack] and [write_pack] equal [read_txn]
      and [write_txn]; every later Engine theorem is read off these;
    - ordering (C2): a read transaction emits the select write, exactly one
      200 us sleep, then only byte reads, whatever the bus answers;
    - error state (C4, C7, C13, C20, C21): the flag is 1 exactly when
      the counter grew, for every method but [test_write8], which leaves
      both untouched and lets bus faults escape;
    - invariants (C5, C6): by rule induction on [reachable], every
      reachable state is well formed, and [errors] never decreases along
      any sequence of calls;
    - endpoints (C3, C10, C11, C14-C17, C19): sentinels on every failure
      path, wire layouts of motors, notes, encoders, range errors;
    - round trip and bounds (C9, C12, C18): write-then-read on the register
      file returns the values, [read_unpack] never raises when the size
      matches the format, a block has [calcsize] bytes;
    - typing (C22): every read endpoint returns [Union[Tuple[layout],
      List[int]]], each field in its format's range;
    - equivalence (C23, C24): the endpoints' reset is redundant for the
      reads and needed for the writes exactly when [struct.pack] rejects
      the values on a stale flag;
    - termination and the transport contract (C25, C29): every call ends
      after at most [call_budget] bus operations and sleeps (34 for
      [test_read32]), each of them one SMBus admits (device 20, 8-bit
      register, blocks of at most 32 bytes);
    - the register file (C26): each read endpoint returns its registers
      decoded and clears the flag, whatever the state before;
    - liveness (C27): on any transport with finitely many faults, from
      any state, repeating a read endpoint clears the flag within
      [faults + 1] calls;
    - concurrency without a lock (C28): on any register file, an
      interleaving of the battery and encoder reads makes the battery
      call return the encoder registers with no error, where both
      serial orders return its own;
    - the firmware (C30-C32): under any schedule with the firmware's
      updates, a read endpoint returns bytes each of which is its
      register's old or new value; a one-byte field (buttons) is never
      torn; an update of an encoder count between its two byte reads
      makes [read_encoders] return the old low byte with the new high
      byte;
    - locking (C33, C34): with a lock around each call, any number of
      threads under any schedule keep the bus well behaved and every read
      endpoint returns its documented type (the run is the calls one
      after the other in some order); with the lock spec section 5
      prescribes, around each transaction only, on any bus, a write
      transaction of another thread between a failed read transaction
      and the endpoint's [if self.error] makes the endpoint return the
      integer 0, outside its type.  [call_txn] makes each transaction
      one atomic step, which allows fewer interleavings than that lock
      (it does not stop another thread's statements outside its
      transactions), so every run it shows is a run under the lock.

    ** Bounds and what is not modelled

    No fuel is needed: every loop of the program ([range(size)], the format
    string) is structural recursion on a [nat] or a string, and C25
    bounds the work of each call.  The liveness theorem C27 needs no
    fuel either: it is proved by well-founded induction on the
    transport's fault measure, and its bound, [faults + 1] calls, is
    stated.  Python
    integers are unbounded and are [Z]; the 8- and 16-bit limits appear
    where the code has them, in [struct]'s range checks and encodings.
    Not modelled: wall-clock time (a sleep is an event with its duration,
    so nothing is said of how long the firmware takes between updates),
    format characters the program does not use (the parser model rejects
    them), the transport's own rejection of requests past SMBus limits
    (C29 shows the program never makes one), the firmware's sensing and
    control logic (only its register updates are modelled), and for
    concurrency thread switches inside one bus call or inside
    [self.errors += 1] (a statement is the unit of atomicity) and the
    kernel's own serialization of I2C transfers. *)

From stdpp Require Export base list option.
From Stdlib Require Export ZArith Ascii Lia.
From Stdlib Require String.
Export String.StringSyntax.
#[global] Bind Scope string_scope with String.string.

Open Scope Z_scope.

Declare Scope py_scope.
Delimit Scope py_scope with py.

Create HintDb teleop discriminated.

(** ** Python values

    The values that flow through the program: integers (unbounded, as in
    Python), booleans, [bytes] objects (each element a byte 0..255), [str]
    objects as lists of code points, tuples, lists and [None]. *)
Inductive pyval : Type :=
  | PInt (z : Z)
  | PBool (b : bool)
  | PBytes (bs : list Z)
  | PStr (cs : list Z)
  | PTuple (vs : list pyval)
  | PList (vs : list pyval)
  | PNone.

(** The exceptions that the modelled code can raise. *)
Inductive py_exn : Type :=
  | StructError          (** [struct.error] from [struct.pack]/[unpack] *)
  | UnicodeEncodeError   (** [str.encode("ascii")] on a non-ASCII string *)
  | ValueError           (** [bytes(list)] with an element out of 0..255 *)
  | OSError.             (** any fault reported by the [smbus] transport *)

#[export] Instance py_exn_eq_dec : EqDecision py_exn.
Proof. solve_decision. Defined.

(** Outcome of a Python statement: a value, or an exception in flight. *)
Inductive outcome (A : Type) : Type :=
  | Ret (a : A)
  | Raise (e : py_exn).
Arguments Ret {A} a.
Arguments Raise {A} e.

(** ** The state-and-exception monad *)

Definition PyM (S A : Type) : Type := S -> outcome A * S.

Section PyMonad.
Context {S : Type}.

#[export] Instance pym_ret : MRet (PyM S) := fun A a s => (Ret a, s).

#[export] Instance pym_bind : MBind (PyM S) := fun A B k m s =>
  match m s with
  | (Ret a, s') => k a s'
  | (Raise e, s') => (Raise e, s')
  end.

#[export] Instance pym_throw : MThrow py_exn (PyM S) := fun A e s => (Raise e, s).

Definition py_get : PyM S S := fun s => (Ret s, s).
Definition py_modify (f : S -> S) : PyM S unit := fun s => (Ret tt, f s).

(** [try: m  except: h] with a bare [except] clause (catches everything). *)
Definition try_except {A} (m : PyM S A) (h : py_exn -> PyM S A) : PyM S A :=
  fun s => match m s with
           | (Ret a, s') => (Ret a, s')
           | (Raise e, s') => h e s'
           end.

(** [try: x = m  except: h  else: k x]: exceptions of [k] are not caught. *)
Definition try_else {A B} (m : PyM S A) (h : py_exn -> PyM S B) (k : A -> PyM S B)
  : PyM S B :=
  fun s => match m s with
           | (Ret a, s') => k a s'
           | (Raise e, s') => h e s'
           end.

Lemma pym_bind_ret_l {A B} (a : A) (k : A -> PyM S B) :
  (mret a ≫= k) = k a.
Proof. reflexivity. Qed.

Lemma pym_bind_ret_r {A} (m : PyM S A) s :
  (m ≫= mret) s = m s.
Proof. cbv. by destruct (m s) as [[] ?]. Qed.

Lemma pym_bind_assoc {A B C} (m : PyM S A) (k : A -> PyM S B) (k' : B -> PyM S C) s :
  ((m ≫= k) ≫= k') s = (m ≫= (fun a => k a ≫= k')) s.
Proof. cbv. by destruct (m s) as [[] ?]. Qed.

Lemma pym_bind_run {A B} (m : PyM S A) (k : A -> PyM S B) s :
  (m ≫= k) s = match m s with
               | (Ret a, s') => k a s'
               | (Raise e, s') => (Raise e, s')
               end.
Proof. reflexivity. Qed.

Lemma try_else_ret {A B} (m : PyM S A) (h : py_exn -> PyM S B) k s a s' :
  m s = (Ret a, s') -> try_else m h k s = k a s'.
Proof. unfold try_else. by intros ->. Qed.

Lemma try_else_raise {A B} (m : PyM S A) (h : py_exn -> PyM S B) k s e s' :
  m s = (Raise e, s') -> try_else m h k s = h e s'.
Proof. unfold try_else. by intros ->. Qed.
End PyMonad.

Create Rewrite HintDb teleop_rw.
#[export] Hint Rewrite @pym_bind_run : teleop_rw.

(** [py_run] evaluates monadic code on a concrete or symbolic state: it
    unfolds the monad's operations and reduces the matches. *)
Ltac py_unfold :=
  cbv [mbind mret mthrow pym_ret pym_bind pym_throw py_get py_modify
       try_except try_else] in *.
Ltac py_run := py_unfold; simpl in *.

(** ** Generic lemmas shared by the components *)

Lemma Forall_repeat_iff {A} (P : A -> Prop) (x : A) n :
  (0 < n)%nat -> Forall P (repeat x n) <-> P x.
Proof.
  intros Hn. rewrite Forall_forall. split.
  - intros H. apply H. destruct n; [lia|]. by left.
  - intros Hx y Hy. by apply repeat_spec in Hy as ->.
Qed.

Lemma Forall_repeat' {A} (P : A -> Prop) (x : A) n :
  P x -> Forall P (repeat x n).
Proof. intros Hx. rewrite Forall_forall. intros y Hy. by apply repeat_spec in Hy as ->. Qed.

#[export] Hint Resolve Forall_repeat' : teleop.
