(* ===== verification/Bytes.v ===== *)
(** * Bytes: integers as byte sequences

    The wire contract of the peripheral (spec section 6) is little-endian
    fixed-width integers.  Python's [struct] module produces them by taking
    the low byte and shifting right (CPython [lp_int]/[lu_int]); this file
    defines that encoding on unbounded [Z], its big-endian mirror, the
    two's-complement sign extension used for signed fields, and the
    round-trip and range lemmas the codec proofs are built from. *)

From S2P Require Import Prelude.

(** A Python integer that fits a byte ([bytes()] accepts exactly these). *)
Definition is_byte (z : Z) : bool := (0 <=? z) && (z <? 256).

Definition byte_range (z : Z) : Prop := 0 <= z < 256.

(** [n] bytes of [z], least significant first; the high part is dropped
    (each byte is [z mod 256], then [z] is shifted right by 8). *)
Fixpoint le_bytes (n : nat) (z : Z) : list Z :=
  match n with
  | O => []
  | S n' => z mod 256 :: le_bytes n' (z / 256)
  end.

(** The unsigned value of a little-endian byte sequence. *)
Fixpoint le_value (bs : list Z) : Z :=
  match bs with
  | [] => 0
  | b :: bs' => b + 256 * le_value bs'
  end.

Definition be_bytes (n : nat) (z : Z) : list Z := rev (le_bytes n z).
Definition be_value (bs : list Z) : Z := le_value (rev bs).

(** Sign extension of a [w]-bit unsigned value (CPython's
    [x |= -(x & (1 << (w - 1)))]): the top bit set means [x - 2^w]. *)
Definition to_signed (w : Z) (x : Z) : Z :=
  if Z.testbit x (w - 1) then x - 2 ^ w else x.

Lemma is_byte_spec z : is_byte z = true <-> byte_range z.
Proof. unfold is_byte, byte_range. rewrite andb_true_iff, Z.leb_le, Z.ltb_lt. lia. Qed.

Lemma length_le_bytes n z : length (le_bytes n z) = n.
Proof. revert z. induction n; intros; simpl; auto. Qed.

Lemma length_be_bytes n z : length (be_bytes n z) = n.
Proof. unfold be_bytes. by rewrite length_rev, length_le_bytes. Qed.

Lemma le_bytes_range n z : Forall byte_range (le_bytes n z).
Proof.
  revert z. induction n; intros z; simpl; constructor; auto.
  unfold byte_range. apply Z.mod_pos_bound. lia.
Qed.

Lemma be_bytes_range n z : Forall byte_range (be_bytes n z).
Proof. unfold be_bytes. apply Forall_rev, le_bytes_range. Qed.

#[export] Hint Resolve le_bytes_range be_bytes_range : teleop.

Lemma pow_8_succ n : 2 ^ (8 * Z.of_nat (S n)) = 256 * 2 ^ (8 * Z.of_nat n).
Proof.
  rewrite Nat2Z.inj_succ, Z.mul_succ_r, Z.pow_add_r by lia. lia.
Qed.

Lemma pow_8_pos n : 0 < 2 ^ (8 * Z.of_nat n).
Proof. apply Z.pow_pos_nonneg; lia. Qed.

(** Decoding the encoding of [z] gives [z] modulo [2^(8n)]. *)
Lemma le_value_bytes n z : le_value (le_bytes n z) = z mod 2 ^ (8 * Z.of_nat n).
Proof.
  revert z. induction n as [|n IH]; intros z; simpl le_bytes; simpl le_value.
  - by rewrite Z.mod_1_r.
  - rewrite IH, pow_8_succ, Z.rem_mul_r; [lia | lia | apply pow_8_pos].
Qed.

Lemma le_value_range bs :
  Forall byte_range bs -> 0 <= le_value bs < 2 ^ (8 * Z.of_nat (length bs)).
Proof.
  induction 1 as [|b bs Hb _ IH]; simpl length; simpl le_value.
  - simpl. lia.
  - rewrite pow_8_succ. unfold byte_range in Hb. lia.
Qed.

(** Encoding the value of a byte sequence gives the sequence back. *)
Lemma le_bytes_value bs :
  Forall byte_range bs -> le_bytes (length bs) (le_value bs) = bs.
Proof.
  induction 1 as [|b bs Hb Hbs IH]; [done|]. simpl.
  unfold byte_range in Hb.
  pose proof (le_value_range bs Hbs).
  f_equal.
  - rewrite Z.mul_comm, Z.mod_add by lia. by apply Z.mod_small.
  - rewrite <- IH at 3. f_equal.
    rewrite Z.mul_comm, Z.div_add by lia.
    rewrite Z.div_small by lia. lia.
Qed.

Lemma be_value_bytes n z : be_value (be_bytes n z) = z mod 2 ^ (8 * Z.of_nat n).
Proof. unfold be_value, be_bytes. by rewrite rev_involutive, le_value_bytes. Qed.

Lemma be_value_range bs :
  Forall byte_range bs -> 0 <= be_value bs < 2 ^ (8 * Z.of_nat (length bs)).
Proof.
  intros H. unfold be_value. rewrite <- length_rev.
  by apply le_value_range, Forall_rev.
Qed.

Lemma be_bytes_value bs :
  Forall byte_range bs -> be_bytes (length bs) (be_value bs) = bs.
Proof.
  intros H. unfold be_bytes, be_value. rewrite <- length_rev, le_bytes_value.
  - apply rev_involutive.
  - by apply Forall_rev.
Qed.

(** ** Two's complement *)

Lemma testbit_top (w x : Z) :
  0 < w -> 0 <= x < 2 ^ w -> Z.testbit x (w - 1) = (2 ^ (w - 1) <=? x).
Proof.
  intros Hw Hx.
  assert (Hp : 2 ^ w = 2 * 2 ^ (w - 1)).
  { rewrite <- Z.pow_succ_r by lia. f_equal. lia. }
  rewrite Z.testbit_eqb by lia.
  assert (0 < 2 ^ (w - 1)) by (apply Z.pow_pos_nonneg; lia).
  destruct (Z.leb_spec (2 ^ (w - 1)) x).
  - rewrite <- (Z.div_unique x (2 ^ (w - 1)) 1 (x - 2 ^ (w - 1))) by lia. reflexivity.
  - rewrite Z.div_small by lia. reflexivity.
Qed.

Lemma to_signed_spec w x :
  0 < w -> 0 <= x < 2 ^ w ->
  to_signed w x = if 2 ^ (w - 1) <=? x then x - 2 ^ w else x.
Proof. intros Hw Hx. unfold to_signed. by rewrite testbit_top. Qed.

(** A [w]-bit signed value survives reduction modulo [2^w]. *)
Lemma to_signed_mod w z :
  0 < w -> - 2 ^ (w - 1) <= z < 2 ^ (w - 1) -> to_signed w (z mod 2 ^ w) = z.
Proof.
  intros Hw Hz.
  assert (Hp : 2 ^ w = 2 * 2 ^ (w - 1)).
  { rewrite <- Z.pow_succ_r by lia. f_equal. lia. }
  rewrite to_signed_spec by (try lia; apply Z.mod_pos_bound; lia).
  destruct (Z.leb_spec 0 z).
  - rewrite Z.mod_small by lia. destruct (Z.leb_spec (2 ^ (w - 1)) z); lia.
  - rewrite <- (Z.mod_unique z (2 ^ w) (-1) (z + 2 ^ w)) by lia.
    destruct (Z.leb_spec (2 ^ (w - 1)) (z + 2 ^ w)); lia.
Qed.

Lemma to_signed_range w x :
  0 < w -> 0 <= x < 2 ^ w -> - 2 ^ (w - 1) <= to_signed w x < 2 ^ (w - 1).
Proof.
  intros Hw Hx.
  assert (Hp : 2 ^ w = 2 * 2 ^ (w - 1)).
  { rewrite <- Z.pow_succ_r by lia. f_equal. lia. }
  rewrite to_signed_spec by lia. destruct (Z.leb_spec (2 ^ (w - 1)) x); lia.
Qed.
