(* ===== verification/Struct.v ===== *)
(** * Struct: the binary layouts of Python's [struct] module

    [read_unpack] and [write_pack] hand a format string to [struct.unpack]
    and [struct.pack] (src/a_star.py lines 46 and 51).  The formats the
    program uses are ["BBB"], ["B15s"], ["hh"], ["???"], ["H"],
    ["HHHHHH"], and runs of ["c"].  This file models CPython's [_struct]
    module for the format characters [c B ? h H s]: the format parser
    (prefix, whitespace, repeat counts), the layout with native alignment,
    [calcsize], [pack] with its range checks and [unpack].  The native
    byte order is taken to be little-endian, as on the Raspberry Pi the
    program runs on. *)

From S2P Require Import Prelude Bytes.

Module Struct.

(** Byte order and alignment selected by the format's first character. *)
Record mode := Mode { little : bool; aligned : bool }.

Definition native_mode : mode := Mode true true.

(** The format characters the program uses. *)
Inductive fcode : Type :=
| FChar     (** [c]: a [bytes] object of length 1 *)
| FUByte    (** [B]: unsigned char *)
| FBool     (** [?]: _Bool *)
| FShort    (** [h]: short, two bytes, signed *)
| FUShort   (** [H]: unsigned short *)
| FBytes.   (** [s]: a [bytes] object; its count is the length *)

#[export] Instance fcode_eq_dec : EqDecision fcode.
Proof. solve_decision. Defined.

(** A format character with its repeat count, as CPython's [prepare_s]
  reads them. *)
Definition group : Type := fcode * nat.

Definition code_of_ascii (c : ascii) : option fcode :=
match c with
| "c"%char => Some FChar
| "B"%char => Some FUByte
| "?"%char => Some FBool
| "h"%char => Some FShort
| "H"%char => Some FUShort
| "s"%char => Some FBytes
| _ => None
end.

Definition prefix_mode (c : ascii) : option mode :=
match c with
| "@"%char => Some native_mode
| "="%char => Some (Mode true false)
| "<"%char => Some (Mode true false)
| ">"%char => Some (Mode false false)
| "!"%char => Some (Mode false false)
| _ => None
end.

Definition digit_value (c : ascii) : option nat :=
let n := nat_of_ascii c in
if (48 <=? n)%nat && (n <=? 57)%nat then Some (n - 48)%nat else None.

(** [Py_ISSPACE]: space, \t, \n, \v, \f, \r. *)
Definition is_space (c : ascii) : bool :=
let n := nat_of_ascii c in (n =? 32)%nat || ((9 <=? n)%nat && (n <=? 13)%nat).

(** The loop of [prepare_s]: whitespace is skipped between items, a
  decimal count must be followed directly by a format character, and a
  count at the end of the string is an error. *)
Fixpoint parse_groups (s : String.string) (pending : option nat) : option (list group) :=
match s with
| String.EmptyString =>
    match pending with None => Some [] | Some _ => None end
| String.String c rest =>
    match digit_value c with
    | Some d => parse_groups rest (Some (10 * default 0%nat pending + d)%nat)
    | None =>
        if is_space c && bool_decide (pending = None) then parse_groups rest None
        else match code_of_ascii c with
             | Some f => gs ← parse_groups rest None; Some ((f, default 1%nat pending) :: gs)
             | None => None
             end
    end
end.

(** [whichtable]: only the first character can select the byte order. *)
Definition parse_format (fmt : String.string) : option (mode * list group) :=
match fmt with
| String.String c rest =>
    match prefix_mode c with
    | Some m => gs ← parse_groups rest None; Some (m, gs)
    | None => gs ← parse_groups fmt None; Some (native_mode, gs)
    end
| String.EmptyString => Some (native_mode, [])
end.

Definition item_size (f : fcode) : nat :=
match f with
| FShort | FUShort => 2
| _ => 1
end.

(** Native alignment of a format character; standard modes do not align. *)
Definition item_align (m : mode) (f : fcode) : nat :=
if aligned m then match f with FShort | FUShort => 2%nat | _ => 1%nat end else 1%nat.

(** CPython's [align]: round [off] up to a multiple of [a]. *)
Definition align (a off : nat) : nat :=
if (a =? 0)%nat || (off =? 0)%nat then off
else (off + ((a - 1) - (off - 1) mod a))%nat.

(** Bytes of a group: the length for [s], the count times the size else. *)
Definition group_bytes (f : fcode) (n : nat) : nat :=
match f with FBytes => n | _ => (n * item_size f)%nat end.

(** Number of Python values a group consumes or produces. *)
Definition group_items (f : fcode) (n : nat) : nat :=
match f with FBytes => 1%nat | _ => n end.

Fixpoint size_from (m : mode) (off : nat) (gs : list group) : nat :=
match gs with
| [] => off
| (f, n) :: gs' => size_from m (align (item_align m f) off + group_bytes f n) gs'
end.

Definition calcsize (fmt : String.string) : option nat :=
'(m, gs) ← parse_format fmt; Some (size_from m 0 gs).

Definition nitems (gs : list group) : nat :=
foldr (fun '(f, n) acc => (group_items f n + acc)%nat) 0%nat gs.

(** ** Packing *)

(** Python's [__index__] on the values the program passes: [bool] is a
  subclass of [int]. *)
Definition as_int (v : pyval) : option Z :=
match v with
| PInt z => Some z
| PBool b => Some (Z.b2z b)
| _ => None
end.

(** Python truthiness, used by the [?] code. *)
Definition truthy (v : pyval) : bool :=
match v with
| PInt z => negb (z =? 0)
| PBool b => b
| PBytes bs | PStr bs => negb (bool_decide (bs = []))
| PTuple vs | PList vs => negb (bool_decide (vs = []))
| PNone => false
end.

Definition int_bytes (m : mode) (n : nat) (z : Z) : list Z :=
if little m then le_bytes n z else be_bytes n z.

Definition int_value (m : mode) (bs : list Z) : Z :=
if little m then le_value bs else be_value bs.

(** An integer in [lo..hi], else [struct.error]. *)
Definition in_range (lo hi : Z) (v : pyval) : option Z :=
z ← as_int v; if (lo <=? z) && (z <=? hi) then Some z else None.

(** One item of a non-[s] group ([np_char], [np_ubyte], [np_bool],
  [np_short], [np_ushort] and their standard-size twins). *)
Definition pack_item (m : mode) (f : fcode) (v : pyval) : option (list Z) :=
match f with
| FChar => match v with PBytes [b] => Some [b] | _ => None end
| FUByte => z ← in_range 0 255 v; Some [z]
| FBool => Some [if truthy v then 1 else 0]
| FShort => z ← in_range (-32768) 32767 v; Some (int_bytes m 2 z)
| FUShort => z ← in_range 0 65535 v; Some (int_bytes m 2 z)
| FBytes => None
end.

(** An [s] field of length [n]: the bytes truncated or NUL-padded to [n]. *)
Definition pack_bytes (n : nat) (v : pyval) : option (list Z) :=
match v with
| PBytes bs => Some (take n bs ++ replicate (n - length bs) 0)
| _ => None
end.

Fixpoint pack_items (m : mode) (f : fcode) (k : nat) (vs : list pyval)
: option (list Z * list pyval) :=
match k, vs with
| O, _ => Some ([], vs)
| S k', v :: vs' =>
    bs ← pack_item m f v;
    '(rest, vs'') ← pack_items m f k' vs';
    Some (bs ++ rest, vs'')
| S _, [] => None
end.

Definition pack_group (m : mode) (f : fcode) (n : nat) (vs : list pyval)
: option (list Z * list pyval) :=
match f, vs with
| FBytes, v :: vs' => bs ← pack_bytes n v; Some (bs, vs')
| FBytes, [] => None
| _, _ => pack_items m f n vs
end.

(** [s_pack]: each group starts at its aligned offset; the gap is zero. *)
Fixpoint pack_groups (m : mode) (off : nat) (gs : list group) (vs : list pyval)
: option (list Z) :=
match gs with
| [] => Some []
| (f, n) :: gs' =>
    let pad := (align (item_align m f) off - off)%nat in
    '(bs, vs') ← pack_group m f n vs;
    rest ← pack_groups m (off + pad + length bs) gs' vs';
    Some (replicate pad 0 ++ bs ++ rest)
end.

(** [struct.pack(fmt, *vs)]: [None] is [struct.error]; the argument count
  is checked first. *)
Definition pack (fmt : String.string) (vs : list pyval) : option (list Z) :=
'(m, gs) ← parse_format fmt;
if (length vs =? nitems gs)%nat then pack_groups m 0 gs vs else None.

(** ** Unpacking *)

Definition unpack_item (m : mode) (f : fcode) (bs : list Z) : pyval :=
match f with
| FChar => PBytes (take 1 bs)
| FUByte => PInt (le_value (take 1 bs))
| FBool => PBool (negb (le_value (take 1 bs) =? 0))
| FShort => PInt (to_signed 16 (int_value m bs))
| FUShort => PInt (int_value m bs)
| FBytes => PBytes bs
end.

Fixpoint unpack_items (m : mode) (f : fcode) (k : nat) (bs : list Z) : list pyval :=
match k with
| O => []
| S k' => unpack_item m f (take (item_size f) bs)
           :: unpack_items m f k' (drop (item_size f) bs)
end.

Definition unpack_group (m : mode) (f : fcode) (n : nat) (bs : list Z) : list pyval :=
match f with
| FBytes => [PBytes (take n bs)]
| _ => unpack_items m f n bs
end.

Fixpoint unpack_groups (m : mode) (off : nat) (gs : list group) (bs : list Z) : list pyval :=
match gs with
| [] => []
| (f, n) :: gs' =>
    let pad := (align (item_align m f) off - off)%nat in
    let body := drop pad bs in
    unpack_group m f n body
      ++ unpack_groups m (off + pad + group_bytes f n) gs' (drop (group_bytes f n) body)
end.

(** [struct.unpack(fmt, bs)]: the buffer must have exactly [calcsize]
  bytes, else [struct.error]. *)
Definition unpack (fmt : String.string) (bs : list Z) : option (list pyval) :=
'(m, gs) ← parse_format fmt;
if (length bs =? size_from m 0 gs)%nat then Some (unpack_groups m 0 gs bs) else None.

(** ** What [unpack] gives back for a packed value

  [pack] converts [bool] to [int] for integer codes, keeps only the
  truth value for [?], and truncates or pads [s] fields: [norm_groups]
  is the value list that [unpack] returns for a packed one. *)
Definition norm_item (f : fcode) (v : pyval) : pyval :=
match f with
| FBool => PBool (truthy v)
| FUByte | FShort | FUShort => match as_int v with Some z => PInt z | None => v end
| FChar | FBytes => v
end.

Definition norm_bytes (n : nat) (v : pyval) : pyval :=
match v with
| PBytes bs => PBytes (take n bs ++ replicate (n - length bs) 0)
| _ => v
end.

Definition norm_group (f : fcode) (n : nat) (vs : list pyval) : list pyval :=
match f with
| FBytes => norm_bytes n <$> take 1 vs
| _ => norm_item f <$> take n vs
end.

Fixpoint norm_groups (gs : list group) (vs : list pyval) : list pyval :=
match gs with
| [] => []
| (f, n) :: gs' => norm_group f n vs ++ norm_groups gs' (drop (group_items f n) vs)
end.

Definition norm_values (fmt : String.string) (vs : list pyval) : list pyval :=
match parse_format fmt with
| Some (_, gs) => norm_groups gs vs
| None => vs
end.

(** The argument a format character accepts (CPython's range checks). *)
Definition item_ok (f : fcode) (v : pyval) : Prop :=
match f with
| FChar => exists b, v = PBytes [b]
| FUByte => exists z, as_int v = Some z /\ 0 <= z <= 255
| FBool => True
| FShort => exists z, as_int v = Some z /\ -32768 <= z <= 32767
| FUShort => exists z, as_int v = Some z /\ 0 <= z <= 65535
| FBytes => False
end.

(** Python's invariant on the values: a [bytes] object holds bytes. *)
Definition wf_value (v : pyval) : Prop :=
  match v with PBytes bs => Forall byte_range bs | _ => True end.

(** ** Lemmas *)

Lemma in_range_Some lo hi v z :
in_range lo hi v = Some z <-> as_int v = Some z /\ lo <= z <= hi.
Proof.
unfold in_range. destruct (as_int v) as [z'|]; simpl; [|naive_solver].
destruct (Z.leb_spec lo z'), (Z.leb_spec z' hi); simpl; naive_solver lia.
Qed.

Lemma in_range_is_Some {A} lo hi v (g : Z -> A) :
is_Some (z ← in_range lo hi v; Some (g z)) <-> exists z, as_int v = Some z /\ lo <= z <= hi.
Proof.
rewrite <- (exist_proper _ _ (fun z => in_range_Some lo hi v z)).
destruct (in_range lo hi v); simpl; split; intros [? ?]; by eauto.
Qed.

Lemma int_value_bytes m n z : int_value m (int_bytes m n z) = z mod 2 ^ (8 * Z.of_nat n).
Proof.
unfold int_value, int_bytes. destruct (little m).
- apply le_value_bytes.
- apply be_value_bytes.
Qed.

Lemma int_value_range m bs :
Forall byte_range bs -> 0 <= int_value m bs < 2 ^ (8 * Z.of_nat (length bs)).
Proof. unfold int_value. destruct (little m); auto using le_value_range, be_value_range. Qed.

Lemma length_int_bytes m n z : length (int_bytes m n z) = n.
Proof. unfold int_bytes. destruct (little m); auto using length_le_bytes, length_be_bytes. Qed.

Lemma pack_item_length m f v bs :
pack_item m f v = Some bs -> length bs = item_size f.
Proof.
destruct f; simpl; intros H.
- by repeat case_match; simplify_eq.
- destruct (in_range _ _ _); simpl in H; by simplify_eq.
- by simplify_eq.
- destruct (in_range _ _ _); simpl in H; simplify_eq; apply length_int_bytes.
- destruct (in_range _ _ _); simpl in H; simplify_eq; apply length_int_bytes.
- done.
Qed.

Lemma unpack_pack_item m f v bs :
pack_item m f v = Some bs -> unpack_item m f bs = norm_item f v.
Proof.
destruct f; simpl; intros H.
- by repeat case_match; simplify_eq.
- destruct (in_range _ _ _) as [z|] eqn:E; simpl in H; simplify_eq.
  apply in_range_Some in E as [-> ?]. simpl. f_equal. lia.
- simplify_eq. by destruct (truthy v).
- destruct (in_range _ _ _) as [z|] eqn:E; simpl in H; simplify_eq.
  apply in_range_Some in E as [-> ?].
  rewrite int_value_bytes. f_equal. apply (to_signed_mod 16); simpl; lia.
- destruct (in_range _ _ _) as [z|] eqn:E; simpl in H; simplify_eq.
  apply in_range_Some in E as [-> ?].
  rewrite int_value_bytes. f_equal. apply Z.mod_small. simpl. lia.
- done.
Qed.

Lemma pack_items_spec m f k vs bs vs' :
pack_items m f k vs = Some (bs, vs') ->
length bs = (k * item_size f)%nat /\ vs' = drop k vs /\
forall rest, unpack_items m f k (bs ++ rest) = norm_item f <$> take k vs.
Proof.
revert vs bs vs'. induction k as [|k IH]; intros vs bs vs' H; simpl in H.
- simplify_eq. by rewrite drop_0, take_0.
- destruct vs as [|v vs]; [done|].
  destruct (pack_item m f v) as [b|] eqn:Hb; simpl in H; [|done].
  destruct (pack_items m f k vs) as [[rest0 vs0]|] eqn:Hr; simpl in H; simplify_eq.
  destruct (IH _ _ _ Hr) as (Hlen & -> & Hun).
  pose proof (pack_item_length _ _ _ _ Hb) as Hlb.
  rewrite length_app, Hlen, Hlb. split; [lia|]. split; [done|].
  intros rest. simpl. rewrite <- app_assoc, take_app_length', drop_app_length' by done.
  by rewrite Hun, (unpack_pack_item _ _ _ _ Hb).
Qed.

Lemma pack_group_spec m f n vs bs vs' :
pack_group m f n vs = Some (bs, vs') ->
length bs = group_bytes f n /\ vs' = drop (group_items f n) vs /\
forall rest, unpack_group m f n (bs ++ rest) = norm_group f n vs.
Proof.
unfold pack_group, unpack_group, norm_group, group_bytes, group_items.
destruct f; try (intros H; apply pack_items_spec in H; naive_solver).
destruct vs as [|v vs]; [by intros ?|]. unfold pack_bytes.
destruct v; simpl; intros H; simplify_eq.
rewrite length_app, length_take, length_replicate. split; [lia|]. split; [done|].
intros rest. rewrite take_app_length'; [done|].
rewrite length_app, length_take, length_replicate. lia.
Qed.

Lemma pack_groups_spec m off gs vs bs :
pack_groups m off gs vs = Some bs ->
(off + length bs)%nat = size_from m off gs /\ unpack_groups m off gs bs = norm_groups gs vs.
Proof.
revert off vs bs. induction gs as [|[f n] gs IH]; intros off vs bs H; simpl in H |- *.
- simplify_eq. simpl. split; [lia|done].
- destruct (pack_group m f n vs) as [[b vs']|] eqn:Hg; simpl in H; [|done].
  destruct (pack_groups _ _ gs vs') as [rest|] eqn:Hr; simpl in H; simplify_eq.
  destruct (pack_group_spec _ _ _ _ _ _ Hg) as (Hlen & -> & Hun).
  destruct (IH _ _ _ Hr) as [Hsz Hun'].
  assert (Hal : (off <= align (item_align m f) off)%nat).
  { unfold align. destruct (_ || _); lia. }
  rewrite Hlen in Hsz, Hun'.
  replace (off + (align (item_align m f) off - off))%nat
    with (align (item_align m f) off) in Hsz, Hun' |- * by lia.
  split.
  + rewrite !length_app, length_replicate, <- Hsz, Hlen. lia.
  + rewrite drop_app_length' by (rewrite length_replicate; lia).
    by rewrite Hun, drop_app_length', Hun'.
Qed.

Lemma int_bytes_range m n z : Forall byte_range (int_bytes m n z).
Proof. unfold int_bytes. destruct (little m); auto with teleop. Qed.

Lemma pack_item_range m f v bs :
  wf_value v -> pack_item m f v = Some bs -> Forall byte_range bs.
Proof.
  intros Hv. destruct f; simpl.
  - by repeat case_match; intros; simplify_eq.
  - destruct (in_range _ _ _) as [z|] eqn:E; simpl; intros; simplify_eq.
    apply in_range_Some in E. repeat constructor; unfold byte_range; lia.
  - intros; simplify_eq. repeat constructor; unfold byte_range; case_match; lia.
  - destruct (in_range _ _ _); simpl; intros; simplify_eq. apply int_bytes_range.
  - destruct (in_range _ _ _); simpl; intros; simplify_eq. apply int_bytes_range.
  - done.
Qed.

(** The numeric codes produce bytes from any argument they accept. *)
Lemma pack_item_range_num m f v bs :
  f <> FChar -> pack_item m f v = Some bs -> Forall byte_range bs.
Proof.
  intros Hf. destruct f; simpl; try done.
  - destruct (in_range _ _ _) as [z|] eqn:E; simpl; intros; simplify_eq.
    apply in_range_Some in E. repeat constructor; unfold byte_range; lia.
  - intros; simplify_eq. repeat constructor; unfold byte_range; case_match; lia.
  - destruct (in_range _ _ _); simpl; intros; simplify_eq. apply int_bytes_range.
  - destruct (in_range _ _ _); simpl; intros; simplify_eq. apply int_bytes_range.
Qed.

Lemma pack_bytes_range n v bs :
  wf_value v -> pack_bytes n v = Some bs -> Forall byte_range bs.
Proof.
  destruct v; simpl; intros Hv ?; simplify_eq.
  apply Forall_app; split; [by apply Forall_take|].
  apply Forall_replicate. unfold byte_range. lia.
Qed.

Lemma pack_items_range m f k vs bs vs' :
  Forall wf_value vs -> pack_items m f k vs = Some (bs, vs') ->
  Forall byte_range bs /\ Forall wf_value vs'.
Proof.
  revert vs bs vs'. induction k as [|k IH]; intros vs bs vs' Hvs H; simpl in H.
  - by simplify_eq.
  - destruct vs as [|v vs]; [done|]. apply Forall_cons_iff in Hvs as [Hv Hvs].
    destruct (pack_item m f v) as [b|] eqn:Hb; simpl in H; [|done].
    destruct (pack_items m f k vs) as [[rest vs0]|] eqn:Hr; simpl in H; simplify_eq.
    destruct (IH _ _ _ Hvs Hr) as [Hrest Hvs'].
    split; [|done]. apply Forall_app. split; [|done]. by eapply pack_item_range.
Qed.

Lemma pack_group_range m f n vs bs vs' :
  Forall wf_value vs -> pack_group m f n vs = Some (bs, vs') ->
  Forall byte_range bs /\ Forall wf_value vs'.
Proof.
  unfold pack_group. intros Hvs. destruct f; try by apply pack_items_range.
  destruct vs as [|v vs]; [done|]. apply Forall_cons_iff in Hvs as [Hv Hvs].
  destruct (pack_bytes n v) as [b|] eqn:Hb; simpl; intros; simplify_eq.
  split; [|done]. by eapply pack_bytes_range.
Qed.

Lemma pack_groups_range m off gs vs bs :
  Forall wf_value vs -> pack_groups m off gs vs = Some bs -> Forall byte_range bs.
Proof.
  revert off vs bs. induction gs as [|[f n] gs IH]; intros off vs bs Hvs H; simpl in H.
  - by simplify_eq.
  - destruct (pack_group m f n vs) as [[b vs']|] eqn:Hg; simpl in H; [|done].
    destruct (pack_group_range _ _ _ _ _ _ Hvs Hg) as [Hb Hvs'].
    destruct (pack_groups _ _ gs vs') as [rest|] eqn:Hr; simpl in H; simplify_eq.
    apply Forall_app. split; [apply Forall_replicate; unfold byte_range; lia|].
    apply Forall_app. split; [done|]. by eapply IH.
Qed.

(** ** The codec's contract *)

(** Every byte [pack] produces from well-formed values is a byte. *)
Lemma pack_range fmt vs bs :
  Forall wf_value vs -> pack fmt vs = Some bs -> Forall byte_range bs.
Proof.
  unfold pack. intros Hvs. destruct (parse_format fmt) as [[m gs]|]; simpl; [|done].
  destruct (_ =? _)%nat; [|done]. by apply pack_groups_range.
Qed.


(** [struct.pack] produces exactly [struct.calcsize(fmt)] bytes. *)
Lemma pack_calcsize fmt vs bs :
pack fmt vs = Some bs -> calcsize fmt = Some (length bs).
Proof.
unfold pack, calcsize. destruct (parse_format fmt) as [[m gs]|]; simpl; [|done].
destruct (_ =? _)%nat; [|done]. intros H. by apply pack_groups_spec in H as [<- _].
Qed.

(** Round trip of the [struct] codec: unpacking a buffer produced by [pack] gives back the values, up to the conversions [pack] performs ([norm_values]). *)
Lemma unpack_pack fmt vs bs :
pack fmt vs = Some bs -> unpack fmt bs = Some (norm_values fmt vs).
Proof.
unfold pack, unpack, norm_values.
destruct (parse_format fmt) as [[m gs]|]; simpl; [|done].
destruct (_ =? _)%nat; [|done]. intros H. apply pack_groups_spec in H as [Hsz Hun].
simpl in Hsz. rewrite Hsz, Nat.eqb_refl. by rewrite Hun.
Qed.

(** [pack] accepts an item exactly when it is of the right kind and in the range of its format character ([B] 0..255, [h] -32768..32767, [H] 0..65535, [c] one byte). *)
Lemma pack_item_ok m f v :
f <> FBytes -> is_Some (pack_item m f v) <-> item_ok f v.
Proof.
intros Hf. destruct f; simpl; try done; try apply in_range_is_Some.
- split; [|intros [b ->]; by eexists]. intros [bs H]. by repeat case_match; simplify_eq; eauto.
Qed.

(** Every value [unpack] produces from bytes is in the range of its format character, so [pack] accepts it again. *)
Lemma unpack_item_ok m f bs :
f <> FBytes -> length bs = item_size f -> Forall byte_range bs ->
item_ok f (unpack_item m f bs).
Proof.
intros Hf Hlen Hbs.
destruct f; simpl in Hlen |- *; try done.
- destruct bs as [|b [|]]; simpl in Hlen; try lia. by eexists.
- destruct bs as [|b [|]]; simpl in Hlen; try lia.
  inversion Hbs as [|? ? Hb]; subst. unfold byte_range in Hb.
  eexists; split; [done|]. simpl. lia.
- pose proof (int_value_range m bs Hbs) as Hr. rewrite Hlen in Hr.
  eexists; split; [done|].
  pose proof (to_signed_range 16 (int_value m bs)) as Hs. simpl in Hr, Hs. lia.
- pose proof (int_value_range m bs Hbs) as Hr. rewrite Hlen in Hr.
  eexists; split; [done|]. simpl in Hr. lia.
Qed.

(** [unpack] succeeds on every buffer of the format's size. *)
Lemma unpack_calcsize fmt bs :
calcsize fmt = Some (length bs) -> exists vs, unpack fmt bs = Some vs.
Proof.
unfold calcsize, unpack. destruct (parse_format fmt) as [[m gs]|]; simpl; [|done].
intros Hsz. simplify_eq. rewrite Hsz, Nat.eqb_refl. by eexists.
Qed.

(** Number of values a format packs or unpacks. *)
Definition arity (fmt : String.string) : option nat :=
'(_, gs) ← parse_format fmt; Some (nitems gs).

Lemma length_unpack_items m f k bs : length (unpack_items m f k bs) = k.
Proof. revert bs. induction k as [|k IH]; intros bs; simpl; by rewrite ?IH. Qed.

Lemma length_unpack_groups m off gs bs : length (unpack_groups m off gs bs) = nitems gs.
Proof.
revert off bs. induction gs as [|[f n] gs IH]; intros off bs; simpl; [done|].
rewrite length_app, IH. f_equal. unfold unpack_group, group_items.
destruct f; try done; apply length_unpack_items.
Qed.

Lemma unpack_arity fmt bs vs :
unpack fmt bs = Some vs -> arity fmt = Some (length vs).
Proof.
unfold unpack, arity. destruct (parse_format fmt) as [[m gs]|]; simpl; [|done].
destruct (_ =? _)%nat; intros; simplify_eq. by rewrite length_unpack_groups.
Qed.

(** ** Witnesses on the program's formats *)

Lemma unpack_pack_witness :
  pack "hh" [PInt 150; PInt (-150)] = Some [150; 0; 106; 255] /\
  unpack "hh" [150; 0; 106; 255] = Some (norm_values "hh" [PInt 150; PInt (-150)]).
Proof. split; [reflexivity|]. apply unpack_pack. reflexivity. Defined.

Lemma pack_calcsize_witness :
  pack "B15s" [PInt 1; PBytes [99]] = Some (1 :: 99 :: replicate 14 0) /\
  calcsize "B15s" = Some (length (1 :: 99 :: replicate 14 0)).
Proof. split; [reflexivity|]. apply (pack_calcsize _ [PInt 1; PBytes [99]]). reflexivity. Defined.

Lemma pack_item_ok_witness :
  FShort <> FBytes /\
  (is_Some (pack_item native_mode FShort (PInt 40000)) <-> item_ok FShort (PInt 40000)).
Proof. split; [discriminate|]. apply pack_item_ok. discriminate. Defined.

Lemma unpack_item_ok_witness :
  FShort <> FBytes /\ length [106; 255] = item_size FShort /\ Forall byte_range [106; 255] /\
  item_ok FShort (unpack_item native_mode FShort [106; 255]).
Proof.
  assert (Hb : Forall byte_range [106; 255]) by (repeat constructor; unfold byte_range; lia).
  split; [discriminate|]. split; [reflexivity|]. split; [exact Hb|].
  apply unpack_item_ok; [discriminate|reflexivity|exact Hb].
Defined.

End Struct.
