(* ===== verification/Bus.v ===== *)
(** * Bus: the SMBus transport the program drives

    [AStar.__init__] opens [smbus.SMBus(1)] (src/a_star.py line 10) and the
    code calls three of its methods: [write_byte(20, address)] (line 29),
    [read_byte(20)] (line 38) and [write_i2c_block_data(20, address, data)]
    (lines 54 and 144).  The transport is outside the repository; its
    contract (spec section 6) is the type class [SMBus]: every operation
    succeeds or fails and moves the bus to a new state.  [SMBusLaws] is what
    the Engine's theorems assume of any bus: a state invariant [bus_ok] that
    every operation keeps, under which a successful [read_byte] returns a
    byte (the C extension returns an unsigned char).

    Two instances discharge the interface: [Scripted] here, a test double
    that answers each call from a list of replies, used to run the spec's
    scenarios; and the peripheral's register file, [Peripheral.RegFile]. *)

From S2P Require Import Prelude Bytes.

(** What the outside world observes of the program: bus transactions and
    sleeps, in order. *)
Inductive event : Type :=
  | EvWriteByte (dev v : Z)
  | EvReadByte (dev : Z)
  | EvWriteBlock (dev reg : Z) (data : list Z)
  | EvSleep (us : Z).

#[export] Instance event_eq_dec : EqDecision event.
Proof. solve_decision. Defined.

Class SMBus (B : Type) := {
  smbus_write_byte : Z -> Z -> B -> bool * B;
  smbus_read_byte : Z -> B -> option Z * B;
  smbus_write_block : Z -> Z -> list Z -> B -> bool * B;
}.

Class SMBusLaws (B : Type) `{SMBus B} := {
  bus_ok : B -> Prop;
  write_byte_ok dev v b : bus_ok b -> bus_ok (smbus_write_byte dev v b).2;
  read_byte_ok dev b : bus_ok b -> bus_ok (smbus_read_byte dev b).2;
  write_block_ok dev reg data b : bus_ok b -> bus_ok (smbus_write_block dev reg data b).2;
  read_byte_range dev b z b' : bus_ok b -> smbus_read_byte dev b = (Some z, b') -> byte_range z;
}.

(** ** A scripted bus *)

Module Scripted.

(** One reply per bus call: acknowledge, refuse, or a byte read. *)
Inductive reply : Type :=
  | Ack
  | Nack
  | Data (z : Z).

#[export] Instance reply_eq_dec : EqDecision reply.
Proof. solve_decision. Defined.

Definition script : Type := list reply.

Definition pop (s : script) : option reply * script :=
  match s with
  | [] => (None, [])
  | r :: s' => (Some r, s')
  end.

#[export] Instance scripted_smbus : SMBus script := {
  smbus_write_byte dev v s :=
    let '(r, s') := pop s in (bool_decide (r = Some Ack), s');
  smbus_read_byte dev s :=
    let '(r, s') := pop s in
    match r with
    | Some (Data z) => if is_byte z then (Some z, s') else (None, s')
    | _ => (None, s')
    end;
  smbus_write_block dev reg data s :=
    let '(r, s') := pop s in (bool_decide (r = Some Ack), s');
}.

#[export] Instance scripted_laws : SMBusLaws script.
Proof.
  refine {| bus_ok _ := True |}; try done.
  intros dev b z b' _. simpl. destruct (pop b) as [[[| |z']|] ?]; try congruence.
  destruct (is_byte z') eqn:E; intros; simplify_eq. by apply is_byte_spec.
Defined.

End Scripted.
