(* ===== verification/Engine.v ===== *)
(** * Engine: the transaction primitives of [AStar]

    The object state of [class AStar] (src/a_star.py lines 7-12) as the
    record [AStar]: the bus handle [bus], the cumulative error count
    [errors] and the last-operation flag [error], plus [trace], the
    observable bus and sleep events in order (a ghost field: the code does
    not read it).  The methods are programs of the monad [PyM AStar] of
    the prelude, so Python's exceptions, [try/except] and [try/except/else]
    are kept as the code has them.

    [read_unpack] (lines 15-46) and [write_pack] (lines 50-58) are proved
    equal to [read_txn] and [write_txn], direct descriptions of the
    transaction of spec section 4.1 in which each bus call, counter update
    and event is written out; the later theorems are read off those. *)

From S2P Require Import Prelude Bytes Struct Bus.

Section Engine.
Context {B : Type} `{SMBus B}.

Record AStar := mkAStar {
  bus : B;
  errors : Z;
  error : Z;
  trace : list event;
}.

(** [__init__]: [self.bus = smbus.SMBus(1)], [self.errors = 0],
    [self.error = 0], for the bus state [b] the constructor opens. *)
Definition astar_init (b : B) : AStar := mkAStar b 0 0 [].

(** [AStar()]: the constructor calls [smbus.SMBus(1)] (line 10), given
    here as [smbus_SMBus]; when bus 1 cannot be opened it raises
    [OSError] out of [__init__] and no object exists. *)
Definition astar_new (smbus_SMBus : Z -> option B) : outcome AStar :=
  match smbus_SMBus 1 with
  | Some b => Ret (astar_init b)
  | None => Raise OSError
  end.

(** The peripheral's I2C address, a literal in every bus call. *)
Definition DEV : Z := 20.

(** [time.sleep(0.0002)]: 200 microseconds. *)
Definition SETTLE_US : Z := 200.

(** ** Primitive statements *)

(** [self.error = v] *)
Definition set_error (v : Z) : PyM AStar unit :=
  py_modify (fun s => mkAStar (bus s) (errors s) v (trace s)).

(** [self.errors += 1] *)
Definition incr_errors : PyM AStar unit :=
  py_modify (fun s => mkAStar (bus s) (errors s + 1) (error s) (trace s)).

(** [self.error] *)
Definition get_error : PyM AStar Z := s ← py_get; mret (error s).

(** The except clause of lines 30-33 and 55-58. *)
Definition record_failure : PyM AStar unit := incr_errors;; set_error 1.

Definition time_sleep (us : Z) : PyM AStar unit :=
  py_modify (fun s => mkAStar (bus s) (errors s) (error s) (trace s ++ [EvSleep us])).

(** A bus call: the transport's verdict, [OSError] on failure. *)
Definition bus_call {A} (ev : event) (r : option A * B) : PyM AStar A :=
  fun s =>
    let s' := mkAStar r.2 (errors s) (error s) (trace s ++ [ev]) in
    match r.1 with
    | Some a => (Ret a, s')
    | None => (Raise OSError, s')
    end.

Definition ok_unit (r : bool * B) : option unit * B :=
  (if r.1 then Some tt else None, r.2).

(** [self.bus.write_byte(dev, v)] *)
Definition bus_write_byte (dev v : Z) : PyM AStar unit :=
  fun s => bus_call (EvWriteByte dev v) (ok_unit (smbus_write_byte dev v (bus s))) s.

(** [self.bus.read_byte(dev)] *)
Definition bus_read_byte (dev : Z) : PyM AStar Z :=
  fun s => bus_call (EvReadByte dev) (smbus_read_byte dev (bus s)) s.

(** [self.bus.write_i2c_block_data(dev, reg, data)] *)
Definition bus_write_block (dev reg : Z) (data : list Z) : PyM AStar unit :=
  fun s => bus_call (EvWriteBlock dev reg data) (ok_unit (smbus_write_block dev reg data (bus s))) s.

(** [[self.bus.read_byte(20) for _ in range(n)]]: the first failing read
    aborts the comprehension. *)
Fixpoint read_bytes (n : nat) : PyM AStar (list Z) :=
  match n with
  | O => mret []
  | S n' => b ← bus_read_byte DEV; bs ← read_bytes n'; mret (b :: bs)
  end.

(** [bytes(byte_list)]: [ValueError] unless every element is a byte. *)
Definition py_bytes (l : list Z) : PyM AStar (list Z) :=
  if forallb is_byte l then mret l else mthrow ValueError.

(** [struct.unpack(format, buffer)] and [struct.pack(format, *data)]. *)
Definition struct_unpack (fmt : String.string) (bs : list Z) : PyM AStar (list pyval) :=
  match Struct.unpack fmt bs with
  | Some vs => mret vs
  | None => mthrow StructError
  end.

Definition struct_pack (fmt : String.string) (vs : list pyval) : PyM AStar (list Z) :=
  match Struct.pack fmt vs with
  | Some bs => mret bs
  | None => mthrow StructError
  end.

(** ** The two transactions *)

(** [read_unpack(self, address, size, format)], lines 15-46.  The
    select failure is recorded and the read is attempted anyway; a read
    failure is recorded and returns the integer [0] (the dead store
    [byte_list = [0]] is omitted); the [else] branch is outside the
    [try], so its exceptions reach the caller. *)
Definition read_unpack (address size : Z) (format : String.string) : PyM AStar pyval :=
  set_error 0;;
  try_except (bus_write_byte DEV address) (fun _ => record_failure);;
  time_sleep SETTLE_US;;
  try_else (read_bytes (Z.to_nat size))
    (fun _ => record_failure;; mret (PInt 0))
    (fun byte_list =>
       buf ← py_bytes byte_list;
       vs ← struct_unpack format buf;
       mret (PTuple vs)).

(** [write_pack(self, address, format, *data)], lines 50-58: the
    packing happens before the flag is reset and outside the [try]. *)
Definition write_pack (address : Z) (format : String.string) (data : list pyval)
  : PyM AStar unit :=
  data_array ← struct_pack format data;
  set_error 0;;
  try_except (bus_write_block DEV address data_array) (fun _ => record_failure).

(** ** The transactions written out (spec section 4.1) *)

(** [n] successive [read_byte] calls: the bytes (or a fault), how many
    calls were made, and the final bus state. *)
Fixpoint bus_reads (n : nat) (b : B) : option (list Z) * nat * B :=
  match n with
  | O => (Some [], 0%nat, b)
  | S n' =>
      match smbus_read_byte DEV b with
      | (Some z, b') => let '(r, k, b'') := bus_reads n' b' in (cons z <$> r, S k, b'')
      | (None, b') => (None, 1%nat, b')
      end
  end.

(** Step 5: deserialization of the bytes read. *)
Definition decode (format : String.string) (bs : list Z) : outcome pyval :=
  if forallb is_byte bs then
    match Struct.unpack format bs with
    | Some vs => Ret (PTuple vs)
    | None => Raise StructError
    end
  else Raise ValueError.

Definition flag (ok : bool) : Z := if ok then 0 else 1.

(** The read transaction: select (failure counted, not fatal), settle,
    read (failure counted, result [0]), deserialize. *)
Definition read_txn (address size : Z) (format : String.string) (s : AStar)
  : outcome pyval * AStar :=
  let '(ok, b1) := smbus_write_byte DEV address (bus s) in
  let '(r, k, b2) := bus_reads (Z.to_nat size) b1 in
  let tr := trace s ++ [EvWriteByte DEV address; EvSleep SETTLE_US]
                    ++ repeat (EvReadByte DEV) k in
  match r with
  | None => (Ret (PInt 0), mkAStar b2 (errors s + flag ok + 1) 1 tr)
  | Some bs => (decode format bs, mkAStar b2 (errors s + flag ok) (flag ok) tr)
  end.

(** The write transaction: pack (a [struct.error] leaves the object
    untouched), then one block write whose failure is counted. *)
Definition write_txn (address : Z) (format : String.string) (data : list pyval) (s : AStar)
  : outcome unit * AStar :=
  match Struct.pack format data with
  | None => (Raise StructError, s)
  | Some bs =>
      let '(ok, b') := smbus_write_block DEV address bs (bus s) in
      (Ret tt, mkAStar b' (errors s + flag ok) (flag ok)
                       (trace s ++ [EvWriteBlock DEV address bs]))
  end.

End Engine.

Arguments AStar : clear implicits.

Section EngineTheory.
Context {B : Type} `{SMBus B}.

Lemma read_bytes_spec n (s : AStar B) :
  read_bytes n s =
    let '(r, k, b') := bus_reads n (bus s) in
    (match r with Some bs => Ret bs | None => Raise OSError end,
     mkAStar b' (errors s) (error s) (trace s ++ repeat (EvReadByte DEV) k)).
Proof.
  revert s. induction n as [|n IH]; intros [b es e tr]; simpl.
  - by rewrite app_nil_r.
  - unfold bus_read_byte, bus_call; py_run.
    destruct (smbus_read_byte DEV b) as [[z|] b1]; simpl; [|done].
    rewrite IH; simpl. destruct (bus_reads n b1) as [[[bs|] k] b2]; simpl;
      by rewrite <- app_assoc.
Qed.

(** Equation of one bus call on an explicit state. *)
Lemma bus_write_byte_run dev v (s : AStar B) :
  bus_write_byte dev v s =
    let '(ok, b') := smbus_write_byte dev v (bus s) in
    (if ok then Ret tt else Raise OSError,
     mkAStar b' (errors s) (error s) (trace s ++ [EvWriteByte dev v])).
Proof. unfold bus_write_byte, bus_call, ok_unit. by destruct (smbus_write_byte _ _ _) as [[] ?]. Qed.

Lemma bus_write_block_run dev reg data (s : AStar B) :
  bus_write_block dev reg data s =
    let '(ok, b') := smbus_write_block dev reg data (bus s) in
    (if ok then Ret tt else Raise OSError,
     mkAStar b' (errors s) (error s) (trace s ++ [EvWriteBlock dev reg data])).
Proof. unfold bus_write_block, bus_call, ok_unit. by destruct (smbus_write_block _ _ _ _) as [[] ?]. Qed.

Lemma read_unpack_spec address size format (s : AStar B) :
  read_unpack address size format s = read_txn address size format s.
Proof.
  destruct s as [b es e tr].
  unfold read_unpack, read_txn, record_failure, set_error, incr_errors, time_sleep.
  py_run. rewrite bus_write_byte_run; simpl.
  destruct (smbus_write_byte DEV address b) as [[] b1]; simpl;
    rewrite read_bytes_spec; simpl;
    destruct (bus_reads _ b1) as [[[bs|] k] b2]; simpl;
    unfold py_bytes, struct_unpack, decode; py_run;
    rewrite <- !app_assoc, ?Z.add_0_r; try reflexivity.
  all: destruct (forallb is_byte _); simpl; [destruct (Struct.unpack _ _)|]; reflexivity.
Qed.

(** C1: [read_unpack] (lines 15-46) performs exactly the read transaction [read_txn] of spec section 4.1: flag reset, select with a non-fatal counted failure, the settling delay, the byte reads with a counted failure returning [0], then deserialization. *)
Lemma read_unpack_refines address size format (s : AStar B) :
  read_unpack address size format s = read_txn address size format s.
Proof. exact (read_unpack_spec address size format s). Qed.

Lemma write_pack_spec address format data (s : AStar B) :
  write_pack address format data s = write_txn address format data s.
Proof.
  destruct s as [b es e tr].
  unfold write_pack, write_txn, struct_pack, record_failure, set_error, incr_errors.
  destruct (Struct.pack format data) as [bs|]; py_run; [|done].
  rewrite bus_write_block_run; simpl.
  destruct (smbus_write_block DEV address bs b) as [[] b1]; simpl; by rewrite ?Z.add_0_r.
Qed.

(** C8: [write_pack] (lines 50-58) performs the write transaction [write_txn]: pack first (a [struct.error] leaves the object untouched), then one block write whose failure is counted. *)
Lemma write_pack_refines address format data (s : AStar B) :
  write_pack address format data s = write_txn address format data s.
Proof. exact (write_pack_spec address format data s). Qed.

Lemma bus_reads_spec n b :
  let '(r, k, b') := bus_reads n b in
  (k <= n)%nat /\
  match r with
  | Some bs => k = n /\ length bs = n
  | None => (1 <= k)%nat
  end.
Proof.
  revert b. induction n as [|n IH]; intros b; simpl; [done|].
  destruct (smbus_read_byte DEV b) as [[z|] b1]; [|lia].
  specialize (IH b1). destruct (bus_reads n b1) as [[[bs|] k] b2]; simpl; lia.
Qed.

(** The shape of the bus traffic of one read transaction. *)
Definition read_events (address : Z) (k : nat) : list event :=
  EvWriteByte DEV address :: EvSleep SETTLE_US :: repeat (EvReadByte DEV) k.

Lemma read_txn_trace address size format (s : AStar B) :
  exists k, (k <= Z.to_nat size)%nat /\
    trace (read_txn address size format s).2 = trace s ++ read_events address k.
Proof.
  unfold read_txn. destruct (smbus_write_byte DEV address (bus s)) as [ok b1].
  pose proof (bus_reads_spec (Z.to_nat size) b1) as Hr.
  destruct (bus_reads _ b1) as [[r k] b2]. exists k.
  destruct r; simpl; split; try lia; done.
Qed.

(** The error state after a transaction: [error] is 1 exactly when
    [errors] grew, and it grew by at most the number of failing steps. *)
Definition error_contract (s s' : AStar B) (steps : Z) : Prop :=
  error s' = (if bool_decide (errors s < errors s') then 1 else 0) /\
  errors s <= errors s' <= errors s + steps.

Lemma error_contract_flag (s : AStar B) b' tr ok :
  error_contract s (mkAStar b' (errors s + flag ok) (flag ok) tr) 1.
Proof. unfold error_contract, flag. simpl. destruct ok; case_bool_decide; lia. Qed.

Lemma read_txn_contract address size format (s : AStar B) :
  error_contract s (read_txn address size format s).2 2.
Proof.
  unfold read_txn, error_contract. destruct (smbus_write_byte DEV address (bus s)) as [ok b1].
  destruct (bus_reads _ b1) as [[[bs|] k] b2]; simpl;
    unfold flag; destruct ok; case_bool_decide; lia.
Qed.

Lemma write_txn_contract address format data (s : AStar B) r s' :
  write_txn address format data s = (r, s') ->
  (s' = s /\ r = Raise StructError) \/ (r = Ret tt /\ error_contract s s' 1).
Proof.
  unfold write_txn. destruct (Struct.pack format data) as [bs|]; [|naive_solver].
  destruct (smbus_write_block DEV address bs (bus s)) as [ok b1].
  intros; simplify_eq. right. split; [done|]. apply error_contract_flag.
Qed.

Context `{!SMBusLaws B}.

Lemma bus_reads_ok n b :
  bus_ok b ->
  let '(r, k, b') := bus_reads n b in
  bus_ok b' /\ forall bs, r = Some bs -> Forall byte_range bs.
Proof.
  revert b. induction n as [|n IH]; intros b Hb; simpl; [split; [done|]; by intros ? [= <-]|].
  destruct (smbus_read_byte DEV b) as [[z|] b1] eqn:E.
  - pose proof (read_byte_range _ _ _ _ Hb E) as Hz.
    assert (Hb1 : bus_ok b1) by (pose proof (read_byte_ok DEV b Hb) as Hok; by rewrite E in Hok).
    specialize (IH b1 Hb1). destruct (bus_reads n b1) as [[r k] b2].
    destruct IH as [Hb2 Hbs]. split; [done|].
    intros bs Hr. destruct r as [bs'|]; simpl in Hr; simplify_eq. constructor; auto.
  - split; [|done]. pose proof (read_byte_ok DEV b Hb) as Hok. by rewrite E in Hok.
Qed.

Lemma forallb_is_byte bs : Forall byte_range bs -> forallb is_byte bs = true.
Proof. induction 1; simpl; [done|]. apply andb_true_intro. split; [by apply is_byte_spec | done]. Qed.

Lemma read_txn_bus_ok address size format (s : AStar B) :
  bus_ok (bus s) -> bus_ok (bus (read_txn address size format s).2).
Proof.
  intros Hb. unfold read_txn.
  pose proof (write_byte_ok DEV address _ Hb) as Hb1.
  destruct (smbus_write_byte DEV address (bus s)) as [ok b1].
  pose proof (bus_reads_ok (Z.to_nat size) b1 Hb1) as Hr.
  destruct (bus_reads _ b1) as [[[bs|] k] b2]; simpl; tauto.
Qed.

(** With a well-behaved bus and a size that matches the format, the read
    transaction never raises. *)
Lemma read_txn_no_raise address size format (s : AStar B) :
  bus_ok (bus s) -> Struct.calcsize format = Some (Z.to_nat size) ->
  exists v, (read_txn address size format s).1 = Ret v.
Proof.
  intros Hb Hsz. unfold read_txn.
  pose proof (write_byte_ok DEV address _ Hb) as Hb1.
  destruct (smbus_write_byte DEV address (bus s)) as [ok b1].
  pose proof (bus_reads_ok (Z.to_nat size) b1 Hb1) as Hr.
  pose proof (bus_reads_spec (Z.to_nat size) b1) as Hk.
  destruct (bus_reads _ b1) as [[[bs|] k] b2]; simpl; [|by eexists].
  destruct Hr as [_ Hr]. destruct Hk as [_ [_ Hlen]].
  unfold decode. rewrite forallb_is_byte by auto.
  rewrite <- Hlen in Hsz. destruct (Struct.unpack_calcsize _ _ Hsz) as [vs ->].
  by eexists.
Qed.

(** The two outcomes of a read transaction on a well-behaved bus with a
    matching size: a failure ([error] is 1) or a tuple of the format's
    arity with no error counted. *)
Lemma read_txn_outcome address size format (s : AStar B) :
  bus_ok (bus s) -> Struct.calcsize format = Some (Z.to_nat size) ->
  let '(o, s') := read_txn address size format s in
  bus_ok (bus s') /\
  ((error s' = 1 /\ exists v, o = Ret v) \/
   (error s' = 0 /\ errors s' = errors s /\
    exists vs, o = Ret (PTuple vs) /\ Struct.arity format = Some (length vs))).
Proof.
  intros Hb Hsz.
  pose proof (read_txn_bus_ok address size format s Hb) as Hb'.
  pose proof (read_txn_no_raise address size format s Hb Hsz) as [v Hv].
  revert Hb' Hv. unfold read_txn.
  destruct (smbus_write_byte DEV address (bus s)) as [[] b1];
    destruct (bus_reads _ b1) as [[[bs|] k] b2]; simpl; intros Hb' Hv; split; auto;
    try (left; split; [done|]; by eexists).
  right. rewrite Z.add_0_r. do 2 (split; [done|]).
  revert Hv. unfold decode. destruct (forallb is_byte bs); [|done].
  destruct (Struct.unpack format bs) as [vs|] eqn:E; intros; simplify_eq.
  exists vs. split; [done|]. by eapply Struct.unpack_arity.
Qed.

(** ** Properties of the two primitives *)

(** C2: Every read transaction emits the address-select write, then exactly one 200 us sleep, then only byte reads (at most [size] of them), whatever the bus answers. *)
Lemma read_unpack_settle_once address size format (s : AStar B) :
  exists k, (k <= Z.to_nat size)%nat /\
    trace (read_unpack address size format s).2 = trace s ++ read_events address k.
Proof. rewrite read_unpack_spec. apply read_txn_trace. Qed.

(** C4: After [read_unpack], [error] is 1 exactly when [errors] grew, and [errors] grew by at most two (one per failing step: select, read). *)
Lemma read_unpack_error_contract address size format (s : AStar B) :
  error_contract s (read_unpack address size format s).2 2.
Proof. rewrite read_unpack_spec. apply read_txn_contract. Qed.

(** C12: [read_unpack] never raises when the bus behaves and the byte count matches the format: every fault becomes error state. *)
Lemma read_unpack_no_raise address size format (s : AStar B) :
  bus_ok (bus s) -> Struct.calcsize format = Some (Z.to_nat size) ->
  exists v, (read_unpack address size format s).1 = Ret v.
Proof. rewrite read_unpack_spec. apply read_txn_no_raise. Qed.

(** C13: [write_pack] either raises [struct.error] and leaves the object as it was (the flag is not reset), or returns with the error contract for its one bus call. *)
Lemma write_pack_error_contract address format data (s : AStar B) :
  let '(r, s') := write_pack address format data s in
  (s' = s /\ r = Raise StructError) \/ (r = Ret tt /\ error_contract s s' 1).
Proof.
  rewrite write_pack_spec.
  destruct (write_txn address format data s) as [r s'] eqn:E.
  by apply write_txn_contract in E.
Qed.

(** C21: When the byte reads fail, [read_unpack] returns the integer [0], not the sentinel list of the endpoint, and sets the flag. *)
Lemma read_unpack_read_failure address size format (s : AStar B) k b2 :
  bus_reads (Z.to_nat size) (smbus_write_byte DEV address (bus s)).2 = (None, k, b2) ->
  (read_unpack address size format s).1 = Ret (PInt 0) /\
  error (read_unpack address size format s).2 = 1.
Proof.
  rewrite read_unpack_spec. unfold read_txn.
  destruct (smbus_write_byte DEV address (bus s)) as [ok b1]. simpl. by intros ->.
Qed.

(** C18: The block [write_pack] sends has exactly [struct.calcsize(format)] bytes, and it is the only bus traffic of the call. *)
Lemma write_pack_block_size address format data (s : AStar B) :
  (write_pack address format data s).1 = Ret tt ->
  exists bs, Struct.calcsize format = Some (length bs) /\
    trace (write_pack address format data s).2 = trace s ++ [EvWriteBlock DEV address bs].
Proof.
  rewrite write_pack_spec. unfold write_txn.
  destruct (Struct.pack format data) as [bs|] eqn:E; [|done].
  destruct (smbus_write_block DEV address bs (bus s)) as [ok b1]. simpl. intros _.
  exists bs. split; [by apply (Struct.pack_calcsize _ data)|done].
Qed.

End EngineTheory.

(** ** Witnesses, on the scripted bus *)

Import Scripted.

Lemma read_unpack_no_raise_witness :
  bus_ok (bus (astar_init [Ack; Data 7; Nack])) /\
  Struct.calcsize "H" = Some (Z.to_nat 2) /\
  exists v, (read_unpack 10 2 "H" (astar_init [Ack; Data 7; Nack])).1 = Ret v.
Proof.
  split; [exact I|]. split; [reflexivity|].
  apply read_unpack_no_raise; [exact I|reflexivity].
Defined.

Lemma read_unpack_read_failure_witness :
  bus_reads (Z.to_nat 2) (smbus_write_byte DEV 10 (bus (astar_init [Ack; Data 7; Nack]))).2
    = (None, 2%nat, []) /\
  (read_unpack 10 2 "H" (astar_init [Ack; Data 7; Nack])).1 = Ret (PInt 0) /\
  error (read_unpack 10 2 "H" (astar_init [Ack; Data 7; Nack])).2 = 1.
Proof.
  split; [reflexivity|].
  apply (read_unpack_read_failure 10 2 "H" (astar_init [Ack; Data 7; Nack]) 2%nat []).
  reflexivity.
Defined.

Lemma write_pack_block_size_witness :
  (write_pack 6 "hh" [PInt 1; PInt 2] (astar_init [Ack])).1 = Ret tt /\
  exists bs, Struct.calcsize "hh" = Some (length bs) /\
    trace (write_pack 6 "hh" [PInt 1; PInt 2] (astar_init [Ack])).2
      = trace (astar_init [Ack]) ++ [EvWriteBlock DEV 6 bs].
Proof. split; [reflexivity|]. apply write_pack_block_size. reflexivity. Defined.
