(* ===== verification/Endpoints.v ===== *)
(** * Endpoints: the register operations of [AStar]

    The methods of src/a_star.py lines 62-145, each a program of the
    monad [PyM (AStar B)] over any [SMBus] bus: the writes [leds],
    [play_notes], [motors]; the reads [read_buttons],
    [read_battery_millivolts], [read_analog], [read_encoders], each with
    the sentinel it returns when [self.error] is set; the diagnostics
    [test_read8], [test_read32], [test_write8].

    [reg_desc] is the declarative register table of spec section 4.2
    (address, size, format, sentinel); [read_endpoints] pairs each read
    method with its row, so that theorems about all read endpoints are
    stated once.  [call] is the public API, [run_call] dispatches it, and
    [reachable] is the set of object states that some sequence of calls
    (each of which may raise; the object survives) reaches from
    [__init__]. *)

From S2P Require Import Prelude Bytes Struct Bus Engine.

Section Endpoints.
Context {B : Type} `{SMBus B}.

Local Notation M := (PyM (AStar B)).

(** [if self.error: pass]: the flag is read and both branches are empty. *)
Definition check_error : M unit := _ ← get_error; mret tt.

(** [if self.error: return sentinel else: return v] *)
Definition sentinel_or (sentinel : list pyval) (v : pyval) : M pyval :=
  e ← get_error; if bool_decide (e <> 0) then mret (PList sentinel) else mret v.

(** [notes.encode("ascii")]: code points below 128, else
    [UnicodeEncodeError]. *)
Definition encode_ascii (notes : list Z) : M pyval :=
  if forallb (fun c => (0 <=? c) && (c <? 128)) notes then mret (PBytes notes)
  else mthrow UnicodeEncodeError.

(** ** Writes (lines 62-85) *)

Definition leds (red yellow green : pyval) : M pyval :=
  set_error 0;;
  write_pack 0 "BBB" [red; yellow; green];;
  check_error;;
  mret PNone.

Definition play_notes (notes : list Z) : M pyval :=
  set_error 0;;
  b ← encode_ascii notes;
  write_pack 24 "B15s" [PInt 1; b];;
  check_error;;
  mret PNone.

Definition motors (left right : pyval) : M pyval :=
  set_error 0;;
  write_pack 6 "hh" [left; right];;
  check_error;;
  mret PNone.

(** ** Reads (lines 89-129) *)

Definition read_buttons : M pyval :=
  set_error 0;;
  b ← read_unpack 3 3 "???";
  sentinel_or [PInt 0; PInt 0; PInt 0] b.

Definition read_battery_millivolts : M pyval :=
  set_error 0;;
  bmv ← read_unpack 10 2 "H";
  sentinel_or [PInt 0] bmv.

Definition read_analog : M pyval :=
  set_error 0;;
  a ← read_unpack 12 12 "HHHHHH";
  sentinel_or [PInt 0; PInt 0; PInt 0; PInt 0; PInt 0; PInt 0] a.

Definition read_encoders : M pyval :=
  set_error 0;;
  e ← read_unpack 39 4 "hh";
  sentinel_or [PInt 0; PInt 0] e.

(** ** Diagnostics (lines 133-145) *)

Definition test_read8 : M pyval :=
  read_unpack 0 8 "cccccccc";; mret PNone.

Definition test_read32 : M pyval :=
  read_unpack 0 32 "cccccccccccccccccccccccccccccccc";; mret PNone.

(** No [try]: a bus fault propagates, and the flags are not touched. *)
Definition test_write8 : M pyval :=
  bus_write_block 20 0 [0; 0; 0; 0; 0; 0; 0; 0];;
  time_sleep SETTLE_US;;
  mret PNone.

(** ** The register table (spec section 4.2) *)

Record reg_desc := RegDesc {
  rd_address : Z;
  rd_size : Z;
  rd_format : String.string;
  rd_sentinel : list pyval;
}.

(** The generic read endpoint that the table describes. *)
Definition read_register (d : reg_desc) : M pyval :=
  set_error 0;;
  v ← read_unpack (rd_address d) (rd_size d) (rd_format d);
  sentinel_or (rd_sentinel d) v.

Definition read_endpoints : list (reg_desc * M pyval) :=
  [(RegDesc 3 3 "???" [PInt 0; PInt 0; PInt 0], read_buttons);
   (RegDesc 10 2 "H" [PInt 0], read_battery_millivolts);
   (RegDesc 12 12 "HHHHHH" [PInt 0; PInt 0; PInt 0; PInt 0; PInt 0; PInt 0], read_analog);
   (RegDesc 39 4 "hh" [PInt 0; PInt 0], read_encoders)].

(** ** The public API *)

Inductive call : Type :=
  | CLeds (red yellow green : pyval)
  | CPlayNotes (notes : list Z)
  | CMotors (left right : pyval)
  | CReadButtons
  | CReadBatteryMillivolts
  | CReadAnalog
  | CReadEncoders
  | CTestRead8
  | CTestRead32
  | CTestWrite8.

Definition run_call (c : call) : M pyval :=
  match c with
  | CLeds r y g => leds r y g
  | CPlayNotes n => play_notes n
  | CMotors l r => motors l r
  | CReadButtons => read_buttons
  | CReadBatteryMillivolts => read_battery_millivolts
  | CReadAnalog => read_analog
  | CReadEncoders => read_encoders
  | CTestRead8 => test_read8
  | CTestRead32 => test_read32
  | CTestWrite8 => test_write8
  end.

Context `{!SMBusLaws B}.

(** Object states reachable from [__init__] by any sequence of calls. *)
Inductive reachable : AStar B -> Prop :=
  | reach_init b : bus_ok b -> reachable (astar_init b)
  | reach_call s c : reachable s -> reachable (run_call c s).2.

(** The object as the endpoints leave it after [self.error = 0]. *)
Definition with_error0 (s : AStar B) : AStar B := mkAStar (bus s) (errors s) 0 (trace s).

Definition is_ascii (c : Z) : Prop := 0 <= c < 128.

(** The state after a sequence of calls; each call may raise and the
    caller goes on with the object. *)
Fixpoint run_calls (cs : list call) (s : AStar B) : AStar B :=
  match cs with
  | [] => s
  | c :: cs' => run_calls cs' (run_call c s).2
  end.

(** The well-formedness of an object state. *)
Definition astar_wf (s : AStar B) : Prop :=
  bus_ok (bus s) /\ 0 <= errors s /\ (error s = 0 \/ error s = 1) /\
  (error s = 1 -> 1 <= errors s).

End Endpoints.

Section EndpointTheory.
Context {B : Type} `{SMBus B}.

Lemma read_register_run d (s : AStar B) :
  read_register d s =
    let '(o, s') := read_txn (rd_address d) (rd_size d) (rd_format d) (with_error0 s) in
    match o with
    | Ret v => (Ret (if bool_decide (error s' <> 0) then PList (rd_sentinel d) else v), s')
    | Raise e => (Raise e, s')
    end.
Proof.
  unfold read_register, sentinel_or, get_error, set_error, with_error0. py_run.
  rewrite read_unpack_spec.
  destruct (read_txn _ _ _ _) as [[v|e] s']; simpl; [by case_bool_decide|done].
Qed.

Lemma read_endpoints_register d f :
  In (d, f) read_endpoints -> f = read_register d.
Proof. simpl. intros Hin. by repeat destruct Hin as [Hin|Hin]; simplify_eq. Qed.

(** Each row of the table is consistent: the size passed to
    [read_unpack] is the format's [calcsize], and the sentinel has the
    format's arity. *)
Lemma read_endpoints_rows d f :
  In (d, f) read_endpoints ->
  Struct.calcsize (rd_format d) = Some (Z.to_nat (rd_size d)) /\
  Struct.arity (rd_format d) = Some (length (rd_sentinel d)).
Proof. simpl. intros Hin. by repeat destruct Hin as [Hin|Hin]; simplify_eq. Qed.

Context `{!SMBusLaws B}.

Lemma read_endpoint_result d f (s : AStar B) :
  In (d, f) read_endpoints -> bus_ok (bus s) ->
  let '(o, s') := f s in
  (error s' = 1 /\ o = Ret (PList (rd_sentinel d))) \/
  (error s' = 0 /\ errors s' = errors s /\
   exists vs, o = Ret (PTuple vs) /\ length vs = length (rd_sentinel d)).
Proof.
  intros Hin Hb. rewrite (read_endpoints_register _ _ Hin), read_register_run.
  destruct (read_endpoints_rows _ _ Hin) as [Hsz Har].
  pose proof (read_txn_outcome (rd_address d) (rd_size d) (rd_format d) (with_error0 s) Hb Hsz)
    as Ho.
  destruct (read_txn _ _ _ _) as [o s'].
  destruct Ho as [_ [[He [v ->]] | (He & Herr & vs & -> & Har')]]; rewrite He.
  - left. split; [done|]. by case_bool_decide.
  - right. do 2 (split; [done|]). exists vs. rewrite Har in Har'.
    case_bool_decide; [done|]. split; [done|]. by simplify_eq.
Qed.

(** C3: Every read endpoint (buttons, battery, analog, encoders) returns either its documented sentinel with [error] set, or a tuple of the sentinel's arity with [error] clear and no error counted; it never raises. *)
Theorem read_endpoint_sentinel d f (s : AStar B) :
  In (d, f) read_endpoints -> bus_ok (bus s) ->
  let '(o, s') := f s in
  (error s' = 1 /\ o = Ret (PList (rd_sentinel d))) \/
  (error s' = 0 /\ errors s' = errors s /\
   exists vs, o = Ret (PTuple vs) /\ length vs = length (rd_sentinel d)).
Proof. exact (read_endpoint_result d f s). Qed.

(** C11: A failed address-select write is not fatal: the bytes are still read (at least one [read_byte]), but the endpoint then discards them and returns its sentinel with [error] set. *)
Theorem read_endpoint_select_failure d f (s : AStar B) b1 :
  In (d, f) read_endpoints -> bus_ok (bus s) ->
  smbus_write_byte DEV (rd_address d) (bus s) = (false, b1) ->
  (f s).1 = Ret (PList (rd_sentinel d)) /\ error (f s).2 = 1 /\
  exists k, (1 <= k)%nat /\ trace (f s).2 = trace s ++ read_events (rd_address d) k.
Proof.
  intros Hin Hb Hsel.
  pose proof (read_endpoint_result d f s Hin Hb) as Hs.
  rewrite (read_endpoints_register _ _ Hin), read_register_run in Hs |- *.
  assert (Hn : (1 <= Z.to_nat (rd_size d))%nat).
  { simpl in Hin. repeat destruct Hin as [Hin|Hin]; simplify_eq; simpl; try lia; done. }
  unfold read_txn in Hs |- *. simpl in Hs |- *. rewrite Hsel in Hs |- *.
  pose proof (bus_reads_spec (Z.to_nat (rd_size d)) b1) as Hk.
  destruct (bus_reads _ b1) as [[r k] b2].
  assert (Hk1 : (1 <= k)%nat) by (destruct r; lia).
  destruct r as [bs|]; simpl in Hs |- *.
  - destruct (decode (rd_format d) bs); simpl in Hs |- *;
      destruct Hs as [[_ Ho] | [? _]]; try done.
    split; [done|]. split; [done|]. by exists k.
  - split; [done|]. split; [done|]. by exists k.
Qed.

(** ** Write endpoints *)

Lemma write_then_check_run a f data (s : AStar B) :
  (write_pack a f data;; check_error;; mret PNone) s =
    let '(r, s') := write_txn a f data s in
    (match r with Ret _ => Ret PNone | Raise e => Raise e end, s').
Proof.
  unfold check_error, get_error. py_run. rewrite write_pack_spec.
  by destruct (write_txn a f data s) as [[] ?].
Qed.

Lemma write_txn_run a f data bs (s : AStar B) :
  Struct.pack f data = Some bs ->
  write_txn a f data s =
    let '(ok, b') := smbus_write_block DEV a bs (bus s) in
    (Ret tt, mkAStar b' (errors s + flag ok) (flag ok) (trace s ++ [EvWriteBlock DEV a bs])).
Proof. unfold write_txn. by intros ->. Qed.

(** The [pack] of a fixed format of integer fields, by cases on the
    range checks. *)
Ltac pack_cases :=
  unfold Struct.pack; simpl;
  repeat match goal with
         | |- context [Struct.in_range ?lo ?hi ?v] => destruct (Struct.in_range lo hi v); simpl
         end;
  naive_solver.

Lemma pack_hh (l r : pyval) bs :
  Struct.pack "hh" [l; r] = Some bs <->
  exists b1 b2, Struct.pack_item Struct.native_mode Struct.FShort l = Some b1 /\
                Struct.pack_item Struct.native_mode Struct.FShort r = Some b2 /\ bs = b1 ++ b2.
Proof.
  pack_cases.
Qed.

Lemma pack_item_short (z : Z) :
  -32768 <= z <= 32767 ->
  Struct.pack_item Struct.native_mode Struct.FShort (PInt z) = Some (le_bytes 2 z).
Proof.
  intros Hz. unfold Struct.pack_item, Struct.in_range. simpl.
  destruct (Z.leb_spec (-32768) z), (Z.leb_spec z 32767); simpl; try lia. done.
Qed.

Lemma pack_BBB (r y g : pyval) bs :
  Struct.pack "BBB" [r; y; g] = Some bs <->
  exists b1 b2 b3, Struct.pack_item Struct.native_mode Struct.FUByte r = Some b1 /\
                   Struct.pack_item Struct.native_mode Struct.FUByte y = Some b2 /\
                   Struct.pack_item Struct.native_mode Struct.FUByte g = Some b3 /\
                   bs = b1 ++ b2 ++ b3.
Proof. pack_cases. Qed.

Lemma leds_run (r y g : pyval) (s : AStar B) :
  leds r y g s = (write_pack 0 "BBB" [r; y; g];; check_error;; mret PNone) (with_error0 s).
Proof. reflexivity. Qed.

(** C17: [leds(red, yellow, green)] raises [struct.error] exactly when one of the three values is not an integer in 0..255; otherwise it returns [None] and a bus fault is recorded, not raised. *)
Theorem leds_range (r y g : pyval) (s : AStar B) :
  (leds r y g s).1 = Raise StructError <->
  ~ (Struct.item_ok Struct.FUByte r /\ Struct.item_ok Struct.FUByte y /\
     Struct.item_ok Struct.FUByte g).
Proof.
  rewrite leds_run, write_then_check_run. unfold write_txn.
  destruct (Struct.pack "BBB" [r; y; g]) as [bs|] eqn:E.
  - destruct (smbus_write_block _ _ _ _). cbn [fst]. split; [done|].
    intros Hn. exfalso. apply Hn. apply pack_BBB in E as (b1 & b2 & b3 & E1 & E2 & E3 & _).
    split; [|split]; apply (Struct.pack_item_ok Struct.native_mode); by eauto.
  - cbn [fst]. split; [intros _|done]. intros (Hr & Hy & Hg).
    apply (Struct.pack_item_ok Struct.native_mode) in Hr as [b1 Hr]; [|done].
    apply (Struct.pack_item_ok Struct.native_mode) in Hy as [b2 Hy]; [|done].
    apply (Struct.pack_item_ok Struct.native_mode) in Hg as [b3 Hg]; [|done].
    assert (Hp : Struct.pack "BBB" [r; y; g] = Some (b1 ++ b2 ++ b3)) by (apply pack_BBB; eauto 10).
    congruence.
Qed.

Lemma motors_run (l r : pyval) (s : AStar B) :
  motors l r s = (write_pack 6 "hh" [l; r];; check_error;; mret PNone) (with_error0 s).
Proof. reflexivity. Qed.

(** C10: [motors(left, right)] with speeds in the 16-bit range sends one block write of the two little-endian shorts to register 6 and records its failure in the error state. *)
Theorem motors_wire (l r : Z) (s : AStar B) :
  -32768 <= l <= 32767 -> -32768 <= r <= 32767 ->
  motors (PInt l) (PInt r) s =
    let data := le_bytes 2 l ++ le_bytes 2 r in
    let '(ok, b') := smbus_write_block DEV 6 data (bus s) in
    (Ret PNone, mkAStar b' (errors s + flag ok) (flag ok) (trace s ++ [EvWriteBlock DEV 6 data])).
Proof.
  intros Hl Hr. rewrite motors_run, write_then_check_run, (write_txn_run _ _ _ (le_bytes 2 l ++ le_bytes 2 r)).
  - simpl. by destruct (smbus_write_block _ _ _ _).
  - apply pack_hh. rewrite !pack_item_short by done. eauto.
Qed.

(** C14: A motor speed outside the 16-bit range makes [struct.pack] raise: no bus traffic, nothing counted, and the exception reaches the caller. *)
Theorem motors_out_of_range (l r : pyval) (s : AStar B) :
  ~ (Struct.item_ok Struct.FShort l /\ Struct.item_ok Struct.FShort r) ->
  motors l r s = (Raise StructError, with_error0 s).
Proof.
  intros Hbad. rewrite motors_run, write_then_check_run. unfold write_txn.
  destruct (Struct.pack "hh" [l; r]) as [bs|] eqn:E; [|done].
  exfalso. apply Hbad. apply pack_hh in E as (b1 & b2 & E1 & E2 & _).
  split; apply (Struct.pack_item_ok Struct.native_mode); by eauto.
Qed.

Lemma encode_ascii_ok (notes : list Z) :
  forallb (fun c => (0 <=? c) && (c <? 128)) notes = true <-> Forall is_ascii notes.
Proof.
  induction notes as [|c notes IH]; simpl; [split; [intros; constructor|done]|].
  rewrite !andb_true_iff, IH, Forall_cons_iff, Z.leb_le, Z.ltb_lt. unfold is_ascii. tauto.
Qed.

Lemma play_notes_run (notes : list Z) (s : AStar B) :
  play_notes notes s =
    if forallb (fun c => (0 <=? c) && (c <? 128)) notes
    then (write_pack 24 "B15s" [PInt 1; PBytes notes];; check_error;; mret PNone) (with_error0 s)
    else (Raise UnicodeEncodeError, with_error0 s).
Proof. unfold play_notes, encode_ascii. py_run. by destruct (forallb _ notes). Qed.

(** C15: [play_notes(notes)] on an ASCII string sends the 16-byte payload to register 24: the tag 1, then the string truncated or NUL-padded to 15 bytes. *)
Theorem play_notes_payload (notes : list Z) (s : AStar B) :
  Forall is_ascii notes ->
  play_notes notes s =
    let data := 1 :: take 15 notes ++ replicate (15 - length notes) 0 in
    let '(ok, b') := smbus_write_block DEV 24 data (bus s) in
    (Ret PNone, mkAStar b' (errors s + flag ok) (flag ok) (trace s ++ [EvWriteBlock DEV 24 data])).
Proof.
  intros Hn. rewrite play_notes_run, (proj2 (encode_ascii_ok notes) Hn).
  rewrite write_then_check_run, (write_txn_run _ _ _ (1 :: take 15 notes ++ replicate (15 - length notes) 0)).
  - simpl. by destruct (smbus_write_block _ _ _ _).
  - unfold Struct.pack. simpl. by rewrite app_nil_r.
Qed.

(** C16: [play_notes] on a non-ASCII string raises [UnicodeEncodeError] before any bus traffic. *)
Theorem play_notes_non_ascii (notes : list Z) (s : AStar B) :
  ~ Forall is_ascii notes -> play_notes notes s = (Raise UnicodeEncodeError, with_error0 s).
Proof.
  intros Hn. rewrite play_notes_run. destruct (forallb _ notes) eqn:E; [|done].
  by apply encode_ascii_ok in E.
Qed.

(** ** The error state across the public API *)

Lemma error_contract_weaken (s s' : AStar B) k k' :
  k <= k' -> error_contract s s' k -> error_contract s s' k'.
Proof. unfold error_contract. lia. Qed.

Lemma error_contract_reset (s : AStar B) k : 0 <= k -> error_contract s (with_error0 s) k.
Proof. unfold error_contract. simpl. case_bool_decide; lia. Qed.

Lemma write_endpoint_contract a f data (s : AStar B) :
  let s' := ((write_pack a f data;; check_error;; mret PNone) (with_error0 s)).2 in
  error_contract s s' 2 /\ (bus_ok (bus s) -> bus_ok (bus s')).
Proof.
  rewrite write_then_check_run. unfold write_txn.
  destruct (Struct.pack f data) as [bs|]; simpl.
  - pose proof (write_block_ok DEV a bs (bus s)) as Hok.
    destruct (smbus_write_block DEV a bs (bus s)) as [ok b1]. simpl. split; [|done].
    eapply error_contract_weaken, (error_contract_flag (with_error0 s)). lia.
  - split; [by apply error_contract_reset|done].
Qed.

Lemma read_endpoint_contract d (s : AStar B) :
  error_contract s (read_register d s).2 2 /\
  (bus_ok (bus s) -> bus_ok (bus (read_register d s).2)).
Proof.
  rewrite read_register_run.
  pose proof (read_txn_contract (rd_address d) (rd_size d) (rd_format d) (with_error0 s)) as Hc.
  pose proof (read_txn_bus_ok (rd_address d) (rd_size d) (rd_format d) (with_error0 s)) as Hb.
  destruct (read_txn _ _ _ _) as [[] s']; by split.
Qed.

Lemma read_unpack_then_none_contract a n f (s : AStar B) :
  error_contract s ((read_unpack a n f;; mret PNone) s).2 2 /\
  (bus_ok (bus s) -> bus_ok (bus ((read_unpack a n f;; mret PNone) s).2)).
Proof.
  py_run. rewrite read_unpack_spec.
  pose proof (read_txn_contract a n f s) as Hc. pose proof (read_txn_bus_ok a n f s) as Hb.
  destruct (read_txn a n f s) as [[] s']; by split.
Qed.

(** [test_write8] touches neither [errors] nor [error]. *)
Lemma test_write8_state (s : AStar B) :
  errors (test_write8 s).2 = errors s /\ error (test_write8 s).2 = error s /\
  (bus_ok (bus s) -> bus_ok (bus (test_write8 s).2)).
Proof.
  unfold test_write8, time_sleep. py_run. rewrite bus_write_block_run.
  pose proof (write_block_ok 20 0 [0; 0; 0; 0; 0; 0; 0; 0] (bus s)) as Hok.
  by destruct (smbus_write_block _ _ _ _) as [[] b1].
Qed.

Lemma run_call_state c (s : AStar B) :
  (bus_ok (bus s) -> bus_ok (bus (run_call c s).2)) /\
  match c with
  | CTestWrite8 => errors (run_call c s).2 = errors s /\ error (run_call c s).2 = error s
  | _ => error_contract s (run_call c s).2 2
  end.
Proof.
  destruct c; simpl.
  - pose proof (write_endpoint_contract 0 "BBB" [red; yellow; green] s). naive_solver.
  - rewrite play_notes_run. destruct (forallb _ notes).
    + pose proof (write_endpoint_contract 24 "B15s" [PInt 1; PBytes notes] s). naive_solver.
    + split; [done|]. by apply error_contract_reset.
  - pose proof (write_endpoint_contract 6 "hh" [left; right] s). naive_solver.
  - pose proof (read_endpoint_contract (RegDesc 3 3 "???" [PInt 0; PInt 0; PInt 0]) s). naive_solver.
  - pose proof (read_endpoint_contract (RegDesc 10 2 "H" [PInt 0]) s). naive_solver.
  - pose proof (read_endpoint_contract
                  (RegDesc 12 12 "HHHHHH" [PInt 0; PInt 0; PInt 0; PInt 0; PInt 0; PInt 0]) s).
    naive_solver.
  - pose proof (read_endpoint_contract (RegDesc 39 4 "hh" [PInt 0; PInt 0]) s). naive_solver.
  - pose proof (read_unpack_then_none_contract 0 8 "cccccccc" s). naive_solver.
  - pose proof (read_unpack_then_none_contract 0 32 "cccccccccccccccccccccccccccccccc" s).
    naive_solver.
  - pose proof (test_write8_state s). naive_solver.
Qed.

(** C7: Every public method except [test_write8] leaves [error] at 1 exactly when it increased [errors] (by at most two), whether it returns or raises. *)
Theorem call_error_contract c (s : AStar B) :
  c <> CTestWrite8 -> error_contract s (run_call c s).2 2.
Proof. intros Hc. destruct (run_call_state c s) as [_ Hs]. by destruct c. Qed.

Lemma run_call_errors_mono c (s : AStar B) : errors s <= errors (run_call c s).2.
Proof.
  destruct (run_call_state c s) as [_ Hs]. unfold error_contract in Hs.
  destruct c; lia.
Qed.

(** C6: [errors] is append-only: no sequence of public calls, returning or raising, decreases it. *)
Theorem errors_monotone cs (s : AStar B) : errors s <= errors (run_calls cs s).
Proof.
  revert s. induction cs as [|c cs IH]; intros s; simpl; [lia|].
  pose proof (run_call_errors_mono c s). specialize (IH (run_call c s).2). lia.
Qed.


(** C5: In every object state reachable from [__init__] by any sequence of calls, the bus is well behaved, [errors] is non-negative, [error] is 0 or 1, and a set flag has been counted. *)
Theorem reachable_wf (s : AStar B) : reachable s -> astar_wf s.
Proof.
  induction 1 as [b Hb | s c _ (Hb & Hn & Hf & Hc)].
  - unfold astar_wf; simpl. split; [done|]. lia.
  - destruct (run_call_state c s) as [Hb' Hs]. split; [by apply Hb'|].
    unfold error_contract in Hs.
    destruct c; try (case_bool_decide; lia); lia.
Qed.

(** C19: The wire layout of the encoders: when the select is acknowledged and the four bytes [l0 l1 r0 r1] are read, [read_encoders] returns the two little-endian signed 16-bit counts and clears the flag. *)
Theorem read_encoders_decode (s : AStar B) b1 b2 k (l0 l1 r0 r1 : Z) :
  smbus_write_byte DEV 39 (bus s) = (true, b1) ->
  bus_reads 4 b1 = (Some [l0; l1; r0; r1], k, b2) ->
  Forall byte_range [l0; l1; r0; r1] ->
  read_encoders s =
    (Ret (PTuple [PInt (to_signed 16 (l0 + 256 * l1)); PInt (to_signed 16 (r0 + 256 * r1))]),
     mkAStar b2 (errors s) 0 (trace s ++ read_events 39 k)).
Proof.
  intros Hsel Hrd Hbs.
  change (read_encoders s) with (read_register (RegDesc 39 4 "hh" [PInt 0; PInt 0]) s).
  rewrite read_register_run. unfold read_txn.
  cbn [rd_address rd_size rd_format rd_sentinel with_error0 bus errors trace].
  rewrite Hsel. change (Z.to_nat 4) with 4%nat. rewrite Hrd. simpl.
  unfold decode. rewrite forallb_is_byte by done. simpl.
  unfold Struct.int_value. simpl. rewrite !Z.mul_0_r, !Z.add_0_r. reflexivity.
Qed.

Lemma test_write8_eq (s : AStar B) :
  test_write8 s =
    let zeros := [0; 0; 0; 0; 0; 0; 0; 0] in
    let '(ok, b') := smbus_write_block 20 0 zeros (bus s) in
    if ok then (Ret PNone, mkAStar b' (errors s) (error s)
                              (trace s ++ [EvWriteBlock 20 0 zeros; EvSleep SETTLE_US]))
    else (Raise OSError, mkAStar b' (errors s) (error s) (trace s ++ [EvWriteBlock 20 0 zeros])).
Proof.
  unfold test_write8, time_sleep. py_run. rewrite bus_write_block_run.
  destruct (smbus_write_block _ _ _ _) as [[] b1]; simpl; by rewrite <- ?app_assoc.
Qed.

(** C20: [test_write8] (lines 143-145) performs one block write outside any [try]: a bus fault raises [OSError] before the sleep, and neither [errors] nor [error] is touched on either path. *)
Theorem test_write8_run (s : AStar B) :
  test_write8 s =
    let zeros := [0; 0; 0; 0; 0; 0; 0; 0] in
    let '(ok, b') := smbus_write_block 20 0 zeros (bus s) in
    if ok then (Ret PNone, mkAStar b' (errors s) (error s)
                              (trace s ++ [EvWriteBlock 20 0 zeros; EvSleep SETTLE_US]))
    else (Raise OSError, mkAStar b' (errors s) (error s) (trace s ++ [EvWriteBlock 20 0 zeros])).
Proof. exact (test_write8_eq s). Qed.

End EndpointTheory.

(** ** Scenarios and witnesses, on the scripted bus *)

Import Scripted.

(** The scenarios of spec section 8: buttons [1,0,1] read as (True, False, True); a failed battery read gives [0] with the flag set; motors(150, -150) writes [0x96, 0, 0x6A, 0xFF] to register 6; play_notes("c") writes the tag, "c" and 14 NULs to register 24. *)
Example spec_scenarios :
  read_buttons (astar_init [Ack; Data 1; Data 0; Data 1]) =
    (Ret (PTuple [PBool true; PBool false; PBool true]),
     mkAStar [] 0 0 [EvWriteByte 20 3; EvSleep 200; EvReadByte 20; EvReadByte 20; EvReadByte 20]) /\
  (read_battery_millivolts (astar_init [Ack; Nack])).1 = Ret (PList [PInt 0]) /\
  error (read_battery_millivolts (astar_init [Ack; Nack])).2 = 1 /\
  trace (motors (PInt 150) (PInt (-150)) (astar_init [Ack])).2
    = [EvWriteBlock 20 6 [0x96; 0x00; 0x6A; 0xFF]] /\
  trace (play_notes [99] (astar_init [Ack])).2 = [EvWriteBlock 20 24 (1 :: 99 :: replicate 14 0)].
Proof. repeat split; reflexivity. Qed.



Lemma read_endpoint_sentinel_witness :
  In (RegDesc 10 2 "H" [PInt 0], read_battery_millivolts) read_endpoints /\
  bus_ok (bus (astar_init [Ack; Data 1; Nack])) /\
  let '(o, s') := read_battery_millivolts (astar_init [Ack; Data 1; Nack]) in
  (error s' = 1 /\ o = Ret (PList [PInt 0])) \/
  (error s' = 0 /\ errors s' = errors (astar_init [Ack; Data 1; Nack]) /\
   exists vs, o = Ret (PTuple vs) /\ length vs = length [PInt 0]).
Proof.
  split; [simpl; tauto|]. split; [exact I|].
  apply (read_endpoint_sentinel (RegDesc 10 2 "H" [PInt 0])); [simpl; tauto | exact I].
Defined.

Lemma read_endpoint_select_failure_witness :
  In (RegDesc 3 3 "???" [PInt 0; PInt 0; PInt 0], read_buttons) read_endpoints /\
  bus_ok (bus (astar_init [Nack; Data 1; Data 0; Data 1])) /\
  smbus_write_byte DEV 3 (bus (astar_init [Nack; Data 1; Data 0; Data 1]))
    = (false, [Data 1; Data 0; Data 1]) /\
  (read_buttons (astar_init [Nack; Data 1; Data 0; Data 1])).1 = Ret (PList [PInt 0; PInt 0; PInt 0]) /\
  error (read_buttons (astar_init [Nack; Data 1; Data 0; Data 1])).2 = 1 /\
  exists k, (1 <= k)%nat /\
    trace (read_buttons (astar_init [Nack; Data 1; Data 0; Data 1])).2
      = trace (astar_init [Nack; Data 1; Data 0; Data 1]) ++ read_events 3 k.
Proof.
  split; [simpl; tauto|]. split; [exact I|]. split; [reflexivity|].
  apply (read_endpoint_select_failure (RegDesc 3 3 "???" [PInt 0; PInt 0; PInt 0])
           read_buttons _ [Data 1; Data 0; Data 1]); [simpl; tauto | exact I | reflexivity].
Defined.

Lemma reachable_wf_witness :
  reachable (run_call CReadButtons (astar_init [Nack; Data 1; Data 0; Data 1])).2 /\
  astar_wf (run_call CReadButtons (astar_init [Nack; Data 1; Data 0; Data 1])).2.
Proof.
  assert (Hr : reachable (run_call CReadButtons (astar_init [Nack; Data 1; Data 0; Data 1])).2)
    by (apply reach_call, reach_init; exact I).
  split; [exact Hr|]. apply reachable_wf. exact Hr.
Defined.

Lemma call_error_contract_witness :
  CReadButtons <> CTestWrite8 /\
  error_contract (astar_init [Nack; Nack])
    (run_call CReadButtons (astar_init [Nack; Nack])).2 2.
Proof. split; [discriminate|]. apply call_error_contract. discriminate. Defined.

Lemma motors_wire_witness :
  -32768 <= 150 <= 32767 /\ -32768 <= -150 <= 32767 /\
  motors (PInt 150) (PInt (-150)) (astar_init [Nack]) =
    (let data := le_bytes 2 150 ++ le_bytes 2 (-150) in
     let '(ok, b') := smbus_write_block DEV 6 data (bus (astar_init [Nack])) in
     (Ret PNone, mkAStar b' (errors (astar_init [Nack]) + flag ok) (flag ok)
                         (trace (astar_init [Nack]) ++ [EvWriteBlock DEV 6 data]))).
Proof. split; [lia|]. split; [lia|]. apply motors_wire; lia. Defined.

Lemma motors_out_of_range_witness :
  ~ (Struct.item_ok Struct.FShort (PInt 40000) /\ Struct.item_ok Struct.FShort (PInt 0)) /\
  motors (PInt 40000) (PInt 0) (astar_init [Ack])
    = (Raise StructError, with_error0 (astar_init [Ack])).
Proof.
  assert (Hbad : ~ (Struct.item_ok Struct.FShort (PInt 40000) /\ Struct.item_ok Struct.FShort (PInt 0))).
  { intros [[z [Hz Hr]] _]. simpl in Hz. simplify_eq. lia. }
  split; [exact Hbad|]. apply motors_out_of_range. exact Hbad.
Defined.

Lemma play_notes_payload_witness :
  Forall is_ascii [99; 52] /\
  play_notes [99; 52] (astar_init [Ack]) =
    (let data := 1 :: take 15 [99; 52] ++ replicate (15 - length [99; 52]) 0 in
     let '(ok, b') := smbus_write_block DEV 24 data (bus (astar_init [Ack])) in
     (Ret PNone, mkAStar b' (errors (astar_init [Ack]) + flag ok) (flag ok)
                         (trace (astar_init [Ack]) ++ [EvWriteBlock DEV 24 data]))).
Proof.
  assert (Ha : Forall is_ascii [99; 52]) by (repeat constructor; unfold is_ascii; lia).
  split; [exact Ha|]. apply play_notes_payload. exact Ha.
Defined.

Lemma play_notes_non_ascii_witness :
  ~ Forall is_ascii [233] /\
  play_notes [233] (astar_init [Ack]) = (Raise UnicodeEncodeError, with_error0 (astar_init [Ack])).
Proof.
  assert (Ha : ~ Forall is_ascii [233]).
  { intros Hf. inversion Hf as [|? ? Hc]; unfold is_ascii in Hc; lia. }
  split; [exact Ha|]. apply play_notes_non_ascii. exact Ha.
Defined.

Lemma leds_range_witness :
  (leds (PInt 300) (PInt 0) (PBool true) (astar_init [Ack])).1 = Raise StructError <->
  ~ (Struct.item_ok Struct.FUByte (PInt 300) /\ Struct.item_ok Struct.FUByte (PInt 0) /\
     Struct.item_ok Struct.FUByte (PBool true)).
Proof. apply leds_range. Defined.

Lemma read_encoders_decode_witness :
  smbus_write_byte DEV 39 (bus (astar_init [Ack; Data 106; Data 255; Data 150; Data 0]))
    = (true, [Data 106; Data 255; Data 150; Data 0]) /\
  bus_reads 4 [Data 106; Data 255; Data 150; Data 0] = (Some [106; 255; 150; 0], 4%nat, []) /\
  Forall byte_range [106; 255; 150; 0] /\
  read_encoders (astar_init [Ack; Data 106; Data 255; Data 150; Data 0]) =
    (Ret (PTuple [PInt (to_signed 16 (106 + 256 * 255)); PInt (to_signed 16 (150 + 256 * 0))]),
     mkAStar [] (errors (astar_init [Ack; Data 106; Data 255; Data 150; Data 0])) 0
       (trace (astar_init [Ack; Data 106; Data 255; Data 150; Data 0]) ++ read_events 39 4)).
Proof.
  assert (Hb : Forall byte_range [106; 255; 150; 0]) by (repeat constructor; unfold byte_range; lia).
  split; [reflexivity|]. split; [reflexivity|]. split; [exact Hb|].
  apply (read_encoders_decode _ [Data 106; Data 255; Data 150; Data 0] [] 4%nat);
    [reflexivity | reflexivity | exact Hb].
Defined.

