(* ===== verification/Typing.v ===== *)
(** * Typing: the Python types of the values the program returns

    The register table of spec section 4.2 gives each read endpoint a
    field layout ("3 boolean flags", "1 unsigned 16-bit value", ...) and
    a sentinel.  This file states those types as a typing judgement on
    Python values: [pyty] is the language of types ([int] in a range,
    [bool], [bytes] of a length, [str], [None], tuples, lists, and the
    union of two types), [has_typeb] decides whether a value has a type.
    [fmt_types] gives the types [struct.unpack] produces for a format,
    and [unpack_typed] shows that it produces them from any buffer of
    bytes.  The endpoints' theorem is that a read endpoint returns the
    layout's tuple or its sentinel list, typed as
    [Union[Tuple[...], List[int]]]. *)

From S2P Require Import Prelude Bytes Struct Bus Engine Endpoints.

Inductive pyty : Type :=
  | TyInt (lo hi : Z)         (** an [int] in [lo..hi] *)
  | TyBool
  | TyBytes (n : nat)         (** a [bytes] object of length [n] *)
  | TyStr
  | TyNone
  | TyTuple (ts : list pyty)  (** a tuple with one type per position *)
  | TyList (ts : list pyty)   (** a list with one type per position *)
  | TyUnion (t1 t2 : pyty).

(** The typing judgement, by recursion on the type. *)
Fixpoint has_typeb (v : pyval) (t : pyty) {struct t} : bool :=
  match t, v with
  | TyInt lo hi, PInt z => bool_decide (lo <= z <= hi)
  | TyBool, PBool _ => true
  | TyBytes n, PBytes bs => bool_decide (length bs = n) && forallb is_byte bs
  | TyStr, PStr _ => true
  | TyNone, PNone => true
  | TyTuple ts, PTuple vs | TyList ts, PList vs =>
      (fix all_typed (ts : list pyty) (vs : list pyval) : bool :=
         match ts, vs with
         | [], [] => true
         | t :: ts', v :: vs' => has_typeb v t && all_typed ts' vs'
         | _, _ => false
         end) ts vs
  | TyUnion t1 t2, _ => has_typeb v t1 || has_typeb v t2
  | _, _ => false
  end.

(** The type of a scalar literal: the singleton range of an [int]. *)
Definition lit_ty (v : pyval) : pyty :=
  match v with
  | PInt z => TyInt z z
  | PBool _ => TyBool
  | PBytes bs => TyBytes (length bs)
  | PStr _ => TyStr
  | _ => TyNone
  end.

(** ** The types [struct.unpack] produces *)

(** The type of one item of a format character ([s] with count 1). *)
Definition item_ty (f : Struct.fcode) : pyty :=
  match f with
  | Struct.FChar | Struct.FBytes => TyBytes 1
  | Struct.FUByte => TyInt 0 255
  | Struct.FBool => TyBool
  | Struct.FShort => TyInt (-32768) 32767
  | Struct.FUShort => TyInt 0 65535
  end.

(** A group [n f] gives [n] items, except [ns], one [bytes] of length [n]. *)
Definition group_tys (f : Struct.fcode) (n : nat) : list pyty :=
  match f with
  | Struct.FBytes => [TyBytes n]
  | _ => repeat (item_ty f) n
  end.

Fixpoint groups_tys (gs : list Struct.group) : list pyty :=
  match gs with
  | [] => []
  | (f, n) :: gs' => group_tys f n ++ groups_tys gs'
  end.

Definition fmt_types (fmt : String.string) : option (list pyty) :=
  '(_, gs) ← Struct.parse_format fmt; Some (groups_tys gs).

(** The type a read endpoint promises: its layout's tuple, or its
    sentinel list. *)
Definition endpoint_ty (d : reg_desc) : option pyty :=
  ts ← fmt_types (rd_format d);
  Some (TyUnion (TyTuple ts) (TyList (lit_ty <$> rd_sentinel d))).

(** ** Lemmas on the judgement *)

Lemma has_typeb_tuple vs ts :
  has_typeb (PTuple vs) (TyTuple ts) = true <-> Forall2 (fun v t => has_typeb v t = true) vs ts.
Proof.
  revert ts. induction vs as [|v vs IH]; intros [|t ts]; simpl;
    try (split; [done|]; intros Hf; by inversion Hf).
  change ((fix all_typed (ts : list pyty) (vs : list pyval) : bool :=
            match ts, vs with
            | [], [] => true
            | t :: ts', v :: vs' => has_typeb v t && all_typed ts' vs'
            | _, _ => false
            end) ts vs) with (has_typeb (PTuple vs) (TyTuple ts)).
  rewrite andb_true_iff, IH. split; [intros [??]; by constructor | by inversion 1].
Qed.

Lemma has_typeb_union_r v t1 t2 : has_typeb v t2 = true -> has_typeb v (TyUnion t1 t2) = true.
Proof. simpl. intros ->. apply orb_true_r. Qed.

Lemma has_typeb_union_l v t1 t2 : has_typeb v t1 = true -> has_typeb v (TyUnion t1 t2) = true.
Proof. simpl. by intros ->. Qed.

#[export] Hint Resolve has_typeb_union_l has_typeb_union_r : teleop.

Lemma Forall2_repeat_r {A C} (P : A -> C -> Prop) (xs : list A) (y : C) :
  Forall (fun x => P x y) xs -> Forall2 P xs (repeat y (length xs)).
Proof. induction 1; simpl; constructor; auto. Qed.

(** ** [struct.unpack] produces the format's types *)

Lemma align_ge a off : (off <= Struct.align a off)%nat.
Proof. unfold Struct.align. destruct (_ || _); lia. Qed.

Lemma size_from_ge m off gs : (off <= Struct.size_from m off gs)%nat.
Proof.
  revert off. induction gs as [|[f n] gs IH]; intros off; simpl; [lia|].
  specialize (IH (Struct.align (Struct.item_align m f) off + Struct.group_bytes f n)%nat).
  pose proof (align_ge (Struct.item_align m f) off). lia.
Qed.

Lemma unpack_item_typed m f bs :
  f <> Struct.FBytes -> length bs = Struct.item_size f -> Forall byte_range bs ->
  has_typeb (Struct.unpack_item m f bs) (item_ty f) = true.
Proof.
  intros Hf Hlen Hbs.
  destruct f; simpl in Hlen |- *; try done; try apply bool_decide_eq_true_2.
  - rewrite andb_true_iff, bool_decide_eq_true, forallb_is_byte by (by apply Forall_take).
    rewrite length_take. split; [lia|done].
  - pose proof (le_value_range _ (Forall_take _ 1 _ Hbs)) as Hr.
    rewrite length_take, Hlen in Hr. simpl in Hr. lia.
  - pose proof (Struct.int_value_range m bs Hbs) as Hr. rewrite Hlen in Hr.
    pose proof (to_signed_range 16 (Struct.int_value m bs)) as Hs. simpl in Hr, Hs. lia.
  - pose proof (Struct.int_value_range m bs Hbs) as Hr. rewrite Hlen in Hr. simpl in Hr. lia.
Qed.

Lemma unpack_items_typed m f k bs :
  f <> Struct.FBytes -> (k * Struct.item_size f <= length bs)%nat -> Forall byte_range bs ->
  Forall2 (fun v t => has_typeb v t = true)
    (Struct.unpack_items m f k bs) (repeat (item_ty f) k).
Proof.
  revert bs. induction k as [|k IH]; intros bs Hf Hlen Hbs; simpl; constructor.
  - apply unpack_item_typed; [done | rewrite length_take; lia | by apply Forall_take].
  - apply IH; [done | rewrite length_drop; lia | by apply Forall_drop].
Qed.

Lemma unpack_group_typed m f n bs :
  (Struct.group_bytes f n <= length bs)%nat -> Forall byte_range bs ->
  Forall2 (fun v t => has_typeb v t = true) (Struct.unpack_group m f n bs) (group_tys f n).
Proof.
  intros Hlen Hbs. destruct f; simpl in Hlen |- *;
    try (apply unpack_items_typed; [done | simpl; lia | done]).
  constructor; [|constructor]. simpl.
  rewrite forallb_is_byte by (by apply Forall_take). rewrite andb_true_r.
  apply bool_decide_eq_true_2. rewrite length_take. lia.
Qed.

Lemma unpack_groups_typed m off gs bs :
  (Struct.size_from m off gs - off <= length bs)%nat -> Forall byte_range bs ->
  Forall2 (fun v t => has_typeb v t = true) (Struct.unpack_groups m off gs bs) (groups_tys gs).
Proof.
  revert off bs. induction gs as [|[f n] gs IH]; intros off bs Hlen Hbs; simpl in Hlen |- *;
    [constructor|].
  set (a := Struct.align (Struct.item_align m f) off).
  pose proof (align_ge (Struct.item_align m f) off) as Ha.
  pose proof (size_from_ge m (a + Struct.group_bytes f n) gs) as Hs. fold a in Ha, Hlen.
  apply Forall2_app.
  - apply unpack_group_typed; [rewrite length_drop; lia | by apply Forall_drop].
  - replace (off + (a - off) + Struct.group_bytes f n)%nat with (a + Struct.group_bytes f n)%nat
      by lia.
    apply IH; [rewrite !length_drop; lia | by apply Forall_drop, Forall_drop].
Qed.

(** Every tuple [struct.unpack] returns from a buffer of bytes has the
    format's types: the ranges of [B], [h], [H], the lengths of [c], [s]. *)
Lemma unpack_typed fmt bs vs ts :
  Forall byte_range bs -> Struct.unpack fmt bs = Some vs -> fmt_types fmt = Some ts ->
  has_typeb (PTuple vs) (TyTuple ts) = true.
Proof.
  unfold Struct.unpack, fmt_types. intros Hbs.
  destruct (Struct.parse_format fmt) as [[m gs]|]; simpl; [|done].
  destruct (_ =? _)%nat eqn:E; intros; simplify_eq. apply Nat.eqb_eq in E.
  apply has_typeb_tuple, unpack_groups_typed; [lia | done].
Qed.

Lemma fmt_types_calcsize fmt n :
  Struct.calcsize fmt = Some n -> exists ts, fmt_types fmt = Some ts.
Proof.
  unfold Struct.calcsize, fmt_types. destruct (Struct.parse_format fmt) as [[m gs]|]; simpl;
    [by eexists | done].
Qed.

(** ** The read endpoints return their documented types *)

Section TypingTheory.
Context {B : Type} `{SMBus B} `{!SMBusLaws B}.

Lemma read_endpoints_sentinel_typed d f :
  In (d, f) read_endpoints -> has_typeb (PList (rd_sentinel d)) (TyList (lit_ty <$> rd_sentinel d)) = true.
Proof. simpl. intros Hin. by repeat destruct Hin as [Hin|Hin]; simplify_eq. Qed.


(** A tuple out of a read transaction is [struct.unpack] of bytes read. *)
Lemma read_txn_tuple a n fmt (s : AStar B) vs s' :
  bus_ok (bus s) -> read_txn a n fmt s = (Ret (PTuple vs), s') ->
  exists bs, Forall byte_range bs /\ Struct.unpack fmt bs = Some vs.
Proof.
  intros Hb. unfold read_txn.
  pose proof (write_byte_ok DEV a _ Hb) as Hb1.
  destruct (smbus_write_byte DEV a (bus s)) as [ok b1].
  pose proof (bus_reads_ok (Z.to_nat n) b1 Hb1) as Hr.
  destruct (bus_reads _ b1) as [[[bs|] k] b2]; simpl; intros E; [|by simplify_eq].
  injection E as E _. destruct Hr as [_ Hr].
  exists bs. split; [by apply Hr|]. revert E. unfold decode.
  destruct (forallb is_byte bs); [|done].
  destruct (Struct.unpack fmt bs); intros; by simplify_eq.
Qed.

Lemma read_endpoint_type_ok d f (s : AStar B) :
  In (d, f) read_endpoints -> bus_ok (bus s) ->
  exists t v, endpoint_ty d = Some t /\ (f s).1 = Ret v /\ has_typeb v t = true.
Proof.
  intros Hin Hb. rewrite (read_endpoints_register _ _ Hin), read_register_run.
  destruct (read_endpoints_rows _ _ Hin) as [Hsz _].
  destruct (fmt_types_calcsize _ _ Hsz) as [ts Hts].
  pose proof (read_endpoints_sentinel_typed _ _ Hin) as Hsent.
  unfold endpoint_ty. rewrite Hts. simpl. eexists.
  pose proof (read_txn_outcome (rd_address d) (rd_size d) (rd_format d) (with_error0 s) Hb Hsz)
    as Ho.
  destruct (read_txn _ _ _ _) as [o s'] eqn:E.
  destruct Ho as [_ [[He [v ->]] | (He & _ & vs & -> & _)]]; rewrite He.
  - rewrite bool_decide_true by lia. eexists. do 2 (split; [reflexivity|]).
    by apply has_typeb_union_r.
  - rewrite bool_decide_false by lia. eexists. do 2 (split; [reflexivity|]).
    apply has_typeb_union_l.
    destruct (read_txn_tuple _ _ _ _ _ _ Hb E) as (bs & Hbs & Hu). by eapply unpack_typed.
Qed.

(** C22: Every read endpoint returns a value of its documented type [Union[Tuple[layout], List[int]]]: the layout's tuple with each field in its format's range (booleans for [?], 0..65535 for [H], -32768..32767 for [h]), or its sentinel list of zeros; it never raises on a well-behaved bus. *)
Theorem read_endpoint_typed d f (s : AStar B) :
  In (d, f) read_endpoints -> bus_ok (bus s) ->
  exists t v, endpoint_ty d = Some t /\ (f s).1 = Ret v /\ has_typeb v t = true.
Proof. exact (read_endpoint_type_ok d f s). Qed.

End TypingTheory.

(** ** Witnesses, on the scripted bus *)

Import Scripted.

(** The promised types of the buttons: three booleans, or a list of
    three integer zeros (not the [false] flags of the spec's table). *)
Lemma read_buttons_type :
  endpoint_ty (RegDesc 3 3 "???" [PInt 0; PInt 0; PInt 0]) =
    Some (TyUnion (TyTuple [TyBool; TyBool; TyBool]) (TyList [TyInt 0 0; TyInt 0 0; TyInt 0 0])).
Proof. reflexivity. Qed.

Lemma read_endpoint_typed_witness :
  In (RegDesc 12 12 "HHHHHH" [PInt 0; PInt 0; PInt 0; PInt 0; PInt 0; PInt 0], read_analog)
     read_endpoints /\
  bus_ok (bus (astar_init (Ack :: map Data [1; 2; 3; 4; 5; 6; 7; 8; 9; 10; 255; 255]))) /\
  exists t v,
    endpoint_ty (RegDesc 12 12 "HHHHHH" [PInt 0; PInt 0; PInt 0; PInt 0; PInt 0; PInt 0]) = Some t /\
    (read_analog (astar_init (Ack :: map Data [1; 2; 3; 4; 5; 6; 7; 8; 9; 10; 255; 255]))).1 = Ret v /\
    has_typeb v t = true.
Proof.
  assert (Hin : In (RegDesc 12 12 "HHHHHH" [PInt 0; PInt 0; PInt 0; PInt 0; PInt 0; PInt 0],
                    read_analog) read_endpoints) by (simpl; tauto).
  split; [exact Hin|]. split; [exact I|].
  apply (read_endpoint_typed _ _ _ Hin). exact I.
Defined.
