(* ===== verification/Calls.v ===== *)
(** * Calls: the endpoints' own flag reset, and the cost of a call

    Every endpoint but the diagnostics starts with [self.error=0]
    (src/a_star.py lines 61, 70, 79, 90, 101, 112, 123) before calling
    the Engine.  For the reads this statement is redundant:
    [read_unpack] resets the flag itself (line 19) before anything can
    fail, so a read endpoint equals the same code without it.  For the
    writes it is not: [write_pack] packs (line 51) before its own reset
    (line 52), so when [struct.pack] raises, only the endpoint's reset
    clears a stale flag.  The second group of theorems bounds the bus
    traffic of each public call: every call returns after a fixed number
    of bus operations and sleeps, whatever the bus answers. *)

From S2P Require Import Prelude Bytes Struct Bus Engine Endpoints.

Section Calls.
Context {B : Type} `{SMBus B}.

(** The bus and sleep events a public call performs at most: one block
    write for a write endpoint; for a read the select, the sleep and one
    read per byte; the two for [test_write8]. *)
Definition call_budget (c : call) : nat :=
  match c with
  | CLeds _ _ _ | CPlayNotes _ | CMotors _ _ => 1
  | CReadButtons => 5
  | CReadBatteryMillivolts => 4
  | CReadAnalog => 14
  | CReadEncoders => 6
  | CTestRead8 => 10
  | CTestRead32 => 34
  | CTestWrite8 => 2
  end.

(** What the SMBus protocol admits of one operation: the device at
    address 20, an 8-bit register or command byte, a block of at most 32
    bytes (SMBus's [I2C_SMBUS_BLOCK_MAX]), and the settling delay. *)
Definition smbus_event_ok (ev : event) : Prop :=
  match ev with
  | EvWriteByte dev v => dev = DEV /\ 0 <= v < 256
  | EvReadByte dev => dev = DEV
  | EvWriteBlock dev reg data =>
      dev = DEV /\ 0 <= reg < 256 /\ (length data <= 32)%nat /\ Forall byte_range data
  | EvSleep us => us = SETTLE_US
  end.

(** At most [n] operations, each one SMBus admits. *)
Definition events_ok (n : nat) (evs : list event) : Prop :=
  (length evs <= n)%nat /\ Forall smbus_event_ok evs.

(** The body of a read endpoint after its [self.error=0]: the call of
    [read_unpack] and the sentinel branch (lines 91-96; lines 102-107,
    113-118 and 124-129 are the same with the row's constants). *)
Definition read_body (d : reg_desc) : PyM (AStar B) pyval :=
  v ← read_unpack (rd_address d) (rd_size d) (rd_format d);
  sentinel_or (rd_sentinel d) v.

(** The body of a write endpoint after its [self.error=0]: the call of
    [write_pack] and the empty check of the flag (lines 62-65; lines 71-74
    and 80-83 are the same with their layout). *)
Definition write_body (address : Z) (format : String.string) (data : list pyval)
  : PyM (AStar B) pyval :=
  write_pack address format data;; check_error;; mret PNone.

(** [read_txn] does not read the flag: it overwrites it. *)
Lemma read_txn_error_irrelevant a n fmt (s : AStar B) e :
  read_txn a n fmt (mkAStar (bus s) (errors s) e (trace s)) = read_txn a n fmt s.
Proof.
  unfold read_txn. simpl. destruct (smbus_write_byte _ _ _) as [ok b1].
  by destruct (bus_reads _ b1) as [[[bs|] k] b2].
Qed.

Lemma with_error0_id (s : AStar B) : with_error0 s = s <-> error s = 0.
Proof. destruct s as [b es e tr]. unfold with_error0. simpl. split; [by intros [=]|by intros ->]. Qed.

Lemma read_events_length a k : length (read_events a k) = (2 + k)%nat.
Proof. unfold read_events. simpl. by rewrite repeat_length. Qed.

Lemma read_events_ok a k : 0 <= a < 256 -> Forall smbus_event_ok (read_events a k).
Proof.
  intros Ha. unfold read_events. constructor; [simpl; split; [done|lia]|].
  constructor; [done|]. by apply Forall_repeat'.
Qed.

Lemma events_ok_nil n : events_ok n [].
Proof. split; [simpl; lia | constructor]. Qed.

#[local] Hint Resolve events_ok_nil : teleop.

(** A block the program hands to [write_i2c_block_data]. *)
Definition block_ok (fmt : String.string) (data : list pyval) : Prop :=
  forall bs, Struct.pack fmt data = Some bs -> (length bs <= 32)%nat /\ Forall byte_range bs.

Lemma block_ok_intro fmt data n :
  Struct.calcsize fmt = Some n -> (n <= 32)%nat ->
  (forall bs, Struct.pack fmt data = Some bs -> Forall byte_range bs) -> block_ok fmt data.
Proof.
  intros Hn H32 Hr bs Hp. split; [|by apply Hr].
  apply Struct.pack_calcsize in Hp. rewrite Hn in Hp. simplify_eq. lia.
Qed.

Lemma write_txn_events a fmt data (s : AStar B) :
  0 <= a < 256 -> block_ok fmt data ->
  exists evs, trace (write_txn a fmt data s).2 = trace s ++ evs /\ events_ok 1 evs.
Proof.
  intros Ha Hblk. unfold write_txn. destruct (Struct.pack fmt data) as [bs|] eqn:E; simpl.
  - destruct (Hblk bs E) as [Hl Hb].
    destruct (smbus_write_block _ _ _ _); simpl. exists [EvWriteBlock DEV a bs].
    split; [done|]. split; [simpl; lia|].
    constructor; [|constructor]. cbn [smbus_event_ok]. repeat split; try done; lia.
  - exists []. split; [by rewrite app_nil_r | auto with teleop].
Qed.

Lemma read_txn_events a n fmt (s : AStar B) :
  0 <= a < 256 ->
  exists evs, trace (read_txn a n fmt s).2 = trace s ++ evs /\ events_ok (2 + Z.to_nat n) evs.
Proof.
  intros Ha. destruct (read_txn_trace a n fmt s) as (k & Hk & ->). exists (read_events a k).
  split; [done|]. split; [rewrite read_events_length; lia | by apply read_events_ok].
Qed.

(** [self.error=0] followed by [m]. *)
Lemma set_error0_run {A} (m : PyM (AStar B) A) (s : AStar B) :
  (set_error 0;; m) s = m (with_error0 s).
Proof. reflexivity. Qed.

Lemma events_ok_weaken n n' evs : (n <= n')%nat -> events_ok n evs -> events_ok n' evs.
Proof. intros ? [? ?]. split; [lia|done]. Qed.

Lemma read_register_events d (s : AStar B) n :
  0 <= rd_address d < 256 -> (2 + Z.to_nat (rd_size d) <= n)%nat ->
  exists evs, trace (read_register d s).2 = trace s ++ evs /\ events_ok n evs.
Proof.
  intros Ha Hn. rewrite read_register_run.
  destruct (read_txn_events (rd_address d) (rd_size d) (rd_format d) (with_error0 s) Ha)
    as (evs & Hevs & Hok).
  destruct (read_txn _ _ _ _) as [[] s']; exists evs; split; try done;
    by eapply events_ok_weaken.
Qed.

Lemma write_endpoint_events a fmt data (s : AStar B) n :
  0 <= a < 256 -> block_ok fmt data -> (1 <= n)%nat ->
  exists evs, trace ((write_pack a fmt data;; check_error;; mret PNone) (with_error0 s)).2
                = trace s ++ evs /\ events_ok n evs.
Proof.
  intros Ha Hblk Hn. rewrite write_then_check_run.
  destruct (write_txn_events a fmt data (with_error0 s) Ha Hblk) as (evs & Hevs & Hok).
  destruct (write_txn _ _ _ _) as [[] s']; exists evs; split; try done;
    by eapply events_ok_weaken.
Qed.

Lemma read_then_none_events a size fmt (s : AStar B) n :
  0 <= a < 256 -> (2 + Z.to_nat size <= n)%nat ->
  exists evs, trace ((read_unpack a size fmt;; mret PNone) s).2 = trace s ++ evs /\ events_ok n evs.
Proof.
  intros Ha Hn. py_run. rewrite read_unpack_spec.
  destruct (read_txn_events a size fmt s Ha) as (evs & Hevs & Hok).
  destruct (read_txn _ _ _ _) as [[] s']; exists evs; split; try done;
    by eapply events_ok_weaken.
Qed.

Lemma leds_block r y g : block_ok "BBB" [r; y; g].
Proof.
  apply (block_ok_intro _ _ 3); [done | lia|]. intros bs Hp.
  apply pack_BBB in Hp as (b1 & b2 & b3 & E1 & E2 & E3 & ->).
  apply Forall_app; split; [|apply Forall_app; split];
    eapply Struct.pack_item_range_num; eauto; discriminate.
Qed.

Lemma motors_block l r : block_ok "hh" [l; r].
Proof.
  apply (block_ok_intro _ _ 4); [done | lia|]. intros bs Hp.
  apply pack_hh in Hp as (b1 & b2 & E1 & E2 & ->).
  apply Forall_app; split; eapply Struct.pack_item_range_num; eauto; discriminate.
Qed.

Lemma notes_block notes :
  forallb (fun c => (0 <=? c) && (c <? 128)) notes = true -> block_ok "B15s" [PInt 1; PBytes notes].
Proof.
  intros Ha. apply (block_ok_intro _ _ 16); [done | lia|]. intros bs Hp.
  refine (Struct.pack_range _ _ _ _ Hp). repeat constructor. simpl.
  apply encode_ascii_ok in Ha. rewrite Forall_forall in Ha |- *. intros c Hc.
  specialize (Ha c Hc). unfold is_ascii in Ha. unfold byte_range. lia.
Qed.

(** Every public call: the operations it adds to the trace. *)
Lemma run_call_events c (s : AStar B) :
  exists evs, trace (run_call c s).2 = trace s ++ evs /\ events_ok (call_budget c) evs.
Proof.
  destruct c; simpl.
  - apply write_endpoint_events; [lia | apply leds_block | lia].
  - rewrite play_notes_run. destruct (forallb _ notes) eqn:E.
    + apply write_endpoint_events; [lia | by apply notes_block | lia].
    + exists []. split; [by rewrite app_nil_r | auto with teleop].
  - apply write_endpoint_events; [lia | apply motors_block | lia].
  - apply (read_register_events (RegDesc 3 3 "???" [PInt 0; PInt 0; PInt 0])); simpl; lia.
  - apply (read_register_events (RegDesc 10 2 "H" [PInt 0])); simpl; lia.
  - apply (read_register_events
             (RegDesc 12 12 "HHHHHH" [PInt 0; PInt 0; PInt 0; PInt 0; PInt 0; PInt 0])); simpl; lia.
  - apply (read_register_events (RegDesc 39 4 "hh" [PInt 0; PInt 0])); simpl; lia.
  - apply read_then_none_events; simpl; lia.
  - apply read_then_none_events; simpl; lia.
  - rewrite test_write8_eq; cbv zeta. destruct (smbus_write_block _ _ _ _) as [[] b1]; simpl;
      (eexists; split; [reflexivity|]); (split; [simpl; lia|]);
      repeat constructor; try (simpl; lia); unfold byte_range; lia.
Qed.

(** ** The endpoints' own reset *)

(** C23: For every read endpoint the leading [self.error=0] is redundant: the endpoint behaves exactly as the same code without it, on every bus and from every state, because [read_unpack] resets the flag before its first bus call. *)
Theorem read_endpoint_reset_redundant d f (s : AStar B) :
  In (d, f) read_endpoints -> f s = read_body d s.
Proof.
  intros Hin. rewrite (read_endpoints_register _ _ Hin). unfold read_register, read_body.
  rewrite set_error0_run. py_unfold. rewrite !read_unpack_spec.
  unfold with_error0. by rewrite read_txn_error_irrelevant.
Qed.

(** C24: For a write endpoint the leading [self.error=0] matters: the body [write_pack; if self.error: pass] behaves the same with or without it exactly when [struct.pack] accepts the values or the flag was already clear; a rejected value on a stale flag leaves the flag set without the reset. *)
Theorem write_endpoint_reset_needed a fmt data (s : AStar B) :
  (set_error 0;; write_body a fmt data) s = write_body a fmt data s <->
  is_Some (Struct.pack fmt data) \/ error s = 0.
Proof.
  unfold write_body. rewrite set_error0_run, !write_then_check_run. unfold write_txn.
  destruct (Struct.pack fmt data) as [bs|]; simpl.
  - split; [by left; eexists|]. intros _. by destruct (smbus_write_block _ _ _ _).
  - rewrite <- with_error0_id. split; [intros [= ->]; by right|].
    intros [[? ?] | ->]; [done|]. reflexivity.
Qed.

(** ** The cost of a call *)

(** C25: Every public call terminates after a bounded number of bus operations and sleeps, fixed per method ([call_budget]: one block write for a write, the select, the sleep and one read per byte for a read), whatever the bus answers and whether the call returns or raises; the trace only grows. *)
Theorem call_events_bounded c (s : AStar B) :
  exists evs, trace (run_call c s).2 = trace s ++ evs /\ (length evs <= call_budget c)%nat.
Proof. destruct (run_call_events c s) as (evs & ? & ? & _). by exists evs. Qed.

(** C29: Every bus operation any public call issues is one the SMBus protocol admits: all go to device 20, every register or command byte is in 0..255, every block written has at most 32 elements (the SMBus block limit) and each is a byte, and every sleep is the 200 us settling delay; this holds whatever the arguments and whatever the bus answers. *)
Theorem call_events_smbus_ok c (s : AStar B) :
  exists evs, trace (run_call c s).2 = trace s ++ evs /\ Forall smbus_event_ok evs.
Proof. destruct (run_call_events c s) as (evs & ? & _ & ?). by exists evs. Qed.

End Calls.

(** ** Witnesses, on the scripted bus *)

Import Scripted.

Lemma read_endpoint_reset_redundant_witness :
  In (RegDesc 39 4 "hh" [PInt 0; PInt 0], read_encoders) read_endpoints /\
  read_encoders (mkAStar [Ack; Data 1; Data 0; Data 2; Data 0] 3 1 []) =
    read_body (RegDesc 39 4 "hh" [PInt 0; PInt 0]) (mkAStar [Ack; Data 1; Data 0; Data 2; Data 0] 3 1 []).
Proof.
  assert (Hin : In (RegDesc 39 4 "hh" [PInt 0; PInt 0], read_encoders) read_endpoints)
    by (simpl; tauto).
  split; [exact Hin|].
  exact (read_endpoint_reset_redundant _ _ (mkAStar [Ack; Data 1; Data 0; Data 2; Data 0] 3 1 []) Hin).
Defined.
