(* ===== verification/Peripheral.v ===== *)
(** * Peripheral: the transactions against the register file

    The A-Star firmware (outside this repository) exposes its state as a
    register file: a write selects a register and stores bytes from it
    on, a read returns successive registers.  [RegFile] is that
    behaviour as an instance of the bus interface; the py-smbus extension
    sends each element of a block as an unsigned char, so the register
    file keeps [z mod 256].  On it, the program's
    two primitives are inverse to each other: a [write_pack] of values
    followed by a [read_unpack] of the same format at the same address
    reads the values back (the round-trip law of spec section 8, through
    the real bus protocol of both transactions).  Every read endpoint
    returns its registers decoded, whatever the object's error state. *)

From S2P Require Import Prelude Bytes Struct Bus Engine Endpoints.

(** ** The peripheral's register file *)

Module RegFile.

Record regfile := RF { regs : list Z; ptr : Z }.

(** The peripheral answers at address 20 only. *)
Definition dev_addr : Z := 20.

(** A block write stores each element as an unsigned char from the
    selected register on; registers past the end are left alone. *)
Definition store (i : nat) (data rs : list Z) : list Z :=
  list_inserts i ((fun d => d mod 256) <$> data) rs.

#[export] Instance regfile_smbus : SMBus regfile := {
  smbus_write_byte dev v r :=
    if bool_decide (dev = dev_addr) then (true, RF (regs r) (v mod 256)) else (false, r);
  smbus_read_byte dev r :=
    if bool_decide (dev = dev_addr) then
      match regs r !! Z.to_nat (ptr r) with
      | Some z => if bool_decide (0 <= ptr r) then (Some z, RF (regs r) (ptr r + 1)) else (None, r)
      | None => (None, r)
      end
    else (None, r);
  smbus_write_block dev reg data r :=
    if bool_decide (dev = dev_addr) then
      (true, RF (store (Z.to_nat (reg mod 256)) data (regs r)) (reg mod 256 + Z.of_nat (length data)))
    else (false, r);
}.

Lemma store_range i data rs :
  Forall byte_range rs -> Forall byte_range (store i data rs).
Proof.
  unfold store. revert i. induction data as [|d data IH]; intros i Hrs; simpl; [done|].
  apply Forall_insert; [by apply IH|]. unfold byte_range. apply Z.mod_pos_bound. lia.
Qed.

#[export] Instance regfile_laws : SMBusLaws regfile.
Proof.
  refine {| bus_ok r := Forall byte_range (regs r) |}; intros dev.
  - intros v r Hr. simpl. by case_bool_decide.
  - intros r Hr. simpl. case_bool_decide; [|done]. repeat case_match; done.
  - intros reg data r Hr. simpl. case_bool_decide; [|done]. by apply store_range.
  - intros r z r' Hr. simpl. case_bool_decide; [|done].
    destruct (regs r !! _) eqn:E; [|done]. case_bool_decide; [|done]. intros; simplify_eq.
    eapply Forall_lookup_1; eauto.
Defined.

End RegFile.

Import RegFile.

Lemma store_slice i data rs :
  (i + length data <= length rs)%nat ->
  take (length data) (drop i (store i data rs)) = (fun d => d mod 256) <$> data.
Proof.
  intros Hlen. apply list_eq. intros j. unfold store.
  destruct (decide (j < length data)%nat) as [Hj|Hj].
  - rewrite lookup_take_lt, lookup_drop by done.
    rewrite list_lookup_inserts by (rewrite ?length_fmap; lia).
    by replace (i + j - i)%nat with j by lia.
  - rewrite lookup_take_ge by lia. symmetry. apply lookup_ge_None. rewrite length_fmap. lia.
Qed.

Lemma fmap_mod_bytes (bs : list Z) :
  Forall byte_range bs -> (fun d => d mod 256) <$> bs = bs.
Proof.
  induction 1 as [|b bs Hb _ IH]; [done|]. rewrite fmap_cons, IH. f_equal.
  apply Z.mod_small. exact Hb.
Qed.

(** [n] reads from register [p] on return registers [p .. p+n-1]. *)
Lemma regfile_reads rs p n :
  0 <= p -> p + Z.of_nat n <= Z.of_nat (length rs) ->
  bus_reads n (RF rs p) = (Some (take n (drop (Z.to_nat p) rs)), n, RF rs (p + Z.of_nat n)).
Proof.
  revert p. induction n as [|n IH]; intros p Hp Hn; simpl.
  - by rewrite Z.add_0_r.
  - destruct (rs !! Z.to_nat p) as [z|] eqn:E; cycle 1.
    { apply lookup_ge_None in E. lia. }
    case_bool_decide; [|lia].
    rewrite IH by lia. simpl.
    rewrite (drop_S _ _ _ E), Z2Nat.inj_add by lia. simpl.
    replace (Z.to_nat p + Z.to_nat 1)%nat with (S (Z.to_nat p)) by lia.
    by replace (p + Z.of_nat (S n)) with (p + 1 + Z.of_nat n) by lia.
Qed.

(** C9: Round trip through the bus protocol: on the register-file peripheral, [write_pack] of well-formed values followed by [read_unpack] of the same format and size at the same register reads the values back (up to [struct.pack]'s conversions), with no error. *)
Theorem regfile_write_read (a : Z) (fmt : String.string) (vs : list pyval) (bs rs : list Z)
    (p errs e : Z) (tr : list event) :
  Struct.pack fmt vs = Some bs -> Forall Struct.wf_value vs ->
  0 <= a < 256 -> a + Z.of_nat (length bs) <= Z.of_nat (length rs) ->
  let s1 := (write_pack a fmt vs (mkAStar (RF rs p : regfile) errs e tr)).2 in
  (read_unpack a (Z.of_nat (length bs)) fmt s1).1 = Ret (PTuple (Struct.norm_values fmt vs)) /\
  error (read_unpack a (Z.of_nat (length bs)) fmt s1).2 = 0 /\
  errors (read_unpack a (Z.of_nat (length bs)) fmt s1).2 = errs.
Proof.
  intros Hpack Hwf Ha Hlen. simpl.
  pose proof (Struct.pack_range _ _ _ Hwf Hpack) as Hbs.
  rewrite write_pack_spec, read_unpack_spec.
  unfold write_txn, read_txn. rewrite Hpack. simpl.
  rewrite (Z.mod_small a 256) by lia. simpl.
  rewrite regfile_reads by (rewrite ?length_inserts, ?length_fmap; unfold store; rewrite ?length_inserts; lia).
  rewrite !Nat2Z.id, store_slice, fmap_mod_bytes by (lia || done).
  simpl. unfold decode. rewrite forallb_is_byte by done.
  rewrite (Struct.unpack_pack _ _ _ Hpack). simpl. split; [done|]. split; [done|]. lia.
Qed.

Lemma regfile_write_read_witness :
  Struct.pack "hh" [PInt 150; PInt (-150)] = Some [150; 0; 106; 255] /\
  Forall Struct.wf_value [PInt 150; PInt (-150)] /\
  0 <= 6 < 256 /\ 6 + Z.of_nat (length [150; 0; 106; 255]) <= Z.of_nat (length (replicate 16 0)) /\
  let s1 := (write_pack 6 "hh" [PInt 150; PInt (-150)] (mkAStar (RF (replicate 16 0) 0) 0 0 [])).2 in
  (read_unpack 6 (Z.of_nat (length [150; 0; 106; 255])) "hh" s1).1
    = Ret (PTuple (Struct.norm_values "hh" [PInt 150; PInt (-150)])) /\
  error (read_unpack 6 (Z.of_nat (length [150; 0; 106; 255])) "hh" s1).2 = 0 /\
  errors (read_unpack 6 (Z.of_nat (length [150; 0; 106; 255])) "hh" s1).2 = 0.
Proof.
  assert (Hwf : Forall Struct.wf_value [PInt 150; PInt (-150)]) by (repeat constructor).
  split; [reflexivity|]. split; [exact Hwf|]. split; [lia|]. split; [simpl; lia|].
  apply regfile_write_read; [reflexivity | exact Hwf | lia | simpl; lia].
Defined.

(** ** Reads from the register file, from any object state *)

(** On the register file a read transaction always succeeds: it returns
    the decoded registers [a .. a+n-1] and clears the flag. *)
Lemma regfile_read_txn a n fmt (s : AStar regfile) rs p :
  bus s = RF rs p -> 0 <= a < 256 -> 0 <= n -> a + n <= Z.of_nat (length rs) ->
  read_txn a n fmt s =
    (decode fmt (take (Z.to_nat n) (drop (Z.to_nat a) rs)),
     mkAStar (RF rs (a + n)) (errors s) 0 (trace s ++ read_events a (Z.to_nat n))).
Proof.
  intros Hbus Ha Hn Hlen. unfold read_txn. rewrite Hbus. simpl.
  rewrite (Z.mod_small a 256) by lia.
  rewrite regfile_reads by (rewrite ?Z2Nat.id; lia). rewrite Z2Nat.id by lia.
  simpl. by rewrite Z.add_0_r.
Qed.

Lemma regfile_read_register d (s : AStar regfile) rs p :
  bus s = RF rs p -> Forall byte_range rs ->
  0 <= rd_address d < 256 -> 0 <= rd_size d -> rd_address d + rd_size d <= Z.of_nat (length rs) ->
  Struct.calcsize (rd_format d) = Some (Z.to_nat (rd_size d)) ->
  exists vs,
    Struct.unpack (rd_format d) (take (Z.to_nat (rd_size d)) (drop (Z.to_nat (rd_address d)) rs))
      = Some vs /\
    read_register d s =
      (Ret (PTuple vs), mkAStar (RF rs (rd_address d + rd_size d)) (errors s) 0
                                (trace s ++ read_events (rd_address d) (Z.to_nat (rd_size d)))).
Proof.
  intros Hbus Hrs Ha Hn Hlen Hsz. rewrite read_register_run.
  rewrite (regfile_read_txn _ _ _ _ rs p) by done.
  set (bs := take (Z.to_nat (rd_size d)) (drop (Z.to_nat (rd_address d)) rs)).
  assert (Hbs : length bs = Z.to_nat (rd_size d)).
  { unfold bs. rewrite length_take, length_drop. lia. }
  rewrite <- Hbs in Hsz. destruct (Struct.unpack_calcsize _ _ Hsz) as [vs Hvs].
  exists vs. split; [done|]. unfold decode.
  rewrite forallb_is_byte by (by apply Forall_take, Forall_drop). rewrite Hvs. done.
Qed.

Lemma read_endpoints_bounds d f :
  In (d, f) read_endpoints ->
  0 <= rd_address d < 256 /\ 0 <= rd_size d /\ rd_address d + rd_size d <= 43.
Proof. simpl. intros Hin. repeat destruct Hin as [Hin|Hin]; simplify_eq; simpl; lia. Qed.

(** C26: On the register-file peripheral, every read endpoint returns the tuple decoded from the registers [address .. address+size-1] in its layout, clears the flag and counts nothing, whatever flag and count the object had before: a past failure never sticks. *)
Theorem regfile_read_endpoint d f (s : AStar regfile) rs p :
  In (d, f) read_endpoints -> bus s = RF rs p -> Forall byte_range rs ->
  rd_address d + rd_size d <= Z.of_nat (length rs) ->
  exists vs,
    Struct.unpack (rd_format d) (take (Z.to_nat (rd_size d)) (drop (Z.to_nat (rd_address d)) rs))
      = Some vs /\
    f s = (Ret (PTuple vs), mkAStar (RF rs (rd_address d + rd_size d)) (errors s) 0
                                    (trace s ++ read_events (rd_address d) (Z.to_nat (rd_size d)))).
Proof.
  intros Hin Hbus Hrs Hlen. rewrite (read_endpoints_register _ _ Hin).
  destruct (read_endpoints_bounds _ _ Hin) as (Ha & Hn & _).
  destruct (read_endpoints_rows _ _ Hin) as [Hsz _].
  by apply regfile_read_register with p.
Qed.

(** ** The primitives on the register file, step by step *)

Lemma regfile_read_byte (s : AStar regfile) x :
  regs (bus s) !! Z.to_nat (ptr (bus s)) = Some x -> 0 <= ptr (bus s) ->
  bus_read_byte DEV s =
    (Ret x, mkAStar (RF (regs (bus s)) (ptr (bus s) + 1)) (errors s) (error s) (trace s ++ [EvReadByte DEV])).
Proof.
  destruct s as [[rs p] es e tr]. simpl. intros Hx Hp. unfold bus_read_byte, bus_call. simpl.
  rewrite Hx. by rewrite bool_decide_true by lia.
Qed.

Lemma regfile_write_byte (s : AStar regfile) a :
  bus_write_byte DEV a s =
    (Ret tt, mkAStar (RF (regs (bus s)) (a mod 256)) (errors s) (error s) (trace s ++ [EvWriteByte DEV a])).
Proof. destruct s as [[rs p] es e tr]. reflexivity. Qed.

Lemma set_error_run {B} `{SMBus B} v (s : AStar B) :
  set_error v s = (Ret tt, mkAStar (bus s) (errors s) v (trace s)).
Proof. reflexivity. Qed.

Lemma time_sleep_run {B} `{SMBus B} us (s : AStar B) :
  time_sleep us s = (Ret tt, mkAStar (bus s) (errors s) (error s) (trace s ++ [EvSleep us])).
Proof. reflexivity. Qed.

Lemma regfile_read_endpoint_witness :
  let s := mkAStar (RF (replicate 39 0 ++ [106; 255; 150; 0]) 0) 2 1 [] in
  In (RegDesc 39 4 "hh" [PInt 0; PInt 0], read_encoders) read_endpoints /\
  bus s = RF (replicate 39 0 ++ [106; 255; 150; 0]) 0 /\
  Forall byte_range (replicate 39 0 ++ [106; 255; 150; 0]) /\
  39 + 4 <= Z.of_nat (length (replicate 39 0 ++ [106; 255; 150; 0])) /\
  exists vs,
    Struct.unpack "hh" (take (Z.to_nat 4) (drop (Z.to_nat 39) (replicate 39 0 ++ [106; 255; 150; 0])))
      = Some vs /\
    read_encoders s = (Ret (PTuple vs), mkAStar (RF (replicate 39 0 ++ [106; 255; 150; 0]) (39 + 4))
                                                (errors s) 0 (trace s ++ read_events 39 (Z.to_nat 4))).
Proof.
  assert (Hb : Forall byte_range (replicate 39 0 ++ [106; 255; 150; 0])).
  { apply Forall_app. split; [apply Forall_replicate|repeat constructor]; unfold byte_range; lia. }
  cbv zeta. split; [simpl; tauto|]. split; [reflexivity|]. split; [exact Hb|]. split; [simpl; lia|].
  apply (regfile_read_endpoint (RegDesc 39 4 "hh" [PInt 0; PInt 0]) read_encoders _ _ 0);
    [simpl; tauto | reflexivity | exact Hb | simpl; lia].
Defined.
