(* ===== verification/Recovery.v ===== *)
(** * Recovery: transient bus faults never leave the flag stuck

    Every bus operation of [read_unpack] (lines 29 and 38) may fail, and
    the code turns each failure into [self.errors += 1; self.error = 1]
    (lines 32-33, 42-43).  A failure is not sticky: each endpoint and
    [read_unpack] reset the flag first (lines 26, 90, 101, 112, 123).
    [FaultBudget] states what "transient" means for a transport: a
    measure [faults] on its state that no operation at device 20
    increases and that every failed operation decreases.  On any such
    bus, from any object state, repeating a read endpoint clears the flag
    within [faults + 1] calls.  [Lossy], a line that loses a given number
    of transfers, discharges the interface. *)

From S2P Require Import Prelude Bytes Struct Bus Engine Endpoints.

(** A transport whose faults are finitely many. *)
Class FaultBudget (B : Type) `{SMBus B} := {
  faults : B -> nat;
  write_byte_budget v b :
    (faults (smbus_write_byte DEV v b).2 + (if (smbus_write_byte DEV v b).1 then 0 else 1)
       <= faults b)%nat;
  read_byte_budget b :
    (faults (smbus_read_byte DEV b).2 + (if (smbus_read_byte DEV b).1 then 0 else 1)
       <= faults b)%nat;
  write_block_budget reg data b :
    (faults (smbus_write_block DEV reg data b).2
       + (if (smbus_write_block DEV reg data b).1 then 0 else 1) <= faults b)%nat;
}.

(** The faults left to the transport of an object. *)
Definition faults_left {B} `{FaultBudget B} (s : AStar B) : nat := faults (bus s).

(** ** A lossy line *)

Module Lossy.

(** The number of transfers still to be lost; after them the device
    acknowledges every transfer and its registers read 0. *)
Definition line : Type := nat.

#[export] Instance lossy_smbus : SMBus line := {
  smbus_write_byte dev v k :=
    if bool_decide (dev = 20) then match k with O => (true, O) | S k' => (false, k') end
    else (false, k);
  smbus_read_byte dev k :=
    if bool_decide (dev = 20) then match k with O => (Some 0, O) | S k' => (None, k') end
    else (None, k);
  smbus_write_block dev reg data k :=
    if bool_decide (dev = 20) then match k with O => (true, O) | S k' => (false, k') end
    else (false, k);
}.

#[export] Instance lossy_laws : SMBusLaws line.
Proof.
  refine {| bus_ok _ := True |}; try done.
  intros dev k z k' _. simpl. case_bool_decide; [|done].
  destruct k; intros; simplify_eq. unfold byte_range. lia.
Defined.

#[export] Instance lossy_budget : FaultBudget line.
Proof.
  refine {| faults k := k |}; intros; unfold DEV; simpl; destruct b; simpl; lia.
Defined.

End Lossy.

(** ** The flag is cleared within the fault budget *)

Section RecoveryTheory.
Context {B : Type} `{SMBus B} `{!FaultBudget B}.

Lemma bus_reads_budget n b :
  let '(r, k, b') := bus_reads n b in
  (faults b' + (if r then 0 else 1) <= faults b)%nat.
Proof.
  revert b. induction n as [|n IH]; intros b; simpl; [lia|].
  pose proof (read_byte_budget b) as Hb.
  destruct (smbus_read_byte DEV b) as [[z|] b1]; simpl in Hb; [|lia].
  specialize (IH b1). destruct (bus_reads n b1) as [[r k] b2]. destruct r; simpl in *; lia.
Qed.

(** A read transaction never adds faults, and it leaves the flag set
    only by spending one. *)
Lemma read_txn_budget a n fmt (s : AStar B) :
  let s' := (read_txn a n fmt s).2 in
  (faults (bus s') <= faults (bus s))%nat /\
  (error s' = 0 \/ (faults (bus s') < faults (bus s))%nat).
Proof.
  unfold read_txn. pose proof (write_byte_budget a (bus s)) as Hw.
  destruct (smbus_write_byte DEV a (bus s)) as [ok b1]; simpl in Hw.
  pose proof (bus_reads_budget (Z.to_nat n) b1) as Hr.
  destruct (bus_reads _ b1) as [[r k] b2].
  destruct r, ok; simpl in *; unfold flag; lia.
Qed.

Lemma read_register_budget d (s : AStar B) :
  let s' := (read_register d s).2 in
  (faults (bus s') <= faults (bus s))%nat /\
  (error s' = 0 \/ (faults (bus s') < faults (bus s))%nat).
Proof.
  rewrite read_register_run.
  pose proof (read_txn_budget (rd_address d) (rd_size d) (rd_format d) (with_error0 s)) as Hb.
  destruct (read_txn _ _ _ _) as [[v|e] s']; exact Hb.
Qed.

(** C27: Bus failures are transient for the program: on any transport whose faults are finitely many ([FaultBudget]), from any object state, however many failures it has recorded, calling a read endpoint again and again clears the error flag after at most [faults + 1] calls, since every call resets the flag and sets it again only on a failed bus operation. *)
Theorem read_endpoint_recovers c d (s : AStar B) :
  In (d, run_call c) read_endpoints ->
  exists k, (k <= faults_left s)%nat /\ error (run_calls (replicate (S k) c) s) = 0.
Proof.
  intros Hin. pose proof (read_endpoints_register _ _ Hin) as Heq. unfold faults_left.
  remember (faults (bus s)) as n eqn:Hn. revert s Hn.
  induction n as [n IH] using lt_wf_ind. intros s ->.
  destruct (read_register_budget d s) as [_ HE]. rewrite <- Heq in HE.
  destruct HE as [E | Hlt].
  - exists 0%nat. split; [lia|]. exact E.
  - destruct (IH _ Hlt (run_call c s).2 eq_refl) as (k & Hk & Ek).
    exists (S k). split; [lia|]. exact Ek.
Qed.

End RecoveryTheory.

Import Lossy.

Lemma read_endpoint_recovers_witness :
  In (RegDesc 10 2 "H" [PInt 0], run_call (B:=line) CReadBatteryMillivolts) read_endpoints /\
  exists k, (k <= faults_left (astar_init (2%nat : line)))%nat /\
    error (run_calls (replicate (S k) CReadBatteryMillivolts) (astar_init (2%nat : line))) = 0.
Proof.
  split; [simpl; tauto|].
  apply (read_endpoint_recovers CReadBatteryMillivolts (RegDesc 10 2 "H" [PInt 0])). simpl; tauto.
Defined.
