(* ===== verification/Concurrency.v ===== *)
(** * Concurrency: the methods as sequences of atomic statements

    Spec section 5 says the object is not safe for concurrent use, since
    the bus handle and [self.error] are shared, and that a
    reimplementation needs one lock around each transaction.  The code
    has no lock.  This file splits every public method into the Python
    statements of src/a_star.py, each an atomic step on the shared object
    (CPython switches threads between statements, and [time.sleep]
    releases the interpreter lock): a [thread] is either finished with
    its outcome or a statement followed by its continuation.

    - [call_t c] is the method of [c] statement by statement;
      [run_solo_call_t] shows that run alone it is exactly the
      sequential model [run_call].
    - [interleave] runs two threads on one object under a schedule (which
      thread makes the next step); [run_pair] finishes both.
    - [unlocked_race]: on any register file, a schedule of
      [read_battery_millivolts] and [read_encoders] makes the battery
      call read the encoder registers, which neither serial order does.
    [self.errors += 1] is one statement here, although CPython may switch
    threads between its load and its store: the lock theorems do not
    depend on where a call is split, and the races shown need no switch
    inside a statement. *)

From S2P Require Import Prelude Bytes Struct Bus Engine Endpoints Peripheral.

Section Threads.
Context {B : Type} `{SMBus B}.

(** The rest of a thread: finished with its outcome, or a statement (its
    effect [post] on the object) and what follows, both computed from
    the object as the statement finds it. *)
Inductive thread : Type :=
  | TDone (o : outcome pyval)
  | TStep (post : AStar B -> AStar B) (next : AStar B -> thread).

Definition stmt {A} (m : PyM (AStar B) A) (k : outcome A -> thread) : thread :=
  TStep (fun s => (m s).2) (fun s => k (m s).1).

(** A statement whose exception is not caught: it ends the thread. *)
Definition atom {A} (m : PyM (AStar B) A) (k : A -> thread) : thread :=
  stmt m (fun o => match o with Ret a => k a | Raise e => TDone (Raise e) end).

Definition ret_t (v : pyval) : thread := TDone (Ret v).

(** [except: self.errors+=1; self.error=1]: two statements. *)
Definition failure_t (k : thread) : thread :=
  atom incr_errors (fun _ => atom (set_error 1) (fun _ => k)).

(** [[self.bus.read_byte(20) for _ in range(n)]]: one read per step. *)
Fixpoint reads_t (n : nat) (k : outcome (list Z) -> thread) : thread :=
  match n with
  | O => k (Ret [])
  | S n' =>
      stmt (bus_read_byte DEV) (fun o =>
        match o with
        | Ret b => reads_t n' (fun r => k (match r with Ret bs => Ret (b :: bs) | Raise e => Raise e end))
        | Raise e => k (Raise e)
        end)
  end.

(** [read_unpack], lines 26-46. *)
Definition read_unpack_t (address size : Z) (format : String.string) (k : pyval -> thread)
  : thread :=
  atom (set_error 0) (fun _ =>
  stmt (bus_write_byte DEV address) (fun o =>
    let rest :=
      atom (time_sleep SETTLE_US) (fun _ =>
      reads_t (Z.to_nat size) (fun r =>
        match r with
        | Raise _ => failure_t (k (PInt 0))
        | Ret byte_list =>
            atom (buf ← py_bytes byte_list; vs ← struct_unpack format buf; mret (PTuple vs)) k
        end)) in
    match o with Ret _ => rest | Raise _ => failure_t rest end)).

(** [write_pack], lines 51-58. *)
Definition write_pack_t (address : Z) (format : String.string) (data : list pyval) (k : thread)
  : thread :=
  atom (struct_pack format data) (fun data_array =>
  atom (set_error 0) (fun _ =>
  stmt (bus_write_block DEV address data_array) (fun o =>
    match o with Ret _ => k | Raise _ => failure_t k end))).

Definition read_endpoint_t (address size : Z) (format : String.string) (sentinel : list pyval)
  : thread :=
  atom (set_error 0) (fun _ =>
  read_unpack_t address size format (fun v => atom (sentinel_or sentinel v) ret_t)).

Definition write_endpoint_t (address : Z) (format : String.string) (data : list pyval) : thread :=
  atom (set_error 0) (fun _ =>
  write_pack_t address format data (atom check_error (fun _ => ret_t PNone))).

(** The public methods, statement by statement. *)
Definition call_t (c : call) : thread :=
  match c with
  | CLeds r y g => write_endpoint_t 0 "BBB" [r; y; g]
  | CPlayNotes notes =>
      atom (set_error 0) (fun _ =>
      atom (encode_ascii notes) (fun b =>
      write_pack_t 24 "B15s" [PInt 1; b] (atom check_error (fun _ => ret_t PNone))))
  | CMotors l r => write_endpoint_t 6 "hh" [l; r]
  | CReadButtons => read_endpoint_t 3 3 "???" [PInt 0; PInt 0; PInt 0]
  | CReadBatteryMillivolts => read_endpoint_t 10 2 "H" [PInt 0]
  | CReadAnalog => read_endpoint_t 12 12 "HHHHHH" [PInt 0; PInt 0; PInt 0; PInt 0; PInt 0; PInt 0]
  | CReadEncoders => read_endpoint_t 39 4 "hh" [PInt 0; PInt 0]
  | CTestRead8 => read_unpack_t 0 8 "cccccccc" (fun _ => ret_t PNone)
  | CTestRead32 => read_unpack_t 0 32 "cccccccccccccccccccccccccccccccc" (fun _ => ret_t PNone)
  | CTestWrite8 =>
      atom (bus_write_block 20 0 [0; 0; 0; 0; 0; 0; 0; 0]) (fun _ =>
      atom (time_sleep SETTLE_US) (fun _ => ret_t PNone))
  end.

(** ** Running threads *)

Fixpoint run_solo (t : thread) (s : AStar B) : outcome pyval * AStar B :=
  match t with
  | TDone o => (o, s)
  | TStep post next => run_solo (next s) (post s)
  end.

Definition step_thread (t : thread) (s : AStar B) : thread * AStar B :=
  match t with
  | TDone o => (TDone o, s)
  | TStep post next => (next s, post s)
  end.

(** A schedule names the thread of each step: [false] the first,
    [true] the second. *)
Fixpoint interleave (sch : list bool) (t1 t2 : thread) (s : AStar B) : thread * thread * AStar B :=
  match sch with
  | [] => (t1, t2, s)
  | false :: sch' => let '(t1', s') := step_thread t1 s in interleave sch' t1' t2 s'
  | true :: sch' => let '(t2', s') := step_thread t2 s in interleave sch' t1 t2' s'
  end.

(** Both threads in sequence, first then second, or second then first. *)
Definition serial (t1 t2 : thread) (s : AStar B) : outcome pyval * outcome pyval * AStar B :=
  let '(o1, s1) := run_solo t1 s in let '(o2, s2) := run_solo t2 s1 in (o1, o2, s2).

Definition serial_rev (t1 t2 : thread) (s : AStar B) : outcome pyval * outcome pyval * AStar B :=
  let '(o2, s1) := run_solo t2 s in let '(o1, s2) := run_solo t1 s1 in (o1, o2, s2).

(** The schedule, then the first thread to its end, then the second. *)
Definition run_pair (sch : list bool) (t1 t2 : thread) (s : AStar B)
  : outcome pyval * outcome pyval * AStar B :=
  let '(t1', t2', s') := interleave sch t1 t2 s in serial t1' t2' s'.

Definition is_done (t : thread) : bool := match t with TDone _ => true | _ => false end.

End Threads.

Arguments thread : clear implicits.

Section ThreadTheory.
Context {B : Type} `{SMBus B}.

Lemma run_solo_atom {A} (m : PyM (AStar B) A) (k : A -> thread B) s :
  run_solo (atom m k) s = match m s with
                          | (Ret a, s') => run_solo (k a) s'
                          | (Raise e, s') => (Raise e, s')
                          end.
Proof. unfold atom, stmt. simpl. by destruct (m s) as [[] ?]. Qed.

Lemma run_solo_reads n (k : outcome (list Z) -> thread B) s :
  run_solo (reads_t n k) s = let '(r, s') := read_bytes n s in run_solo (k r) s'.
Proof.
  revert k s. induction n as [|n IH]; intros k s; [done|].
  change (read_bytes (S n)) with (b ← bus_read_byte DEV; bs ← read_bytes n; mret (b :: bs)).
  cbn [reads_t stmt run_solo]. py_unfold.
  destruct (bus_read_byte DEV s) as [[b|e] s1]; cbn [fst snd]; [rewrite IH|done].
  by destruct (read_bytes n s1) as [[] ?].
Qed.

Lemma run_solo_failure (k : thread B) s :
  run_solo (failure_t k) s = run_solo k (record_failure s).2.
Proof. reflexivity. Qed.

Lemma run_solo_read_unpack a n fmt (k : pyval -> thread B) s :
  run_solo (read_unpack_t a n fmt k) s =
    match read_unpack a n fmt s with
    | (Ret v, s') => run_solo (k v) s'
    | (Raise e, s') => (Raise e, s')
    end.
Proof.
  unfold read_unpack_t. rewrite run_solo_atom, read_unpack_spec. unfold read_txn.
  cbn [run_solo stmt]. unfold set_error; py_unfold; cbn [fst snd bus errors trace error].
  rewrite bus_write_byte_run. cbn [bus errors error trace].
  destruct (smbus_write_byte DEV a (bus s)) as [[] b1]; cbn [fst snd];
    rewrite ?run_solo_failure; unfold record_failure, incr_errors, set_error; py_unfold;
    cbn [fst snd bus errors error trace];
    rewrite run_solo_atom; unfold time_sleep; py_unfold; cbn [bus errors error trace];
    rewrite run_solo_reads, read_bytes_spec; cbn [bus errors error trace];
    destruct (bus_reads _ b1) as [[[bs|] k'] b2]; cbn [fst snd]; unfold flag;
    rewrite ?run_solo_failure, ?run_solo_atom; unfold record_failure, incr_errors, set_error;
    py_unfold; cbn [fst snd bus errors error trace];
    rewrite <- ?app_assoc, ?Z.add_0_r; try reflexivity.
  all: unfold decode, py_bytes, struct_unpack; destruct (forallb is_byte bs); py_unfold; cbn;
    [destruct (Struct.unpack fmt bs)|]; reflexivity.
Qed.

Lemma run_solo_write_pack a fmt data (k : thread B) s :
  run_solo (write_pack_t a fmt data k) s =
    match write_pack a fmt data s with
    | (Ret _, s') => run_solo k s'
    | (Raise e, s') => (Raise e, s')
    end.
Proof.
  unfold write_pack_t. rewrite run_solo_atom, write_pack_spec. unfold write_txn, struct_pack.
  destruct (Struct.pack fmt data) as [bs|]; py_unfold; cbn [fst snd]; [|reflexivity].
  rewrite run_solo_atom. unfold set_error; py_unfold; cbn [run_solo stmt fst snd].
  rewrite bus_write_block_run. cbn [bus errors error trace].
  destruct (smbus_write_block DEV a bs (bus s)) as [[] b1]; cbn [fst snd];
    rewrite ?run_solo_failure; unfold record_failure, incr_errors, set_error, flag;
    py_unfold; cbn [fst snd bus errors error trace]; by rewrite ?Z.add_0_r.
Qed.

(** The bodies after the endpoint's reset, statement by statement. *)
Lemma run_solo_write_body a fmt data (s : AStar B) :
  run_solo (write_pack_t a fmt data (atom check_error (fun _ => ret_t PNone))) s =
    (write_pack a fmt data;; check_error;; mret PNone) s.
Proof.
  rewrite run_solo_write_pack. unfold check_error, get_error. py_unfold.
  destruct (write_pack a fmt data s) as [[] s']; reflexivity.
Qed.

Lemma run_solo_read_endpoint a n fmt sentinel (s : AStar B) :
  run_solo (read_endpoint_t a n fmt sentinel) s = read_register (RegDesc a n fmt sentinel) s.
Proof.
  unfold read_endpoint_t, read_register. rewrite run_solo_atom. cbn [rd_address rd_size rd_format rd_sentinel].
  unfold set_error. py_unfold. cbn [fst snd]. rewrite run_solo_read_unpack.
  destruct (read_unpack a n fmt _) as [[v|e] s']; [|reflexivity].
  rewrite run_solo_atom. by destruct (sentinel_or sentinel v s') as [[] ?].
Qed.

Lemma run_solo_read_then_none a n fmt (s : AStar B) :
  run_solo (read_unpack_t a n fmt (fun _ => ret_t PNone)) s = (read_unpack a n fmt;; mret PNone) s.
Proof.
  rewrite run_solo_read_unpack. py_unfold. by destruct (read_unpack a n fmt s) as [[] ?].
Qed.

Lemma run_solo_write_endpoint a fmt data (s : AStar B) :
  run_solo (write_endpoint_t a fmt data) s = (write_pack a fmt data;; check_error;; mret PNone) (with_error0 s).
Proof.
  unfold write_endpoint_t. rewrite run_solo_atom. unfold set_error. py_unfold. cbn [fst snd].
  apply run_solo_write_body.
Qed.

Lemma run_solo_call_t c (s : AStar B) : run_solo (call_t c) s = run_call c s.
Proof.
  destruct c; cbn [call_t run_call].
  - by rewrite run_solo_write_endpoint, leds_run.
  - rewrite run_solo_atom, play_notes_run. unfold set_error. py_unfold. cbn [fst snd].
    rewrite run_solo_atom. unfold encode_ascii.
    destruct (forallb _ notes); py_unfold; cbn [fst snd]; [|reflexivity].
    apply run_solo_write_body.
  - by rewrite run_solo_write_endpoint, motors_run.
  - apply run_solo_read_endpoint.
  - apply run_solo_read_endpoint.
  - apply run_solo_read_endpoint.
  - apply run_solo_read_endpoint.
  - apply run_solo_read_then_none.
  - apply run_solo_read_then_none.
  - rewrite run_solo_atom. unfold test_write8. py_unfold.
    destruct (bus_write_block 20 0 _ s) as [[] s']; [|reflexivity].
    rewrite run_solo_atom. by destruct (time_sleep SETTLE_US s') as [[] ?].
Qed.


End ThreadTheory.

(** ** Without the lock *)

Import RegFile.

(** The interleaving of the race, on any register file. *)
Lemma unlocked_race_run (rs : list Z) p es e tr e0 e1 e2 e3 e4 e5 :
  Forall byte_range rs -> rs !! 39%nat = Some e0 -> rs !! 40%nat = Some e1 ->
  rs !! 41%nat = Some e2 -> rs !! 42%nat = Some e3 -> rs !! 43%nat = Some e4 ->
  rs !! 44%nat = Some e5 ->
  let s := mkAStar (RF rs p) es e tr in
  let sch := [false; false; false; false; true; true; true] in
  exists vb ve, Struct.unpack "H" [e0; e1] = Some vb /\ Struct.unpack "hh" [e2; e3; e4; e5] = Some ve /\
    (run_pair sch (call_t CReadBatteryMillivolts) (call_t CReadEncoders) s).1
      = (Ret (PTuple vb), Ret (PTuple ve)) /\
    error (run_pair sch (call_t CReadBatteryMillivolts) (call_t CReadEncoders) s).2 = 0.
Proof.
  intros Hb H39 H40 H41 H42 H43 H44. cbv zeta.
  eexists _, _. split; [reflexivity|]. split; [reflexivity|].
  unfold run_pair. cbn -[Struct.unpack]. rewrite !regfile_write_byte. cbn -[Struct.unpack].
  rewrite !regfile_write_byte. cbn -[Struct.unpack].
  change (Z.to_nat 2) with 2%nat. change (Z.to_nat 4) with 4%nat. change (39 mod 256) with 39.
  unfold serial. cbn [run_solo reads_t stmt].
  rewrite (regfile_read_byte _ e0) by (simpl; done || lia). cbn [run_solo reads_t stmt fst snd bus regs ptr].
  rewrite (regfile_read_byte _ e1) by (simpl; done || lia). cbn [run_solo reads_t stmt fst snd bus regs ptr].
  pose proof (fun i x (Hx : rs !! i = Some x) => Forall_lookup_1 _ _ i x Hb Hx) as Hby.
  unfold atom, stmt, py_bytes. cbn [run_solo].
  rewrite (forallb_is_byte [e0; e1]) by (repeat apply Forall_cons_2; try apply Forall_nil_2; eauto).
  assert (Hu : Struct.unpack "H" [e0; e1] = Some [PInt (e0 + 256 * (e1 + 256 * 0))]) by reflexivity.
  unfold struct_unpack. py_unfold. cbn -[Struct.unpack]. rewrite Hu. cbn -[Struct.unpack].
  unfold sentinel_or, get_error. py_unfold. cbn -[Struct.unpack].
  rewrite bool_decide_false by lia. cbn -[Struct.unpack].
  rewrite (regfile_read_byte _ e2) by (simpl; done || lia). cbn -[Struct.unpack].
  rewrite (regfile_read_byte _ e3) by (simpl; done || lia). cbn -[Struct.unpack].
  rewrite (regfile_read_byte _ e4) by (simpl; done || lia). cbn -[Struct.unpack].
  rewrite (regfile_read_byte _ e5) by (simpl; done || lia). cbn -[Struct.unpack].
  assert (Hbs : is_byte e2 && (is_byte e3 && (is_byte e4 && (is_byte e5 && true))) = true).
  { change (forallb is_byte [e2; e3; e4; e5] = true). apply forallb_is_byte.
    repeat apply Forall_cons_2; try apply Forall_nil_2; eauto. }
  rewrite Hbs. split; reflexivity.
Qed.

(** Run one after the other, in either order, the battery call reads
    its own registers 10 and 11. *)
Lemma serial_battery (rs : list Z) p es e tr r10 r11 :
  Forall byte_range rs -> (45 <= length rs)%nat -> rs !! 10%nat = Some r10 -> rs !! 11%nat = Some r11 ->
  let s := mkAStar (RF rs p) es e tr in
  exists vb, Struct.unpack "H" [r10; r11] = Some vb /\
    (serial (call_t CReadBatteryMillivolts) (call_t CReadEncoders) s).1.1 = Ret (PTuple vb) /\
    (serial_rev (call_t CReadBatteryMillivolts) (call_t CReadEncoders) s).1.1 = Ret (PTuple vb).
Proof.
  intros Hb Hlen H10 H11. cbv zeta.
  assert (Hsl : take (Z.to_nat 2) (drop (Z.to_nat 10) rs) = [r10; r11]).
  { change (Z.to_nat 10) with 10%nat. rewrite (drop_S _ _ _ H10), (drop_S _ _ _ H11). reflexivity. }
  assert (Hbat : forall (s : AStar regfile) q, bus s = RF rs q ->
    exists vb, Struct.unpack "H" [r10; r11] = Some vb /\
      read_register (RegDesc 10 2 "H" [PInt 0]) s = (Ret (PTuple vb), mkAStar (RF rs 12) (errors s) 0
        (trace s ++ read_events 10 (Z.to_nat 2)))).
  { intros s q Hq. rewrite <- Hsl.
    apply (regfile_read_register (RegDesc 10 2 "H" [PInt 0]) s rs q Hq Hb);
      cbn [rd_address rd_size rd_format]; [lia | lia | lia | reflexivity]. }
  destruct (Hbat (mkAStar (RF rs p) es e tr) p eq_refl) as (vb & Hvb & Eb).
  destruct (regfile_read_register (RegDesc 39 4 "hh" [PInt 0; PInt 0]) (mkAStar (RF rs p) es e tr) rs p
              eq_refl Hb ltac:(simpl; lia) ltac:(simpl; lia) ltac:(simpl; lia) eq_refl) as (ve & _ & Ee).
  exists vb. split; [done|]. unfold serial, serial_rev. split.
  { rewrite (run_solo_call_t CReadBatteryMillivolts). cbn [run_call].
    change read_battery_millivolts with (read_register (B:=regfile) (RegDesc 10 2 "H" [PInt 0])).
    rewrite Eb. cbv beta iota zeta. by destruct (run_solo _ _). }
  rewrite (run_solo_call_t CReadEncoders). cbn [run_call].
  change read_encoders with (read_register (B:=regfile) (RegDesc 39 4 "hh" [PInt 0; PInt 0])).
  rewrite Ee. cbv beta iota zeta. rewrite run_solo_call_t. cbn [run_call].
  change read_battery_millivolts with (read_register (B:=regfile) (RegDesc 10 2 "H" [PInt 0])).
  match goal with
  | |- context [read_register _ ?st] => destruct (Hbat st (39 + 4) eq_refl) as (vb' & Hvb' & ->)
  end.
  cbn [fst snd]. congruence.
Qed.

(** C28: Without a lock the object is not safe for two threads, as spec section 5 says: on any register file and from any object state, if [read_encoders] selects its register (39) while [read_battery_millivolts] sleeps between its select (10) and its reads, the battery call returns registers 39-40 decoded, the encoder call registers 41-44, and no error is flagged; run one after the other in either order, the battery call returns its own registers 10-11. *)
Theorem unlocked_race (rs : list Z) p es e tr r10 r11 e0 e1 e2 e3 e4 e5 :
  Forall byte_range rs -> rs !! 10%nat = Some r10 -> rs !! 11%nat = Some r11 ->
  rs !! 39%nat = Some e0 -> rs !! 40%nat = Some e1 -> rs !! 41%nat = Some e2 ->
  rs !! 42%nat = Some e3 -> rs !! 43%nat = Some e4 -> rs !! 44%nat = Some e5 ->
  let s := mkAStar (RF rs p) es e tr in
  let sch := [false; false; false; false; true; true; true] in
  exists vb ve vb0,
    Struct.unpack "H" [e0; e1] = Some vb /\ Struct.unpack "hh" [e2; e3; e4; e5] = Some ve /\
    Struct.unpack "H" [r10; r11] = Some vb0 /\
    (run_pair sch (call_t CReadBatteryMillivolts) (call_t CReadEncoders) s).1
      = (Ret (PTuple vb), Ret (PTuple ve)) /\
    error (run_pair sch (call_t CReadBatteryMillivolts) (call_t CReadEncoders) s).2 = 0 /\
    (serial (call_t CReadBatteryMillivolts) (call_t CReadEncoders) s).1.1 = Ret (PTuple vb0) /\
    (serial_rev (call_t CReadBatteryMillivolts) (call_t CReadEncoders) s).1.1 = Ret (PTuple vb0).
Proof.
  intros Hb H10 H11 H39 H40 H41 H42 H43 H44. cbv zeta.
  destruct (unlocked_race_run rs p es e tr e0 e1 e2 e3 e4 e5 Hb H39 H40 H41 H42 H43 H44)
    as (vb & ve & Hvb & Hve & Er & Ee).
  assert (Hlen : (45 <= length rs)%nat) by (apply lookup_lt_Some in H44; lia).
  destruct (serial_battery rs p es e tr r10 r11 Hb Hlen H10 H11) as (vb0 & Hvb0 & Es & Esr).
  by exists vb, ve, vb0.
Qed.

Lemma unlocked_race_witness :
  let rs := replicate 10 0 ++ [16; 39] ++ replicate 27 0 ++ [5; 0; 7; 0] ++ replicate 5 0 in
  Forall byte_range rs /\ rs !! 10%nat = Some 16 /\ rs !! 11%nat = Some 39 /\
  rs !! 39%nat = Some 5 /\ rs !! 40%nat = Some 0 /\ rs !! 41%nat = Some 7 /\
  rs !! 42%nat = Some 0 /\ rs !! 43%nat = Some 0 /\ rs !! 44%nat = Some 0 /\
  let s := mkAStar (RF rs 0) 0 0 [] in
  let sch := [false; false; false; false; true; true; true] in
  exists vb ve vb0,
    Struct.unpack "H" [5; 0] = Some vb /\ Struct.unpack "hh" [7; 0; 0; 0] = Some ve /\
    Struct.unpack "H" [16; 39] = Some vb0 /\
    (run_pair sch (call_t CReadBatteryMillivolts) (call_t CReadEncoders) s).1
      = (Ret (PTuple vb), Ret (PTuple ve)) /\
    error (run_pair sch (call_t CReadBatteryMillivolts) (call_t CReadEncoders) s).2 = 0 /\
    (serial (call_t CReadBatteryMillivolts) (call_t CReadEncoders) s).1.1 = Ret (PTuple vb0) /\
    (serial_rev (call_t CReadBatteryMillivolts) (call_t CReadEncoders) s).1.1 = Ret (PTuple vb0).
Proof.
  cbv zeta.
  assert (Hb : Forall byte_range (replicate 10 0 ++ [16; 39] ++ replicate 27 0 ++ [5; 0; 7; 0] ++ replicate 5 0)).
  { rewrite !Forall_app. unfold byte_range.
    repeat split; try (apply Forall_replicate; lia); repeat (apply Forall_cons_2; [lia|]); apply Forall_nil_2. }
  split; [exact Hb|]. do 8 (split; [reflexivity|]).
  exact (unlocked_race _ 0 0 0 [] 16 39 5 0 7 0 0 0 Hb eq_refl eq_refl eq_refl eq_refl eq_refl
           eq_refl eq_refl eq_refl).
Defined.
