(* ===== verification/Firmware.v ===== *)
(** * Firmware: the peripheral updating its registers during a read

    The A-Star firmware (outside this repository) refreshes its register
    file (buttons, battery, analog inputs, encoder counts) on its own,
    while the program reads it.  [read_unpack] reads a field one
    [read_byte] transaction at a time (src/a_star.py line 38; the comment
    of lines 16-21 explains why it does not use one block read), so the
    firmware can update a register between two bytes of one field.

    The firmware is a thread [fw_t us] of atomic updates [us] of the
    object (in practice of its register file), interleaved with a
    program thread of [Concurrency] under any schedule.  [run_env]
    runs the program thread in an environment that acts on the object
    before each statement; [run_pair_fw] shows that every interleaving
    with the firmware thread is such a run.  On the register file, with
    updates that only ever store a register's old or new value
    ([fw_upd]), a read endpoint returns bytes that are, one by one, the
    old or the new value of their register: a one-byte field is never
    torn, a multi-byte field can be. *)

From stdpp Require Import relations.
From S2P Require Import Prelude Bytes Struct Bus Engine Endpoints Peripheral Concurrency.

Section Environment.
Context {B : Type} `{SMBus B}.

(** A thread run with an environment: [f i] acts on the object before
    the thread's statement [i], and [g] after its last one. *)
Fixpoint run_env (f : nat -> AStar B -> AStar B) (g : AStar B -> AStar B) (i : nat)
    (t : thread B) (s : AStar B) : outcome pyval * AStar B :=
  match t with
  | TDone o => (o, g s)
  | TStep post next => let s0 := f i s in run_env f g (S i) (next s0) (post s0)
  end.

(** The firmware as a thread: its updates, one atomic step each. *)
Fixpoint fw_t (us : list (AStar B -> AStar B)) : thread B :=
  match us with
  | [] => TDone (Ret PNone)
  | u :: us' => TStep u (fun _ => fw_t us')
  end.

(** All of the updates, in order. *)
Definition fw_apply (us : list (AStar B -> AStar B)) (s : AStar B) : AStar B :=
  fold_left (fun s u => u s) us s.

End Environment.

Import RegFile.

(** A firmware update of the register file: registers [i ..] take the
    bytes [data], as a block write of the bus does. *)
Definition fw_store (i : nat) (data : list Z) (s : AStar regfile) : AStar regfile :=
  mkAStar (RF (store i data (regs (bus s))) (ptr (bus s))) (errors s) (error s) (trace s).

(** Every register holds its [old] or its [new] value. *)
Definition regs_mixed (old new rs : list Z) : Prop :=
  length rs = length old /\
  forall i x, rs !! i = Some x -> old !! i = Some x \/ new !! i = Some x.

(** Bytes read from registers [a ..], each the old or the new value. *)
Definition mixed_slice (old new : list Z) (a : nat) (bs : list Z) : Prop :=
  forall j x, bs !! j = Some x -> old !! (a + j)%nat = Some x \/ new !! (a + j)%nat = Some x.

(** What the firmware may do between two statements of the program:
    change registers only, never the pointer, the flags or the trace,
    and keep every register at its old or new value. *)
Definition fw_upd (old new : list Z) (s s' : AStar regfile) : Prop :=
  ptr (bus s') = ptr (bus s) /\ errors s' = errors s /\ error s' = error s /\
  trace s' = trace s /\ (regs_mixed old new (regs (bus s)) -> regs_mixed old new (regs (bus s'))).

(** What register [j] says of a button: pressed when nonzero. *)
Definition pressed (rs : list Z) (j : nat) : option bool := (fun x => negb (x =? 0)) <$> rs !! j.

#[export] Instance fw_upd_preorder old new : PreOrder (fw_upd old new).
Proof.
  constructor.
  - intros s. unfold fw_upd. naive_solver.
  - intros s1 s2 s3 (? & ? & ? & ? & H12) (? & ? & ? & ? & H23). unfold fw_upd.
    split; [congruence|]. split; [congruence|]. split; [congruence|]. split; [congruence|].
    auto.
Qed.

(** ** Interleavings with the firmware are runs in an environment *)

Section EnvTheory.
Context {B : Type} `{SMBus B}.

Lemma run_env_shift f g i (t : thread B) s :
  run_env f g (S i) t s = run_env (fun j => f (S j)) g i t s.
Proof.
  revert i s. induction t as [o|post next IH]; intros i s; simpl; [done|]. apply IH.
Qed.

Lemma run_env_solo g i (t : thread B) s :
  run_env (fun _ s => s) g i t s = let '(o, s') := run_solo t s in (o, g s').
Proof. revert i s. induction t as [o|post next IH]; intros i s; simpl; [done|]. apply IH. Qed.

Lemma run_solo_fw us (s : AStar B) : run_solo (fw_t us) s = (Ret PNone, fw_apply us s).
Proof. revert s. induction us as [|u us IH]; intros s; simpl; [done|]. apply IH. Qed.

Context (R : relation (AStar B)) `{!PreOrder R}.

Lemma fw_apply_R us s : Forall (fun u => forall s, R s (u s)) us -> R s (fw_apply us s).
Proof.
  intros Hus. revert s. induction Hus as [|u us Hu _ IH]; intros s; simpl; [reflexivity|].
  etransitivity; [apply Hu|apply IH].
Qed.

(** Every schedule of a program thread with the firmware thread is a run
    of the program thread alone, in an environment that applies some of
    the firmware's updates before each of its statements and the rest
    after its last one. *)
Lemma run_pair_fw sch (t : thread B) us s :
  Forall (fun u => forall s, R s (u s)) us ->
  exists f g, (forall i s, R s (f i s)) /\ (forall s, R s (g s)) /\
    run_pair sch t (fw_t us) s = let '(o, s') := run_env f g 0 t s in (o, Ret PNone, s').
Proof.
  revert t us s. induction sch as [|[] sch IH]; intros t us s Hus.
  - exists (fun _ s => s), (fw_apply us). split; [intros; reflexivity|].
    split; [intros; by apply fw_apply_R|].
    rewrite run_env_solo. unfold run_pair, serial. simpl.
    destruct (run_solo t s) as [o s']. by rewrite run_solo_fw.
  - destruct us as [|u us].
    + destruct (IH t [] s (Forall_nil_2 _)) as (f & g & Hf & Hg & E).
      exists f, g. split; [done|]. split; [done|]. rewrite <- E. reflexivity.
    + inversion Hus as [|? ? Hu Hus']; subst.
      destruct (IH t us (u s) Hus') as (f & g & Hf & Hg & E).
      change (run_pair (true :: sch) t (fw_t (u :: us)) s) with (run_pair sch t (fw_t us) (u s)).
      rewrite E. destruct t as [o|post next].
      * exists f, (fun s => g (u s)). split; [done|].
        split; [intros; etransitivity; [apply Hu|apply Hg]|]. reflexivity.
      * exists (fun j => match j with O => fun s => f 0%nat (u s) | S j => f (S j) end), g.
        split; [intros [|j] s'; [etransitivity; [apply Hu|apply Hf]|apply Hf]|].
        split; [done|]. simpl. rewrite !run_env_shift. reflexivity.
  - destruct t as [o|post next].
    + destruct (IH (TDone o) us s Hus) as (f & g & Hf & Hg & E).
      exists f, g. split; [done|]. split; [done|]. rewrite <- E. reflexivity.
    + destruct (IH (next s) us (post s) Hus) as (f & g & Hf & Hg & E).
      exists (fun j => match j with O => fun s => s | S j => f j end), g.
      split; [intros [|j] s'; [reflexivity|apply Hf]|]. split; [done|].
      change (run_pair (false :: sch) (TStep post next) (fw_t us) s)
        with (run_pair sch (next s) (fw_t us) (post s)).
      rewrite E. simpl. rewrite run_env_shift. reflexivity.
Qed.
End EnvTheory.

Section EnvSteps.
Context {B : Type} `{SMBus B}.

Lemma run_env_stmt {A} f g i (m : PyM (AStar B) A) k s :
  run_env f g i (stmt m k) s = run_env f g (S i) (k (m (f i s)).1) (m (f i s)).2.
Proof. reflexivity. Qed.

Lemma run_env_atom {A} f g i (m : PyM (AStar B) A) (k : A -> thread B) s :
  run_env f g i (atom m k) s =
    match m (f i s) with
    | (Ret a, s1) => run_env f g (S i) (k a) s1
    | (Raise e, s1) => (Raise e, g s1)
    end.
Proof. unfold atom, stmt. simpl. by destruct (m (f i s)) as [[] ?]. Qed.
End EnvSteps.

(** ** Reading the register file while the firmware updates it *)

Lemma mixed_slice_bytes old new a bs :
  Forall byte_range old -> Forall byte_range new -> mixed_slice old new a bs -> Forall byte_range bs.
Proof.
  intros Ho Hn Hm. apply Forall_lookup. intros j x Hj.
  destruct (Hm j x Hj) as [E|E]; [exact (Forall_lookup_1 _ _ _ _ Ho E)|exact (Forall_lookup_1 _ _ _ _ Hn E)].
Qed.

Section FirmwareReads.
Context (old new : list Z) (f : nat -> AStar regfile -> AStar regfile) (g : AStar regfile -> AStar regfile).
Hypothesis Hf : forall i s, fw_upd old new s (f i s).

(** Name the object the environment hands to the next statement, with
    what [fw_upd] says of it. *)
Ltac fw_env x :=
  match goal with
  | |- context [f ?j ?t] =>
      let Ep := fresh "Ep" in let Ees := fresh "Ees" in let Ee := fresh "Ee" in
      let Et := fresh "Et" in let Hm := fresh "Hm" in
      destruct (Hf j t) as (Ep & Ees & Ee & Et & Hm); set (x := f j t) in *
  end.

Lemma env_reads n k i (s : AStar regfile) :
  regs_mixed old new (regs (bus s)) -> 0 <= ptr (bus s) ->
  ptr (bus s) + Z.of_nat n <= Z.of_nat (length old) ->
  exists bs s', length bs = n /\ mixed_slice old new (Z.to_nat (ptr (bus s))) bs /\
    regs_mixed old new (regs (bus s')) /\ ptr (bus s') = ptr (bus s) + Z.of_nat n /\
    errors s' = errors s /\ error s' = error s /\
    run_env f g i (reads_t n k) s = run_env f g (i + n) (k (Ret bs)) s'.
Proof.
  revert k i s. induction n as [|n IH]; intros k i s Hm Hp Hn.
  { exists [], s. rewrite Nat.add_0_r, Z.add_0_r. do 6 (split; [done|]). done. }
  destruct (Hf i s) as (Ep & Ees & Ee & _ & Hm').
  specialize (Hm' Hm). simpl reads_t. rewrite run_env_stmt. set (s0 := f i s) in *.
  destruct (lookup_lt_is_Some_2 (regs (bus s0)) (Z.to_nat (ptr (bus s0)))) as [x Hx].
  { destruct Hm' as [-> _]. lia. }
  rewrite (regfile_read_byte s0 x Hx) by lia. cbn [fst snd].
  set (s1 := mkAStar (RF (regs (bus s0)) (ptr (bus s0) + 1)) (errors s0) (error s0)
                     (trace s0 ++ [EvReadByte DEV])).
  destruct (IH (fun r => k match r with Ret bs => Ret (x :: bs) | Raise e => Raise e end) (S i) s1)
    as (bs & s' & Hlen & Hmix & Hm1 & Hp1 & Hes & He & E); simpl; try lia; [done|].
  exists (x :: bs), s'. simpl in Hp1. rewrite E, Nat.add_succ_r. simpl.
  split; [simpl; lia|]. split.
  { intros [|j] y Hy; simpl in Hy.
    - simplify_eq. destruct Hm' as [_ Hm']. rewrite Nat.add_0_r, <- Ep. by apply Hm'.
    - specialize (Hmix j y Hy). unfold s1 in Hmix. cbn [bus ptr] in Hmix. rewrite Ep in Hmix.
      replace (Z.to_nat (ptr (bus s) + 1) + j)%nat with (Z.to_nat (ptr (bus s)) + S j)%nat
        in Hmix by lia. exact Hmix. }
  split; [done|]. split; [lia|]. split; [simpl in Hes; congruence|]. split; [simpl in He; congruence|].
  done.
Qed.

(** A read endpoint on the register file, run while the firmware
    updates it: every byte it reads is the old or the new value of its
    register, it decodes them with no error and returns the tuple. *)
Lemma env_read_endpoint a n fmt sentinel i (s : AStar regfile) :
  regs_mixed old new (regs (bus s)) -> Forall byte_range old -> Forall byte_range new ->
  0 <= a < 256 -> 0 <= n -> a + n <= Z.of_nat (length old) ->
  Struct.calcsize fmt = Some (Z.to_nat n) ->
  exists bs vs s', length bs = Z.to_nat n /\ mixed_slice old new (Z.to_nat a) bs /\
    Struct.unpack fmt bs = Some vs /\
    run_env f g i (read_endpoint_t a n fmt sentinel) s = (Ret (PTuple vs), g s').
Proof.
  intros Hm Ho Hn Ha Hn0 Hlen Hsz.
  unfold read_endpoint_t. rewrite run_env_atom. fw_env x0. rewrite set_error_run.
  unfold read_unpack_t. rewrite run_env_atom. fw_env x1. rewrite set_error_run.
  rewrite run_env_stmt. fw_env x2. rewrite regfile_write_byte. cbn [fst snd].
  rewrite run_env_atom. fw_env x3. rewrite time_sleep_run.
  cbn [bus error errors ptr trace] in *.
  match goal with
  | |- context [run_env f g ?j (reads_t ?m ?K) ?t] =>
      destruct (env_reads m K j t) as (bs & s3 & Hbl & Hmix & _ & _ & _ & He3 & E)
  end; cbn [bus errors error trace];
    [exact (Hm3 (Hm2 (Hm1 (Hm0 Hm)))) | rewrite Ep2, Z.mod_small; lia
    | rewrite Ep2, Z.mod_small, Z2Nat.id; lia |].
  cbn [bus] in Hmix. rewrite Ep2, Z.mod_small in Hmix by lia. rewrite E.
  rewrite run_env_atom. fw_env x4.
  pose proof (mixed_slice_bytes _ _ _ _ Ho Hn Hmix) as Hbs.
  rewrite <- Hbl in Hsz. destruct (Struct.unpack_calcsize _ _ Hsz) as [vs Hvs].
  unfold py_bytes, struct_unpack. rewrite forallb_is_byte by done. py_unfold. rewrite Hvs. cbn [fst snd].
  rewrite run_env_atom. fw_env x5.
  unfold sentinel_or, get_error. py_unfold.
  rewrite bool_decide_false by (cbn in *; congruence). simpl.
  exists bs, vs, x5. rewrite <- Hbl. done.
Qed.
End FirmwareReads.

(** ** Reads under any schedule with the firmware *)

Lemma regs_mixed_refl old new : regs_mixed old new old.
Proof. split; [done|]. intros i x Hx. by left. Qed.

(** A firmware store of bytes [data] from register [i] moves every
    register to its value in [store i data old]. *)
Lemma fw_store_upd old i data (s : AStar regfile) :
  fw_upd old (store i data old) s (fw_store i data s).
Proof.
  unfold fw_upd, fw_store. cbn [bus ptr errors error trace regs].
  do 4 (split; [done|]). intros [Hlen Hm]. unfold store in *.
  split; [by rewrite length_inserts|]. intros j x Hx.
  apply list_lookup_inserts_Some in Hx as [[Hj Hx] | (Hj & Hjl & Hx)]; [by apply Hm|].
  right. apply list_lookup_inserts_Some. right. rewrite <- Hlen. done.
Qed.


Lemma pressed_mixed old new a bs j x :
  mixed_slice old new a bs -> bs !! j = Some x ->
  pressed old (a + j) = Some (negb (x =? 0)) \/ pressed new (a + j) = Some (negb (x =? 0)).
Proof. unfold pressed. intros Hm Hx. destruct (Hm j x Hx) as [-> | ->]; auto. Qed.

Lemma fw_read_endpoint a n fmt sentinel sch us (s : AStar regfile) new :
  Forall byte_range (regs (bus s)) -> Forall byte_range new ->
  0 <= a < 256 -> 0 <= n -> a + n <= Z.of_nat (length (regs (bus s))) ->
  Struct.calcsize fmt = Some (Z.to_nat n) ->
  Forall (fun u => forall s', fw_upd (regs (bus s)) new s' (u s')) us ->
  exists bs vs, length bs = Z.to_nat n /\ mixed_slice (regs (bus s)) new (Z.to_nat a) bs /\
    Struct.unpack fmt bs = Some vs /\
    (run_pair sch (read_endpoint_t a n fmt sentinel) (fw_t us) s).1.1 = Ret (PTuple vs).
Proof.
  intros Ho Hn Ha Hn0 Hlen Hsz Hus.
  destruct (run_pair_fw (fw_upd (regs (bus s)) new) sch (read_endpoint_t a n fmt sentinel) us s Hus)
    as (f & g & Hf & _ & ->).
  destruct (env_read_endpoint (regs (bus s)) new f g Hf a n fmt sentinel 0 s
              (regs_mixed_refl _ _) Ho Hn Ha Hn0 Hlen Hsz) as (bs & vs & s' & Hbl & Hmix & Hvs & ->).
  by exists bs, vs.
Qed.

(** C30: Whatever the schedule, while the firmware updates registers from their old to their new values in any number of atomic steps, a read endpoint on the register file raises nothing, flags nothing and returns the tuple [struct.unpack] makes of bytes each of which is the old or the new value of its own register. *)
Theorem read_under_firmware d fn sch us (s : AStar regfile) new :
  In (d, fn) read_endpoints -> Forall byte_range (regs (bus s)) -> Forall byte_range new ->
  rd_address d + rd_size d <= Z.of_nat (length (regs (bus s))) ->
  Forall (fun u => forall s', fw_upd (regs (bus s)) new s' (u s')) us ->
  exists bs vs, length bs = Z.to_nat (rd_size d) /\
    mixed_slice (regs (bus s)) new (Z.to_nat (rd_address d)) bs /\
    Struct.unpack (rd_format d) bs = Some vs /\
    (run_pair sch (read_endpoint_t (rd_address d) (rd_size d) (rd_format d) (rd_sentinel d))
              (fw_t us) s).1.1 = Ret (PTuple vs).
Proof.
  intros Hin Ho Hn Hlen Hus.
  destruct (read_endpoints_bounds _ _ Hin) as (Ha & Hn0 & _).
  destruct (read_endpoints_rows _ _ Hin) as [Hsz _].
  by apply fw_read_endpoint.
Qed.

(** C31: A one-byte field is never torn: under any schedule with the firmware moving the button registers 3, 4, 5 from old to new values, [read_buttons] returns three booleans, each the state its own register had before or after the update. *)
Theorem buttons_not_torn sch us (s : AStar regfile) new :
  Forall byte_range (regs (bus s)) -> Forall byte_range new -> (6 <= length (regs (bus s)))%nat ->
  Forall (fun u => forall s', fw_upd (regs (bus s)) new s' (u s')) us ->
  exists b0 b1 b2,
    (run_pair sch (call_t CReadButtons) (fw_t us) s).1.1 = Ret (PTuple [PBool b0; PBool b1; PBool b2]) /\
    Forall2 (fun b j => pressed (regs (bus s)) j = Some b \/ pressed new j = Some b)
            [b0; b1; b2] [3; 4; 5]%nat.
Proof.
  intros Ho Hn Hlen Hus.
  destruct (fw_read_endpoint 3 3 "???" [PInt 0; PInt 0; PInt 0] sch us s new Ho Hn)
    as (bs & vs & Hbl & Hmix & Hvs & E); try done; try lia.
  destruct bs as [|x0 [|x1 [|x2 [|]]]]; simpl in Hbl; try lia.
  unfold Struct.unpack in Hvs. simpl in Hvs. simplify_eq.
  eexists _, _, _. split; [exact E|].
  rewrite !Z.mul_0_r, !Z.add_0_r.
  apply Forall2_cons; [exact (pressed_mixed _ _ _ _ 0 x0 Hmix eq_refl)|].
  apply Forall2_cons; [exact (pressed_mixed _ _ _ _ 1 x1 Hmix eq_refl)|].
  apply Forall2_cons; [exact (pressed_mixed _ _ _ _ 2 x2 Hmix eq_refl)|].
  apply Forall2_nil.
Qed.

(** C32: A multi-byte field can be torn: from any object state on any register file, if the firmware stores new bytes [n0; n1] into the left encoder count (registers 39, 40) between the first and the second byte read of [read_encoders], the call returns, with no error flagged, the count made of the old low byte and the new high byte, as [struct.unpack] decodes registers [o39; n1; o41; o42]: neither the old nor the new count when both bytes change (255 moving to 256 is read as 511). *)
Theorem encoders_torn (old : list Z) p es e tr o39 o41 o42 n0 n1 :
  Forall byte_range old -> old !! 39%nat = Some o39 -> old !! 41%nat = Some o41 ->
  old !! 42%nat = Some o42 -> 0 <= n1 < 256 ->
  let s := mkAStar (RF old p) es e tr in
  let sch := [false; false; false; false; false; true] in
  exists vs, Struct.unpack "hh" [o39; n1; o41; o42] = Some vs /\
    (run_pair sch (call_t CReadEncoders) (fw_t [fw_store 39 [n0; n1]]) s).1
      = (Ret (PTuple vs), Ret PNone) /\
    error (run_pair sch (call_t CReadEncoders) (fw_t [fw_store 39 [n0; n1]]) s).2 = 0.
Proof.
  intros Hb H39 H41 H42 Hn1. cbv zeta.
  eexists. split; [reflexivity|]. unfold run_pair. cbn -[Struct.unpack]. rewrite regfile_write_byte. cbn -[Struct.unpack].
  change (Z.to_nat 4) with 4%nat. change (39 mod 256) with 39. cbn -[Struct.unpack].
  rewrite (regfile_read_byte _ o39) by (simpl; done || lia). cbn -[Struct.unpack].
  assert (Hlen : (42 < length old)%nat) by (eapply lookup_lt_Some; eauto).
  assert (Hst : store 39 [n0; n1] old = <[39%nat := n0 mod 256]> (<[40%nat := n1 mod 256]> old)) by reflexivity.
  unfold serial, fw_store. cbn [bus regs ptr errors error trace]. rewrite Hst.
  set (old' := <[39%nat := n0 mod 256]> (<[40%nat := n1 mod 256]> old)).
  assert (H40 : old' !! 40%nat = Some n1).
  { unfold old'. rewrite list_lookup_insert_ne, list_lookup_insert_eq by lia. by rewrite Z.mod_small. }
  assert (H41' : old' !! 41%nat = Some o41) by (unfold old'; by rewrite !list_lookup_insert_ne by lia).
  assert (H42' : old' !! 42%nat = Some o42) by (unfold old'; by rewrite !list_lookup_insert_ne by lia).
  cbn [run_solo stmt].
  rewrite (regfile_read_byte _ n1) by (simpl; done || lia). cbn [run_solo stmt fst snd bus regs ptr].
  rewrite (regfile_read_byte _ o41) by (simpl; done || lia). cbn [run_solo stmt fst snd bus regs ptr].
  rewrite (regfile_read_byte _ o42) by (simpl; done || lia). cbn [run_solo stmt fst snd bus regs ptr].
  assert (Hbs : forallb is_byte [o39; n1; o41; o42] = true).
  { apply forallb_is_byte.
    apply Forall_cons_2; [exact (Forall_lookup_1 _ _ _ _ Hb H39)|].
    apply Forall_cons_2; [exact Hn1|].
    apply Forall_cons_2; [exact (Forall_lookup_1 _ _ _ _ Hb H41)|].
    apply Forall_cons_2; [exact (Forall_lookup_1 _ _ _ _ Hb H42)|]. apply Forall_nil_2. }
  unfold atom, stmt, py_bytes, struct_unpack. cbn [run_solo]. rewrite Hbs. split; reflexivity.
Qed.

(** ** Witnesses *)

Lemma read_under_firmware_witness :
  let old := replicate 39 0 ++ [255; 0; 0; 0] ++ replicate 5 0 in
  let s := astar_init (RF old 0) in
  In (RegDesc 39 4 "hh" [PInt 0; PInt 0], read_encoders) read_endpoints /\
  Forall byte_range (regs (bus s)) /\ Forall byte_range (store 39 [0; 1] old) /\
  39 + 4 <= Z.of_nat (length (regs (bus s))) /\
  Forall (fun u => forall s', fw_upd (regs (bus s)) (store 39 [0; 1] old) s' (u s')) [fw_store 39 [0; 1]] /\
  exists bs vs, length bs = Z.to_nat 4 /\
    mixed_slice (regs (bus s)) (store 39 [0; 1] old) (Z.to_nat 39) bs /\
    Struct.unpack "hh" bs = Some vs /\
    (run_pair [false; false; false; false; false; true] (read_endpoint_t 39 4 "hh" [PInt 0; PInt 0])
              (fw_t [fw_store 39 [0; 1]]) s).1.1 = Ret (PTuple vs).
Proof.
  cbv zeta.
  assert (Ho : Forall byte_range (replicate 39 0 ++ [255; 0; 0; 0] ++ replicate 5 0)).
  { apply Forall_app. split; [apply Forall_replicate; unfold byte_range; lia|].
    apply Forall_app. split; [repeat constructor; unfold byte_range; lia|].
    apply Forall_replicate. unfold byte_range. lia. }
  assert (Hn : Forall byte_range (store 39 [0; 1] (replicate 39 0 ++ [255; 0; 0; 0] ++ replicate 5 0)))
    by (apply store_range; exact Ho).
  assert (Hus : Forall (fun u => forall s',
                  fw_upd (replicate 39 0 ++ [255; 0; 0; 0] ++ replicate 5 0)
                         (store 39 [0; 1] (replicate 39 0 ++ [255; 0; 0; 0] ++ replicate 5 0)) s' (u s'))
                [fw_store 39 [0; 1]]) by (apply Forall_cons_2; [intros; apply fw_store_upd | apply Forall_nil_2]).
  split; [simpl; tauto|]. split; [exact Ho|]. split; [exact Hn|]. split; [simpl; lia|].
  split; [exact Hus|].
  apply (read_under_firmware (RegDesc 39 4 "hh" [PInt 0; PInt 0]) read_encoders); simpl; try tauto; try lia;
    done.
Defined.

Lemma buttons_not_torn_witness :
  let old := [0; 0; 0; 1; 0; 0] in
  let s := astar_init (RF old 0) in
  Forall byte_range (regs (bus s)) /\ Forall byte_range (store 3 [0; 1; 1] old) /\
  (6 <= length (regs (bus s)))%nat /\
  Forall (fun u => forall s', fw_upd (regs (bus s)) (store 3 [0; 1; 1] old) s' (u s')) [fw_store 3 [0; 1; 1]] /\
  exists b0 b1 b2,
    (run_pair [false; false; false; false; false; true] (call_t CReadButtons) (fw_t [fw_store 3 [0; 1; 1]]) s).1.1
      = Ret (PTuple [PBool b0; PBool b1; PBool b2]) /\
    Forall2 (fun b j => pressed (regs (bus s)) j = Some b \/ pressed (store 3 [0; 1; 1] old) j = Some b)
            [b0; b1; b2] [3; 4; 5]%nat.
Proof.
  cbv zeta.
  assert (Ho : Forall byte_range [0; 0; 0; 1; 0; 0]) by (repeat constructor; unfold byte_range; lia).
  assert (Hn : Forall byte_range (store 3 [0; 1; 1] [0; 0; 0; 1; 0; 0])) by (apply store_range; exact Ho).
  assert (Hus : Forall (fun u => forall s', fw_upd [0; 0; 0; 1; 0; 0] (store 3 [0; 1; 1] [0; 0; 0; 1; 0; 0]) s' (u s'))
                [fw_store 3 [0; 1; 1]]) by (apply Forall_cons_2; [intros; apply fw_store_upd | apply Forall_nil_2]).
  split; [exact Ho|]. split; [exact Hn|]. split; [simpl; lia|]. split; [exact Hus|].
  apply buttons_not_torn; [exact Ho | exact Hn | simpl; lia | exact Hus].
Defined.

Lemma encoders_torn_witness :
  let old := replicate 39 0 ++ [255; 0; 0; 0] ++ replicate 5 0 in
  Forall byte_range old /\ old !! 39%nat = Some 255 /\ old !! 41%nat = Some 0 /\
  old !! 42%nat = Some 0 /\ 0 <= 1 < 256 /\
  let s := mkAStar (RF old 0) 0 0 [] in
  let sch := [false; false; false; false; false; true] in
  exists vs, Struct.unpack "hh" [255; 1; 0; 0] = Some vs /\
    (run_pair sch (call_t CReadEncoders) (fw_t [fw_store 39 [0; 1]]) s).1
      = (Ret (PTuple vs), Ret PNone) /\
    error (run_pair sch (call_t CReadEncoders) (fw_t [fw_store 39 [0; 1]]) s).2 = 0.
Proof.
  cbv zeta.
  assert (Ho : Forall byte_range (replicate 39 0 ++ [255; 0; 0; 0] ++ replicate 5 0)).
  { apply Forall_app. split; [apply Forall_replicate; unfold byte_range; lia|].
    apply Forall_app. split; [repeat constructor; unfold byte_range; lia|].
    apply Forall_replicate. unfold byte_range. lia. }
  split; [exact Ho|]. do 3 (split; [reflexivity|]). split; [lia|].
  apply (encoders_torn _ 0 0 0 [] 255 0 0 0 1 Ho eq_refl eq_refl eq_refl). lia.
Defined.
