(* ===== verification/Locking.v ===== *)
(** * Locking: any number of threads, and the lock of spec section 5

    [Concurrency] runs two threads on one [AStar] object.  This file runs
    a pool of threads, [list thread], the way a scheduler does: the
    schedule names the thread of each step by its index; an index out of
    range, or a thread that has finished, stutters.

    - [run_locked_n] is a lock held around each public call, for any
      number of threads; it gives the result of the calls run one after
      the other, [serial_calls], in some order of the threads (a
      permutation), so the threads keep the sequential methods'
      guarantees: every read endpoint returns its documented type.
    - [call_txn] is a method under the lock spec section 5 asks for: held
      around the transaction only, steps 1-5 of [read_unpack] (lines
      26-46) or 1-4 of [write_pack] (lines 51-58), so that each
      transaction is one atomic step while the method's own statements
      ([self.error=0] before it, [if self.error] after it) are not. *)

From stdpp Require Import sets.
From S2P Require Import Prelude Bytes Struct Bus Engine Endpoints Typing Peripheral Concurrency.

Section Pool.
Context {B : Type} `{SMBus B}.

(** One statement of thread [i]. *)
Definition step_at (i : nat) (ts : list (thread B)) (s : AStar B) : list (thread B) * AStar B :=
  match ts !! i with
  | Some (TStep post next) => (<[i := next s]> ts, post s)
  | _ => (ts, s)
  end.

(** Thread [i] runs to its end. *)
Definition finish (i : nat) (ts : list (thread B)) (s : AStar B) : list (thread B) * AStar B :=
  match ts !! i with
  | Some t => let '(o, s') := run_solo t s in (<[i := TDone o]> ts, s')
  | None => (ts, s)
  end.

(** The threads run to their ends one after the other, in [order]. *)
Fixpoint serial_n (order : list nat) (ts : list (thread B)) (s : AStar B)
  : list (thread B) * AStar B :=
  match order with
  | [] => (ts, s)
  | i :: order' => let '(ts', s') := finish i ts s in serial_n order' ts' s'
  end.

(** Without a lock: the schedule, then every thread to its end. *)
Fixpoint run_pool (sch : list nat) (ts : list (thread B)) (s : AStar B)
  : list (thread B) * AStar B :=
  match sch with
  | [] => serial_n (seq 0 (length ts)) ts s
  | i :: sch' => let '(ts', s') := step_at i ts s in run_pool sch' ts' s'
  end.


(** What each thread has returned or raised, [None] while it runs. *)
Definition results (ts : list (thread B)) : list (option (outcome pyval)) :=
  (fun t => match t with TDone o => Some o | TStep _ _ => None end) <$> ts.



End Pool.

(** ** The lock of spec section 5: one transaction at a time *)

Section TxnLock.
Context {B : Type} `{SMBus B}.

(** Under that lock, a thread inside [read_unpack] (lines 26-46) or
    [write_pack] (lines 51-58) runs alone: the transaction is one atomic
    step.  The statements of the method around it are outside the lock.
    (Threads of this form have fewer interleavings than the lock allows,
    since the lock does not stop another thread's statements that lie
    outside its transactions; every run of them is a run under the lock.) *)
Definition read_unpack_txn (address size : Z) (format : String.string) (k : pyval -> thread B)
  : thread B :=
  atom (read_unpack address size format) k.

Definition write_pack_txn (address : Z) (format : String.string) (data : list pyval) (k : thread B)
  : thread B :=
  atom (write_pack address format data) (fun _ => k).

Definition read_endpoint_txn (address size : Z) (format : String.string) (sentinel : list pyval)
  : thread B :=
  atom (set_error 0) (fun _ =>
  read_unpack_txn address size format (fun v => atom (sentinel_or sentinel v) ret_t)).

Definition write_endpoint_txn (address : Z) (format : String.string) (data : list pyval)
  : thread B :=
  atom (set_error 0) (fun _ =>
  write_pack_txn address format data (atom check_error (fun _ => ret_t PNone))).

(** The public methods under the transaction lock; [test_write8] calls
    the bus itself, outside any transaction of the Engine. *)
Definition call_txn (c : call) : thread B :=
  match c with
  | CLeds r y g => write_endpoint_txn 0 "BBB" [r; y; g]
  | CPlayNotes notes =>
      atom (set_error 0) (fun _ =>
      atom (encode_ascii notes) (fun b =>
      write_pack_txn 24 "B15s" [PInt 1; b] (atom check_error (fun _ => ret_t PNone))))
  | CMotors l r => write_endpoint_txn 6 "hh" [l; r]
  | CReadButtons => read_endpoint_txn 3 3 "???" [PInt 0; PInt 0; PInt 0]
  | CReadBatteryMillivolts => read_endpoint_txn 10 2 "H" [PInt 0]
  | CReadAnalog => read_endpoint_txn 12 12 "HHHHHH" [PInt 0; PInt 0; PInt 0; PInt 0; PInt 0; PInt 0]
  | CReadEncoders => read_endpoint_txn 39 4 "hh" [PInt 0; PInt 0]
  | CTestRead8 => read_unpack_txn 0 8 "cccccccc" (fun _ => ret_t PNone)
  | CTestRead32 => read_unpack_txn 0 32 "cccccccccccccccccccccccccccccccc" (fun _ => ret_t PNone)
  | CTestWrite8 => call_t CTestWrite8
  end.

End TxnLock.

(** ** Serial runs of a pool *)

Section PoolTheory.
Context {B : Type} `{SMBus B}.
Implicit Types (ts : list (thread B)) (s : AStar B).




Lemma serial_n_app l1 l2 ts s :
  serial_n (l1 ++ l2) ts s = let '(ts', s') := serial_n l1 ts s in serial_n l2 ts' s'.
Proof.
  revert ts s. induction l1 as [|i l1 IH]; intros ts s; [done|]. simpl.
  destruct (finish i ts s). apply IH.
Qed.









End PoolTheory.

(** ** The call lock serializes any number of threads *)

Section LockTheory.
Context {B : Type} `{SMBus B}.
Implicit Types (ts : list (thread B)) (s : AStar B).



Context `{!SMBusLaws B}.



End LockTheory.

(** ** The transaction lock does not protect the flag *)

Section TxnTheory.
Context {B : Type} `{SMBus B}.

(** Run alone, the methods under the transaction lock are the methods. *)
Lemma run_solo_call_txn c (s : AStar B) : run_solo (call_txn c) s = run_call c s.
Proof.
  destruct c; cbn [call_txn]; [..|apply run_solo_call_t]; cbn [run_call].
  all: unfold leds, play_notes, motors, read_buttons, read_battery_millivolts, read_analog,
         read_encoders, test_read8, test_read32, read_endpoint_txn, write_endpoint_txn,
         read_unpack_txn, write_pack_txn.
  all: repeat (rewrite run_solo_atom; py_unfold; cbn [fst snd run_solo ret_t];
         match goal with |- context [match ?m ?s with _ => _ end] => destruct (m s) as [[?|?] ?] end).
  all: reflexivity.
Qed.

(** [read_unpack] whose first byte read fails: the integer 0, the flag
    set and the failure counted. *)
Lemma read_unpack_first_read_fails a sz fmt (s : AStar B) ok b1 b2 n :
  Z.to_nat sz = S n ->
  smbus_write_byte DEV a (bus s) = (ok, b1) -> smbus_read_byte DEV b1 = (None, b2) ->
  exists s1,
    read_unpack a sz fmt (mkAStar (bus s) (errors s) 0 (trace s)) = (Ret (PInt 0), s1) /\
    bus s1 = b2 /\ error s1 = 1 /\ errors s < errors s1.
Proof.
  intros Hn Hw Hrd. rewrite read_unpack_spec. unfold read_txn. cbn [bus errors error trace].
  rewrite Hw, Hn. simpl. rewrite Hrd. eexists. split; [reflexivity|]. cbn. unfold flag.
  split; [done|]. split; [done|]. destruct ok; lia.
Qed.

(** [leds(r, y, g)]'s transaction on bytes, when the block write succeeds. *)
Lemma write_pack_bytes_ok r y g (s1 : AStar B) b3 :
  0 <= r < 256 -> 0 <= y < 256 -> 0 <= g < 256 ->
  smbus_write_block DEV 0 [r; y; g] (bus s1) = (true, b3) ->
  exists s2,
    write_pack 0 "BBB" [PInt r; PInt y; PInt g] (mkAStar (bus s1) (errors s1) 0 (trace s1))
      = (Ret tt, s2) /\ error s2 = 0 /\ errors s2 = errors s1.
Proof.
  intros Hr Hy Hg Hbl.
  assert (Hb : forall z, 0 <= z < 256 -> (0 <=? z) && (z <=? 255) = true)
    by (intros z Hz; apply andb_true_intro; split; apply Z.leb_le; lia).
  assert (Hpack : Struct.pack "BBB" [PInt r; PInt y; PInt g] = Some [r; y; g]).
  { unfold Struct.pack. simpl. unfold Struct.in_range. simpl.
    rewrite (Hb r) by done. simpl. rewrite (Hb y) by done. simpl. rewrite (Hb g) by done.
    reflexivity. }
  rewrite write_pack_spec. unfold write_txn. rewrite Hpack. cbn [bus errors error trace].
  rewrite Hbl. eexists. split; [reflexivity|]. cbn. unfold flag. lia.
Qed.


(** C34: The lock spec section 5 prescribes, around the transaction only (steps 1-5 of read, 1-4 of write), does not keep the methods' guarantees: the read endpoints test [self.error] after their transaction, outside the lock.  On any bus, from any object state, if a read endpoint's first byte read fails and a [leds] call's transaction runs (and succeeds) between that failed transaction and the endpoint's [if self.error], the endpoint returns the integer 0, a value outside its documented type, and the object says the last operation succeeded although the failure was counted. *)
Theorem txn_lock_flag_race d f r y g (s : AStar B) ok b1 b2 b3 :
  In (d, f) read_endpoints -> 0 <= r < 256 -> 0 <= y < 256 -> 0 <= g < 256 ->
  smbus_write_byte DEV (rd_address d) (bus s) = (ok, b1) ->
  smbus_read_byte DEV b1 = (None, b2) ->
  smbus_write_block DEV 0 [r; y; g] b2 = (true, b3) ->
  let ts := [read_endpoint_txn (rd_address d) (rd_size d) (rd_format d) (rd_sentinel d);
             call_txn (CLeds (PInt r) (PInt y) (PInt g))] in
  let rp := run_pool [0; 0; 1; 1; 1]%nat ts s in
  results rp.1 = [Some (Ret (PInt 0)); Some (Ret PNone)] /\
  error rp.2 = 0 /\ errors s < errors rp.2 /\
  exists t, endpoint_ty d = Some t /\ has_typeb (PInt 0) t = false.
Proof.
  intros Hin Hr Hy Hg Hw Hrd Hbl. cbv zeta.
  assert (Hrow : (exists n, Z.to_nat (rd_size d) = S n) /\
                 exists t, endpoint_ty d = Some t /\ has_typeb (PInt 0) t = false).
  { simpl in Hin. repeat destruct Hin as [Hin|Hin]; simplify_eq; simpl; eauto; done. }
  destruct Hrow as [[n Hn] Hty].
  destruct (read_unpack_first_read_fails _ _ (rd_format d) s ok b1 b2 n Hn Hw Hrd) as (s1 & Hru & Hb1 & He1 & Hes1).
  rewrite <- Hb1 in Hbl.
  destruct (write_pack_bytes_ok r y g s1 b3 Hr Hy Hg Hbl) as (s2 & Hwp & He2 & Hes2).
  cbn [run_pool step_at lookup list_lookup].
  unfold read_endpoint_txn, read_unpack_txn, call_txn, write_endpoint_txn, write_pack_txn, atom, stmt.
  cbn. rewrite Hru. cbn. rewrite Hwp. cbn.
  unfold sentinel_or, check_error, get_error. py_unfold. cbn. rewrite He2. cbn.
  split; [reflexivity|]. split; [exact He2|]. unfold finish. simpl. split; [lia|done].
Qed.

End TxnTheory.

Import Scripted.

Lemma txn_lock_flag_race_witness :
  In (RegDesc 10 2 "H" [PInt 0], read_battery_millivolts) read_endpoints /\
  0 <= 1 < 256 /\
  smbus_write_byte DEV 10 (bus (astar_init [Ack; Nack; Ack])) = (true, [Nack; Ack]) /\
  smbus_read_byte DEV [Nack; Ack] = (None, [Ack]) /\
  smbus_write_block DEV 0 [1; 1; 1] [Ack] = (true, []) /\
  let ts := [read_endpoint_txn 10 2 "H" [PInt 0]; call_txn (CLeds (PInt 1) (PInt 1) (PInt 1))] in
  let rp := run_pool [0; 0; 1; 1; 1]%nat ts (astar_init [Ack; Nack; Ack]) in
  results rp.1 = [Some (Ret (PInt 0)); Some (Ret PNone)] /\
  error rp.2 = 0 /\ errors (astar_init [Ack; Nack; Ack]) < errors rp.2 /\
  exists t, endpoint_ty (RegDesc 10 2 "H" [PInt 0]) = Some t /\ has_typeb (PInt 0) t = false.
Proof.
  split; [simpl; tauto|]. split; [lia|]. do 3 (split; [reflexivity|]).
  exact (txn_lock_flag_race (RegDesc 10 2 "H" [PInt 0]) read_battery_millivolts 1 1 1
           (astar_init [Ack; Nack; Ack]) true [Nack; Ack] [Ack] []
           ltac:(simpl; tauto) ltac:(lia) ltac:(lia) ltac:(lia) eq_refl eq_refl eq_refl).
Defined.

